(** * Bot-Detection-System: log parser, bot detector and blocklist export

    A shallow embedding of the traffic classification pipeline
    ([src/analyzer/parsers.py], [src/analyzer/detectors.py],
    [src/utils/validation.py]) and of the DDoS window rule of the design
    document, with the properties the specification states about them;
    and of the report, the format checks and the file-name utility of
    these files and the result model
    ([src/models/analysis_result.py]), with properties read off the
    code.

    Conventions of the embedding.
    - Python [float] is IEEE binary64: Rocq's primitive [float], with the
      same literals ([0.3] is the double nearest to 3/10 in both).
    - Python [int] is [Z].
    - Python [str] is [string]; a character is read as the code point
      U+0000..U+00FF it encodes.
    - A call that may raise returns a [pyresult]; [try]/[except] is
      pattern matching on it.
    - [Optional[T]] is [option T]; a dict whose iteration order is
      observable is an association list in insertion order. *)

From Stdlib Require Import Floats ZArith List String Ascii Bool Arith Lia Permutation Sorted.
Import ListNotations.

Set Warnings "-inexact-float".

Local Open Scope string_scope.
Local Open Scope list_scope.
Local Open Scope nat_scope.

(* ================================================================= *)
(** ** Python runtime: exceptions, numbers, strings *)

Module Py.

Inductive exn : Type :=
| ValueError
| IndexError
| KeyError (key : string)
| OSError
| Exception (msg : string).

Inductive pyresult (A : Type) : Type :=
| Ok (a : A)
| Raise (e : exn).

Arguments Ok {A} a.
Arguments Raise {A} e.

Definition bind {A B : Type} (c : pyresult A) (f : A -> pyresult B) : pyresult B :=
  match c with
  | Ok a => f a
  | Raise e => Raise e
  end.

(** [str(e)] of an exception, as used in an f-string. *)
Definition exn_str (e : exn) : string :=
  match e with
  | ValueError => "ValueError"
  | IndexError => "IndexError"
  | KeyError k => "'" ++ k ++ "'"
  | OSError => "OSError"
  | Exception m => m
  end.

(** *** Floats: [a > b], [a >= b], [a < b], [min(a, b)], [max(a, b)] *)

Definition fgt (a b : float) : bool := PrimFloat.ltb b a.
Definition fge (a b : float) : bool := PrimFloat.leb b a.
Definition flt (a b : float) : bool := PrimFloat.ltb a b.

(** [min(a, b)] keeps its first argument unless the second is smaller;
    [max(a, b)] keeps its first argument unless the second is larger. *)
Definition pymin (a b : float) : float := if PrimFloat.ltb b a then b else a.
Definition pymax (a b : float) : float := if PrimFloat.ltb a b then b else a.

(** *** Characters *)

Definition code (c : ascii) : nat := nat_of_ascii c.

(** [str.isspace] on U+0000..U+00FF; also the class [\s] of [re]. *)
Definition isspace (c : ascii) : bool :=
  let n := code c in
  ((9 <=? n) && (n <=? 13)) || ((28 <=? n) && (n <=? 32))
  || (n =? 133) || (n =? 160).

(** The class [\d] of [re] on U+0000..U+00FF: the ten ASCII digits. *)
Definition isdigit (c : ascii) : bool :=
  let n := code c in (48 <=? n) && (n <=? 57).

(** Case folding as [re.IGNORECASE] applies it on U+0000..U+00FF to the
    letters of a pattern: an ASCII capital and its small letter agree. *)
Definition lower (c : ascii) : ascii :=
  let n := code c in
  if (65 <=? n) && (n <=? 90) then ascii_of_nat (n + 32) else c.

Definition dquote : ascii := "034"%char.
Definition squote : ascii := "039"%char.
Definition newline : ascii := "010"%char.

(** *** Strings *)

Fixpoint lstrip (s : string) : string :=
  match s with
  | String c s' => if isspace c then lstrip s' else s
  | EmptyString => EmptyString
  end.

(** [rstrip]: a character is dropped when everything from it to the end
    is white space. *)
Fixpoint rstrip (s : string) : string :=
  match s with
  | EmptyString => EmptyString
  | String c s' =>
      match rstrip s' with
      | EmptyString => if isspace c then EmptyString else String c EmptyString
      | t => String c t
      end
  end.

Definition strip (s : string) : string := rstrip (lstrip s).

Definition startswith (s : string) (c : ascii) : bool :=
  match s with
  | String d _ => Ascii.eqb c d
  | EmptyString => false
  end.

(** [c in s] for a one-character string [c]. *)
Fixpoint contains (c : ascii) (s : string) : bool :=
  match s with
  | String d s' => Ascii.eqb c d || contains c s'
  | EmptyString => false
  end.

(** [s[:n]] *)
Fixpoint take (n : nat) (s : string) : string :=
  match n, s with
  | S n', String c s' => String c (take n' s')
  | _, _ => EmptyString
  end.

Fixpoint forall_chars (p : ascii -> bool) (s : string) : bool :=
  match s with
  | String c s' => p c && forall_chars p s'
  | EmptyString => true
  end.

Fixpoint filter_chars (p : ascii -> bool) (s : string) : string :=
  match s with
  | String c s' => if p c then String c (filter_chars p s') else filter_chars p s'
  | EmptyString => EmptyString
  end.

(** *** [int(s)] on a string

    Python accepts surrounding white space, one sign, and decimal digits
    with single underscores between them; everything else is a
    [ValueError]. *)

Definition digit_val (c : ascii) : Z := Z.of_nat (code c) - 48.

(** Digits with single underscores between them; [prev] tells whether
    the previous character was a digit. *)
Fixpoint int_digits (s : string) (prev : bool) (acc : Z) : option Z :=
  match s with
  | EmptyString => if prev then Some acc else None
  | String c s' =>
      if isdigit c then int_digits s' true (10 * acc + digit_val c)
      else if Ascii.eqb c "_" then
        (if prev then
           match s' with
           | String d _ => if isdigit d then int_digits s' false acc else None
           | EmptyString => None
           end
         else None)
      else None
  end.

Definition int (s : string) : pyresult Z :=
  let body (t : string) :=
    match t with
    | String c _ => if isdigit c then int_digits t false 0 else None
    | EmptyString => None
    end in
  let signed :=
    match strip s with
    | String "-" t => option_map Z.opp (body t)
    | String "+" t => body t
    | t => body t
    end in
  match signed with
  | Some z => Ok z
  | None => Raise ValueError
  end.

End Py.

Import Py.

Notation "x <- c ;; k" := (Py.bind c (fun x => k))
  (at level 61, c at next level, right associativity).

(* ================================================================= *)
(** ** The [re] module: a backtracking matcher

    The patterns of the source use literals, character classes, greedy
    repetition of one class, sequence, alternation, capturing groups and
    [$].  The matcher tries alternatives in Python's priority order
    (greedy repetition takes the longest run first and gives characters
    back one at a time; [r1|r2] tries [r1] first), so the groups it
    reports are those of the first successful match.  [^] is satisfied
    at the position where [re.match] starts and is not written. *)

Module Re.

Inductive regex : Type :=
| Eps
| Chr (c : ascii)                   (* a literal character *)
| Cls (p : ascii -> bool)           (* one character of a class *)
| Star (p : ascii -> bool)          (* [p*], greedy *)
| Seq (r1 r2 : regex)
| Alt (r1 r2 : regex)               (* [r1|r2] *)
| Grp (n : nat) (r : regex)         (* capturing group number [n] *)
| Eol.                              (* [$] *)

(** Derived forms. *)
Definition Plus (p : ascii -> bool) : regex := Seq (Cls p) (Star p).
Definition Opt (r : regex) : regex := Alt r Eps.

Fixpoint Lit (s : string) : regex :=
  match s with
  | EmptyString => Eps
  | String c s' => Seq (Chr c) (Lit s')
  end.

Fixpoint Cat (rs : list regex) : regex :=
  match rs with
  | [] => Eps
  | r :: rs' => Seq r (Cat rs')
  end.

(** Character classes of the source patterns. *)
Definition dot (c : ascii) : bool := negb (Ascii.eqb c newline).   (* [.] *)
Definition cls_S (c : ascii) : bool := negb (isspace c).             (* [\S] *)
Definition cls_s (c : ascii) : bool := isspace c.                    (* [\s] *)
Definition cls_d (c : ascii) : bool := isdigit c.                    (* [\d] *)
Definition cls_not (x : ascii) (c : ascii) : bool := negb (Ascii.eqb c x).
Definition cls_in (xs : string) (c : ascii) : bool := contains c xs.

(** The groups of a match, most recent first. *)
Definition captures : Type := list (nat * string).

(** The part of [s] consumed when [rest] remains. *)
Definition consumed (s rest : string) : string :=
  take (String.length s - String.length rest) s.

Section Matcher.

Variable ignorecase : bool.
Variable R : Type.

Definition chr_eq (c d : ascii) : bool :=
  if ignorecase then Ascii.eqb (lower c) (lower d) else Ascii.eqb c d.

(** Greedy [p*]: take one more character when possible, and fall back
    to stopping here when the continuation fails further on. *)
Fixpoint star (p : ascii -> bool) (s : string) (k : string -> option R) : option R :=
  match s with
  | String c s' =>
      if p c then
        match star p s' k with
        | Some r => Some r
        | None => k s
        end
      else k s
  | EmptyString => k s
  end.

Fixpoint run (r : regex) (s : string) (caps : captures)
         (k : string -> captures -> option R) : option R :=
  match r with
  | Eps => k s caps
  | Chr c =>
      match s with
      | String d s' => if chr_eq c d then k s' caps else None
      | EmptyString => None
      end
  | Cls p =>
      match s with
      | String d s' => if p d then k s' caps else None
      | EmptyString => None
      end
  | Star p => star p s (fun s' => k s' caps)
  | Seq r1 r2 => run r1 s caps (fun s1 caps1 => run r2 s1 caps1 k)
  | Alt r1 r2 =>
      match run r1 s caps k with
      | Some x => Some x
      | None => run r2 s caps k
      end
  | Grp n r1 => run r1 s caps (fun s1 caps1 => k s1 ((n, consumed s s1) :: caps1))
  | Eol =>
      match s with
      | EmptyString => k s caps
      | String c EmptyString => if Ascii.eqb c newline then k s caps else None
      | _ => None
      end
  end.

End Matcher.

(** A match object: the groups and what follows the match. *)
Record Match : Type := { groups : captures; rest : string }.

(** [re.match(pattern, s)] and [re.match(pattern, s, re.IGNORECASE)] *)
Definition match_ (ignorecase : bool) (r : regex) (s : string) : option Match :=
  run ignorecase Match r s [] (fun s' caps => Some {| groups := caps; rest := s' |}).

Definition matches (ignorecase : bool) (r : regex) (s : string) : bool :=
  match match_ ignorecase r s with Some _ => true | None => false end.

(** [m.group(n)]; a number that is no group of the pattern is an
    [IndexError]. *)
Fixpoint lookup (n : nat) (caps : captures) : option string :=
  match caps with
  | [] => None
  | (m, v) :: caps' => if n =? m then Some v else lookup n caps'
  end.

Definition group (m : Match) (n : nat) : pyresult string :=
  match lookup n (groups m) with
  | Some v => Ok v
  | None => Raise IndexError
  end.

(** The length of the match of [r] at the start of [s]. *)
Definition match_len (r : regex) (s : string) : option nat :=
  match match_ false r s with
  | Some m => Some (String.length s - String.length (rest m))
  | None => None
  end.

(** [re.sub(pattern, '', s)] for a pattern that matches no empty string:
    scanning from the left, every match is deleted and the scan goes on
    behind it.  [skip] counts the characters of the current match that
    are still to be dropped. *)
Fixpoint sub_go (r : regex) (s : string) (skip : nat) : string :=
  match s with
  | EmptyString => EmptyString
  | String c s' =>
      match skip with
      | S n => sub_go r s' n
      | O =>
          match match_len r s with
          | Some (S n) => sub_go r s' n
          | _ => String c (sub_go r s' 0)
          end
      end
  end.

Definition sub_empty (r : regex) (s : string) : string := sub_go r s 0.

End Re.

Import Re.

(* ================================================================= *)
(** ** Data model *)

(** Modelled from the spec: the [TrafficPattern] class of
    [src/analyzer/core.py], which is not among the sources.  The fields
    are the ones the design document lists for it and the detector
    reads: counts are integers, rates and times are floats, and
    [unique_paths] is the count of distinct paths. *)
Module TrafficPattern.
Record t : Type := {
  ip : string;
  request_count : Z;
  requests_per_minute : float;
  requests_per_hour : float;
  user_agents : list string;
  unique_paths : Z;
  error_rate : float;
  suspicious_requests : Z;
  avg_response_time : float
}.
End TrafficPattern.

(** [detectors.py], [class BotSignature] *)
Module BotSignature.
Record t : Type := {
  name : string;
  user_agent_patterns : list regex;
  behavior_patterns : list string;
  confidence_score : float;
  description : string
}.
End BotSignature.

(** [detectors.py], [class BotDetectionResult] *)
Module BotDetectionResult.
Record t : Type := {
  ip : string;
  is_bot : bool;
  confidence : float;
  reasons : list string;
  risk_level : string;
  recommended_action : string
}.
End BotDetectionResult.

(** A [Dict[str, V]] in insertion order, with [d[k] = v] and [d[k]]. *)
Definition dict (V : Type) : Type := list (string * V).

Fixpoint setitem {V : Type} (d : dict V) (k : string) (v : V) : dict V :=
  match d with
  | [] => [(k, v)]
  | (k', v') :: d' =>
      if String.eqb k k' then (k, v) :: d' else (k', v') :: setitem d' k v
  end.

Fixpoint getitem {V : Type} (d : dict V) (k : string) : pyresult V :=
  match d with
  | [] => Raise (KeyError k)
  | (k', v) :: d' => if String.eqb k k' then Ok v else getitem d' k
  end.

Definition values {V : Type} (d : dict V) : list V := map snd d.

(* ================================================================= *)
(** ** [src/analyzer/detectors.py] *)

Module Detectors.

Import TrafficPattern BotSignature BotDetectionResult.

Local Open Scope float_scope.

(** [rate_limit_thresholds], the dict built in [__init__]. *)
Record Thresholds : Type := {
  th_requests_per_minute : float;
  th_requests_per_hour : float;
  error_rate_threshold : float;
  suspicious_path_threshold : float
}.

Record BotDetector : Type := {
  bot_signatures : list BotSignature.t;
  suspicious_patterns : dict (list string);
  rate_limit_thresholds : Thresholds
}.

Definition _load_bot_signatures : list BotSignature.t :=
  [ {| name := "Curl Bot";
       user_agent_patterns := [ Seq (Lit "curl/") (Star dot) ];          (* curl/.* *)
       behavior_patterns := ["high_frequency"; "single_path"; "tool_based"];
       confidence_score := 0.9;
       description := "Command-line tool often used for automated requests" |};
    {| name := "Python Requests";
       user_agent_patterns := [ Seq (Lit "python-requests/") (Star dot) ]; (* python-requests/.* *)
       behavior_patterns := ["high_frequency"; "api_focused"; "automated"];
       confidence_score := 0.8;
       description := "Python HTTP library commonly used in scripts" |};
    {| name := "Wget Bot";
       user_agent_patterns := [ Seq (Lit "Wget/") (Star dot) ];           (* Wget/.* *)
       behavior_patterns := ["sequential_download"; "high_frequency"];
       confidence_score := 0.9;
       description := "Download tool often used for scraping" |};
    {| name := "Generic Bot";
       user_agent_patterns :=
         [ Cat [Star dot; Lit "bot"; Star dot];                            (* .*bot.* *)
           Cat [Star dot; Lit "crawler"; Star dot];                        (* .*crawler.* *)
           Cat [Star dot; Lit "spider"; Star dot] ];                       (* .*spider.* *)
       behavior_patterns := ["systematic_crawling"];
       confidence_score := 0.7;
       description := "Generic bot patterns in user agent" |};
    {| name := "Headless Browser";
       user_agent_patterns :=
         [ Seq (Lit "HeadlessChrome") (Star dot);                          (* HeadlessChrome.* *)
           Seq (Lit "PhantomJS") (Star dot) ];                             (* PhantomJS.* *)
       behavior_patterns := ["automated_browsing"];
       confidence_score := 0.6;
       description := "Headless browser automation" |};
    {| name := "Security Scanner";
       user_agent_patterns :=
         [ Cat [Star dot; Lit "scan"; Star dot];                           (* .*scan.* *)
           Cat [Star dot; Lit "vuln"; Star dot];                           (* .*vuln.* *)
           Cat [Star dot; Lit "security"; Star dot] ];                     (* .*security.* *)
       behavior_patterns := ["vulnerability_scanning"; "path_enumeration"];
       confidence_score := 0.95;
       description := "Security scanning tools" |} ].

Definition _load_suspicious_patterns : dict (list string) :=
  [ ("malicious_paths",
     ["/.env"; "/admin"; "/wp-admin"; "/phpmyadmin"; "/config";
      "/backup"; "/database"; "/xmlrpc.php"; "/wp-config.php";
      "/server-status"; "/server-info"; "/.git"; "/.svn";
      "/api/v1/admin"; "/api/admin"; "/administrator"]);
    ("vulnerability_paths",
     ["/etc/passwd"; "/proc/version"; "/windows/system32";
      "/../../../"; "/cgi-bin/"; "/shell.php"; "/upload.php"]);
    ("bot_behaviors",
     ["rapid_sequential_requests"; "identical_intervals";
      "no_referrer_headers"; "single_session_high_volume";
      "error_code_farming"]) ].

(** [BotDetector.__init__] *)
Definition __init__ : BotDetector :=
  {| bot_signatures := _load_bot_signatures;
     suspicious_patterns := _load_suspicious_patterns;
     rate_limit_thresholds :=
       {| th_requests_per_minute := 10;
          th_requests_per_hour := 300;
          error_rate_threshold := 0.3;
          suspicious_path_threshold := 0.1 |} |}.

(** [_analyze_user_agents]: the three nested loops, [bot_score] threaded
    through them. *)
Definition _analyze_user_agents (self : BotDetector) (user_agents : list string) : float :=
  match user_agents with
  | [] => 0.5                                        (* No user agent is suspicious *)
  | _ =>
      fold_left (fun bot_score ua =>
        fold_left (fun bot_score signature =>
          fold_left (fun bot_score pattern =>
            if Re.matches true pattern ua
            then pymax bot_score signature.(confidence_score)
            else bot_score)
          signature.(user_agent_patterns) bot_score)
        self.(bot_signatures) bot_score)
      user_agents 0.0
  end.

Definition _is_timing_suspicious (self : BotDetector) (pattern : TrafficPattern.t) : bool :=
  fgt pattern.(requests_per_minute) 5 && flt pattern.(avg_response_time) 100.

Definition _calculate_risk_level (self : BotDetector) (confidence : float)
           (pattern : TrafficPattern.t) : string :=
  if fge confidence 0.9 || (pattern.(suspicious_requests) >? 5)%Z then "CRITICAL"
  else if fge confidence 0.7 || fgt pattern.(requests_per_minute) 20 then "HIGH"
  else if fge confidence 0.5 || fgt pattern.(requests_per_minute) 10 then "MEDIUM"
  else "LOW".

(** [dict.get(key, default)] *)
Definition dict_get {V : Type} (d : dict V) (k : string) (default : V) : V :=
  match getitem d k with
  | Ok v => v
  | Raise _ => default
  end.

Definition _recommend_action (self : BotDetector) (risk_level : string)
           (pattern : TrafficPattern.t) : string :=
  let actions :=
    [ ("CRITICAL", "BLOCK_IMMEDIATELY - High confidence malicious bot");
      ("HIGH", "RATE_LIMIT_STRICT - Apply strict rate limiting");
      ("MEDIUM", "RATE_LIMIT_MODERATE - Apply moderate rate limiting");
      ("LOW", "MONITOR - Continue monitoring for patterns") ] in
  dict_get actions risk_level "MONITOR".

Section Formatting.

(** The f-string conversions [{x:.1f}], [{x:.1%}] and [{n}]: Python's
    number formatting, taken as given. *)
Variable fmt_1f : float -> string.
Variable fmt_pct : float -> string.
Variable fmt_int : Z -> string.

(** [_analyze_single_ip]: [confidence] and [reasons] are the two local
    variables, updated by each block in turn. *)
Definition _analyze_single_ip (self : BotDetector) (pattern : TrafficPattern.t)
  : BotDetectionResult.t :=
  let confidence := 0.0 in
  let reasons : list string := [] in
  (* Rate-based detection *)
  let '(confidence, reasons) :=
    if fgt pattern.(requests_per_minute) self.(rate_limit_thresholds).(th_requests_per_minute)
    then (confidence + 0.3,
          reasons ++ ["High request rate: " ++ fmt_1f pattern.(requests_per_minute) ++ " req/min"]%string)
    else (confidence, reasons) in
  (* User agent analysis *)
  let bot_ua_score := _analyze_user_agents self pattern.(user_agents) in
  let confidence := confidence + bot_ua_score * 0.3 in
  let reasons :=
    if fgt bot_ua_score 0 then reasons ++ ["Bot-like user agent detected"%string] else reasons in
  (* Path diversity analysis *)
  let '(confidence, reasons) :=
    if (pattern.(unique_paths) =? 1)%Z && (pattern.(request_count) >? 10)%Z
    then (confidence + 0.2, reasons ++ ["Low path diversity with high volume"%string])
    else (confidence, reasons) in
  (* Error rate analysis *)
  let '(confidence, reasons) :=
    if fgt pattern.(error_rate) self.(rate_limit_thresholds).(error_rate_threshold)
    then (confidence + 0.2,
          reasons ++ ["High error rate: " ++ fmt_pct pattern.(error_rate)]%string)
    else (confidence, reasons) in
  (* Suspicious path analysis *)
  let '(confidence, reasons) :=
    if (pattern.(suspicious_requests) >? 0)%Z
    then (confidence + 0.4,
          reasons ++ ["Suspicious path requests: " ++ fmt_int pattern.(suspicious_requests)]%string)
    else (confidence, reasons) in
  (* Response time analysis *)
  let '(confidence, reasons) :=
    if _is_timing_suspicious self pattern
    then (confidence + 0.1, reasons ++ ["Suspicious timing patterns"%string])
    else (confidence, reasons) in
  (* Determine final classification *)
  let is_bot := fgt confidence 0.5 in
  let risk_level := _calculate_risk_level self confidence pattern in
  let recommended_action := _recommend_action self risk_level pattern in
  {| BotDetectionResult.ip := pattern.(TrafficPattern.ip);
     is_bot := is_bot;
     confidence := pymin 1.0 confidence;
     reasons := reasons;
     risk_level := risk_level;
     recommended_action := recommended_action |}.

(** [detect_bots]: one verdict per entry of the pattern map, stored
    under the same key. *)
Definition detect_bots (self : BotDetector) (traffic_patterns : dict TrafficPattern.t)
  : dict BotDetectionResult.t :=
  fold_left (fun results '(ip, pattern) =>
               setitem results ip (_analyze_single_ip self pattern))
            traffic_patterns [].

End Formatting.

Definition risk_order : dict Z :=
  [("LOW", 0%Z); ("MEDIUM", 1%Z); ("HIGH", 2%Z); ("CRITICAL", 3%Z)].

(** The list comprehension of [export_blocklist]: the filter looks each
    verdict's level up in [risk_order] and so may raise [KeyError]. *)
Fixpoint blocklist_of (results : list BotDetectionResult.t) (min_level : Z)
  : pyresult (list string) :=
  match results with
  | [] => Ok []
  | result :: results' =>
      level <- getitem risk_order result.(risk_level) ;;
      tail <- blocklist_of results' min_level ;;
      Ok (if (level >=? min_level)%Z then result.(BotDetectionResult.ip) :: tail else tail)
  end.

Definition export_blocklist (self : BotDetector)
           (detection_results : dict BotDetectionResult.t)
           (min_risk_level : string) : pyresult (list string) :=
  min_level <- getitem risk_order min_risk_level ;;
  blocklist_of (values detection_results) min_level.

End Detectors.

(* ================================================================= *)
(** ** [src/analyzer/parsers.py] *)

(** [datetime.datetime]: the fields of a point in time; [tzinfo] is the
    offset from UTC in seconds and microseconds of an aware value. *)
Module Datetime.
Record t : Type := {
  year : Z; month : Z; day : Z;
  hour : Z; minute : Z; second : Z;
  tzinfo : option (Z * Z)
}.
End Datetime.

(** Modelled from the spec: the [LogEntry] class of
    [src/analyzer/core.py], which is not among the sources.  It is the
    record the parser builds with keyword arguments, field for field the
    dataclass that [src/main_analyzer.py] declares under the same name. *)
Module LogEntry.
Record t : Type := {
  ip : string;
  country : string;
  timestamp : Datetime.t;
  method : string;
  path : string;
  status_code : Z;
  response_size : Z;
  user_agent : string;
  response_time : Z
}.
End LogEntry.

Module Parsers.

Import LogEntry.

(** The three patterns.  The comments give the source text with [\x22]
    written for the double quote and [{0,}] for a star that stands
    before a closing parenthesis. *)

(** [^(\S+) \S+ \S+ \[([^\]]+)\] \x22(\S+) ([^\x22]{0,}) \S+\x22 (\d+) (\d+|-)] *)
Definition _get_common_log_pattern : regex :=
  Cat [ Grp 1 (Plus cls_S); Chr " "; Plus cls_S; Chr " "; Plus cls_S; Chr " ";
        Chr "["; Grp 2 (Plus (cls_not "]")); Chr "]"; Chr " ";
        Chr dquote; Grp 3 (Plus cls_S); Chr " "; Grp 4 (Star (cls_not dquote));
        Chr " "; Plus cls_S; Chr dquote; Chr " ";
        Grp 5 (Plus cls_d); Chr " "; Grp 6 (Alt (Plus cls_d) (Chr "-")) ].

(** [^(\S+) \S+ \S+ \[([^\]]+)\] \x22(\S+) ([^\x22]{0,}) \S+\x22 (\d+) (\d+|-) \x22([^\x22]{0,})\x22 \x22([^\x22]{0,})\x22] *)
Definition _get_combined_log_pattern : regex :=
  Cat [ Grp 1 (Plus cls_S); Chr " "; Plus cls_S; Chr " "; Plus cls_S; Chr " ";
        Chr "["; Grp 2 (Plus (cls_not "]")); Chr "]"; Chr " ";
        Chr dquote; Grp 3 (Plus cls_S); Chr " "; Grp 4 (Star (cls_not dquote));
        Chr " "; Plus cls_S; Chr dquote; Chr " ";
        Grp 5 (Plus cls_d); Chr " "; Grp 6 (Alt (Plus cls_d) (Chr "-")); Chr " ";
        Chr dquote; Grp 7 (Star (cls_not dquote)); Chr dquote; Chr " ";
        Chr dquote; Grp 8 (Star (cls_not dquote)); Chr dquote ].

(** [^(\S+) - (\S+) - \[([^\]]+)\] \x22(\S+) ([^\x22]{0,}) HTTP/[\d\.]+\x22\s+(\d+)\s+(\d+)\s+\x22([^\x22]{0,})\x22\s+\x22([^\x22]{0,})\x22\s+(\d+)$] *)
Definition _get_custom_log_pattern : regex :=
  Cat [ Grp 1 (Plus cls_S); Lit " - "; Grp 2 (Plus cls_S); Lit " - ";
        Chr "["; Grp 3 (Plus (cls_not "]")); Chr "]"; Chr " ";
        Chr dquote; Grp 4 (Plus cls_S); Chr " "; Grp 5 (Star (cls_not dquote));
        Lit " HTTP/"; Plus (fun c => cls_d c || Ascii.eqb c "."); Chr dquote;
        Plus cls_s; Grp 6 (Plus cls_d);
        Plus cls_s; Grp 7 (Plus cls_d);
        Plus cls_s; Chr dquote; Grp 8 (Star (cls_not dquote)); Chr dquote;
        Plus cls_s; Chr dquote; Grp 9 (Star (cls_not dquote)); Chr dquote;
        Plus cls_s; Grp 10 (Plus cls_d); Eol ].

(** [self.patterns], the dict with the keys ['common'], ['combined'] and
    ['custom']. *)
Record Patterns : Type := {
  common : regex;
  combined : regex;
  custom : regex
}.

Record LogParser : Type := { patterns : Patterns }.

(** [LogParser.__init__] *)
Definition __init__ : LogParser :=
  {| patterns := {| common := _get_common_log_pattern;
                    combined := _get_combined_log_pattern;
                    custom := _get_custom_log_pattern |} |}.

(** [try: body except (ValueError, IndexError): return None] *)
Definition except_value_index {A : Type} (body : pyresult (option A)) : pyresult (option A) :=
  match body with
  | Raise ValueError => Ok None
  | Raise IndexError => Ok None
  | other => other
  end.

(** The formats of [_parse_timestamp], in the order of the list. *)
Definition formats : list string :=
  [ "%d/%b/%Y:%H:%M:%S %z";       (* Apache format with timezone *)
    "%d/%b/%Y:%H:%M:%S";          (* Apache format without timezone *)
    "%d/%m/%Y:%H:%M:%S";          (* Alternative date format *)
    "%Y-%m-%d %H:%M:%S";          (* ISO-like format *)
    "%d/%b/%Y:%H:%M:%S +0000" ].  (* With explicit timezone *)

(** [[+-]\d{4}$] *)
Definition tz_suffix : regex :=
  Cat [ Cls (cls_in "+-"); Cls cls_d; Cls cls_d; Cls cls_d; Cls cls_d; Eol ].

Section WithLibrary.

(** [datetime.strptime(string, format)], and the lines that iterating
    over [open(path, 'r', encoding='utf-8', errors='ignore')] yields. *)
Variable strptime : string -> string -> pyresult Datetime.t.
Variable read_lines : string -> pyresult (list string).

(** [for fmt in formats: try: return strptime(...) except ValueError: continue] *)
Fixpoint try_formats (timestamp_str : string) (fmts : list string)
  : pyresult (option Datetime.t) :=
  match fmts with
  | [] => Ok None
  | fmt :: fmts' =>
      match strptime timestamp_str fmt with
      | Ok dt => Ok (Some dt)
      | Raise ValueError => try_formats timestamp_str fmts'
      | Raise e => Raise e
      end
  end.

Definition _parse_timestamp (self : LogParser) (timestamp_str : string)
  : pyresult (option Datetime.t) :=
  r <- try_formats timestamp_str formats ;;
  match r with
  | Some dt => Ok (Some dt)
  | None =>
      (* Try to handle timezone manually if needed *)
      if contains "+" timestamp_str || contains "-" timestamp_str then
        let timestamp_clean := strip (Re.sub_empty tz_suffix timestamp_str) in
        try_formats timestamp_clean formats
      else Ok None
  end.

Definition _parse_custom_format (self : LogParser) (line : string)
  : pyresult (option LogEntry.t) :=
  match Re.match_ false self.(patterns).(custom) line with
  | None => Ok None
  | Some m =>
      except_value_index (
        ip <- group m 1 ;;
        country <- group m 2 ;;
        timestamp_str <- group m 3 ;;
        method <- group m 4 ;;
        path <- group m 5 ;;
        status_code <- (g <- group m 6 ;; int g) ;;
        response_size <- (g <- group m 7 ;; if negb (String.eqb g "-") then int g else Ok 0%Z) ;;
        referer <- group m 8 ;;
        user_agent <- group m 9 ;;
        response_time <- (g <- group m 10 ;; int g) ;;
        (* Parse timestamp *)
        timestamp <- _parse_timestamp self timestamp_str ;;
        match timestamp with
        | None => Ok None
        | Some timestamp =>
            Ok (Some {| ip := ip;
                        country := country;
                        timestamp := timestamp;
                        method := method;
                        path := path;
                        status_code := status_code;
                        response_size := response_size;
                        user_agent := user_agent;
                        response_time := response_time |})
        end)
  end.

Definition _parse_combined_format (self : LogParser) (line : string)
  : pyresult (option LogEntry.t) :=
  match Re.match_ false self.(patterns).(combined) line with
  | None => Ok None
  | Some m =>
      except_value_index (
        ip <- group m 1 ;;
        timestamp_str <- group m 2 ;;
        method <- group m 3 ;;
        path <- group m 4 ;;
        status_code <- (g <- group m 5 ;; int g) ;;
        response_size <- (g <- group m 6 ;; if negb (String.eqb g "-") then int g else Ok 0%Z) ;;
        referer <- group m 7 ;;
        user_agent <- group m 8 ;;
        (* Parse timestamp *)
        timestamp <- _parse_timestamp self timestamp_str ;;
        match timestamp with
        | None => Ok None
        | Some timestamp =>
            Ok (Some {| ip := ip;
                        country := "--";           (* Not available in combined format *)
                        timestamp := timestamp;
                        method := method;
                        path := path;
                        status_code := status_code;
                        response_size := response_size;
                        user_agent := user_agent;
                        response_time := 0%Z |})   (* Not available in combined format *)
        end)
  end.

Definition _parse_common_format (self : LogParser) (line : string)
  : pyresult (option LogEntry.t) :=
  match Re.match_ false self.(patterns).(common) line with
  | None => Ok None
  | Some m =>
      except_value_index (
        ip <- group m 1 ;;
        timestamp_str <- group m 2 ;;
        method <- group m 3 ;;
        path <- group m 4 ;;
        status_code <- (g <- group m 5 ;; int g) ;;
        response_size <- (g <- group m 6 ;; if negb (String.eqb g "-") then int g else Ok 0%Z) ;;
        (* Parse timestamp *)
        timestamp <- _parse_timestamp self timestamp_str ;;
        match timestamp with
        | None => Ok None
        | Some timestamp =>
            Ok (Some {| ip := ip;
                        country := "--";           (* Not available in common format *)
                        timestamp := timestamp;
                        method := method;
                        path := path;
                        status_code := status_code;
                        response_size := response_size;
                        user_agent := "";          (* Not available in common format *)
                        response_time := 0%Z |})   (* Not available in common format *)
        end)
  end.

Definition parse_log_line (self : LogParser) (line : string)
  : pyresult (option LogEntry.t) :=
  let line := strip line in
  if String.eqb line "" || startswith line "#" then Ok None
  else
    (* Try custom format first *)
    entry <- _parse_custom_format self line ;;
    match entry with
    | Some e => Ok (Some e)
    | None =>
        (* Try combined format *)
        entry <- _parse_combined_format self line ;;
        match entry with
        | Some e => Ok (Some e)
        | None =>
            (* Try common format *)
            entry <- _parse_common_format self line ;;
            match entry with
            | Some e => Ok (Some e)
            | None => Ok None
            end
        end
    end.

(** The loop of [parse_log_file] over the lines of the file, [entries]
    being the list built so far. *)
Fixpoint parse_lines (self : LogParser) (lines : list string) (entries : list LogEntry.t)
  : pyresult (list LogEntry.t) :=
  match lines with
  | [] => Ok entries
  | line :: lines' =>
      entry <- parse_log_line self line ;;
      match entry with
      | Some e => parse_lines self lines' (entries ++ [e])
      | None => parse_lines self lines' entries
      end
  end.

Definition parse_log_file (self : LogParser) (file_path : string)
  : pyresult (list LogEntry.t) :=
  match (lines <- read_lines file_path ;; parse_lines self lines []) with
  | Ok entries => Ok entries
  | Raise e =>
      Raise (Exception ("Failed to parse log file " ++ file_path ++ ": " ++ exn_str e))
  end.

End WithLibrary.

End Parsers.

(* ================================================================= *)
(** ** [src/utils/validation.py] *)

Module Validation.

(** [[<>\x22\']], the double and the single quote among its four
    characters *)
Definition harmful : regex :=
  Cls (fun c => Ascii.eqb c "<" || Ascii.eqb c ">" || Ascii.eqb c dquote || Ascii.eqb c squote).

Definition sanitize_user_agent (user_agent : string) : string :=
  if String.eqb user_agent "" || String.eqb user_agent "-" then "Unknown"
  else
    (* Remove potentially harmful characters *)
    let sanitized := Re.sub_empty harmful user_agent in
    (* Truncate if too long *)
    let sanitized :=
      if 500 <? String.length sanitized then (take 500 sanitized ++ "...")%string else sanitized in
    strip sanitized.

End Validation.

(* ================================================================= *)
(** ** A reference [datetime.strptime]

    The parser is stated over any [strptime].  For running it on
    concrete lines this module gives one: CPython's algorithm
    ([Lib/_strptime.py], C locale) for the directives that occur in
    [Parsers.formats].  The format is turned into a regular expression
    (a run of white space becomes [\s+], a directive its pattern, any
    other character itself), the expression is matched ignoring case,
    the whole string must be consumed, and the fields are converted and
    checked as the [date], [datetime] and [timezone] constructors check
    them.  A directive outside this list is answered with [ValueError]. *)

Module Strptime.

Definition rng (lo hi : ascii) (c : ascii) : bool :=
  (code lo <=? code c) && (code c <=? code hi).

Definition nothing : regex := Cls (fun _ => false).

Fixpoint Alts (rs : list regex) : regex :=
  match rs with
  | [] => nothing
  | [r] => r
  | r :: rs' => Alt r (Alts rs')
  end.

Definition D : regex := Cls cls_d.

Definition a_month : list string :=
  ["jan"; "feb"; "mar"; "apr"; "may"; "jun"; "jul"; "aug"; "sep"; "oct"; "nov"; "dec"].

(** The group numbers standing for the named groups. *)
Definition g_d := 1.
Definition g_b := 2.
Definition g_Y := 3.
Definition g_H := 4.
Definition g_M := 5.
Definition g_S := 6.
Definition g_z := 7.
Definition g_m := 8.

Definition directive (d : ascii) : option regex :=
  if Ascii.eqb d "d" then            (* 3[0-1]|[1-2]\d|0[1-9]|[1-9]| [1-9] *)
    Some (Grp g_d (Alts [ Seq (Chr "3") (Cls (rng "0" "1")); Seq (Cls (rng "1" "2")) D;
                          Seq (Chr "0") (Cls (rng "1" "9")); Cls (rng "1" "9");
                          Seq (Chr " ") (Cls (rng "1" "9")) ]))
  else if Ascii.eqb d "m" then       (* 1[0-2]|0[1-9]|[1-9] *)
    Some (Grp g_m (Alts [ Seq (Chr "1") (Cls (rng "0" "2"));
                          Seq (Chr "0") (Cls (rng "1" "9")); Cls (rng "1" "9") ]))
  else if Ascii.eqb d "b" then       (* jan|feb|...|dec *)
    Some (Grp g_b (Alts (map Lit a_month)))
  else if Ascii.eqb d "Y" then       (* \d\d\d\d *)
    Some (Grp g_Y (Cat [D; D; D; D]))
  else if Ascii.eqb d "H" then       (* 2[0-3]|[0-1]\d|\d *)
    Some (Grp g_H (Alts [ Seq (Chr "2") (Cls (rng "0" "3")); Seq (Cls (rng "0" "1")) D; D ]))
  else if Ascii.eqb d "M" then       (* [0-5]\d|\d *)
    Some (Grp g_M (Alts [ Seq (Cls (rng "0" "5")) D; D ]))
  else if Ascii.eqb d "S" then       (* 6[0-1]|[0-5]\d|\d *)
    Some (Grp g_S (Alts [ Seq (Chr "6") (Cls (rng "0" "1")); Seq (Cls (rng "0" "5")) D; D ]))
  else if Ascii.eqb d "z" then       (* [+-]\d\d:?[0-5]\d(:?[0-5]\d(\.\d{1,6})?)?|(?-i:Z) *)
    Some (Grp g_z (Alt
      (Cat [ Cls (cls_in "+-"); D; D; Opt (Chr ":"); Cls (rng "0" "5"); D;
             Opt (Cat [ Opt (Chr ":"); Cls (rng "0" "5"); D;
                        Opt (Cat [ Chr "."; D; Opt (Seq D (Opt (Seq D (Opt (Seq D
                                   (Opt (Seq D (Opt D)))))))) ]) ]) ])
      (Cls (Ascii.eqb "Z"))))
  else None.

(** [TimeRE.pattern]: [ws] tells that the previous character of the
    format was white space, already turned into [\s+]. *)
Fixpoint pattern (fmt : string) (ws : bool) : option regex :=
  match fmt with
  | EmptyString => Some Eps
  | String c rest =>
      if Ascii.eqb c "%" then
        match rest with
        | String d rest' =>
            match directive d, pattern rest' false with
            | Some r, Some r' => Some (Seq r r')
            | _, _ => None
            end
        | EmptyString => None
        end
      else if isspace c then
        match pattern rest true with
        | Some r' => Some (if ws then r' else Seq (Plus cls_s) r')
        | None => None
        end
      else
        match pattern rest false with
        | Some r' => Some (Seq (Chr c) r')
        | None => None
        end
  end.

Definition is_leap (y : Z) : bool :=
  ((y mod 4 =? 0) && negb (y mod 100 =? 0) || (y mod 400 =? 0))%Z.

Definition days_in_month (y m : Z) : Z :=
  if (m =? 2)%Z then (if is_leap y then 29 else 28)%Z
  else if ((m =? 4) || (m =? 6) || (m =? 9) || (m =? 11))%Z then 30%Z
  else 31%Z.

Fixpoint index_of (x : string) (l : list string) (i : Z) : option Z :=
  match l with
  | [] => None
  | y :: l' => if String.eqb x y then Some i else index_of x l' (i + 1)%Z
  end.

Fixpoint lower_str (s : string) : string :=
  match s with
  | String c s' => String (lower c) (lower_str s')
  | EmptyString => EmptyString
  end.

(** A group converted with [int], or the default when the directive is
    not part of the format. *)
Definition int_group (caps : captures) (g : nat) (default : Z) : pyresult Z :=
  match lookup g caps with
  | Some v => int v
  | None => Ok default
  end.

(** The conversion of the [%z] group to seconds and microseconds. *)
Definition gmtoff (z : string) : pyresult (Z * Z) :=
  if String.eqb z "Z" then Ok (0, 0)%Z
  else
    z1 <- (if String.eqb (substring 3 1 z) ":" then
             let z := (substring 0 3 z ++ substring 4 (String.length z) z)%string in
             if 5 <? String.length z then
               if negb (String.eqb (substring 5 1 z) ":") then Raise ValueError
               else Ok (substring 0 5 z ++ substring 6 (String.length z) z)%string
             else Ok z
           else Ok z) ;;
    hours <- int (substring 1 2 z1) ;;
    minutes <- int (substring 3 2 z1) ;;
    seconds <- (let s := substring 5 2 z1 in if String.eqb s "" then Ok 0%Z else int s) ;;
    let remainder := substring 8 (String.length z1) z1 in
    let padding := take (6 - String.length remainder) "000000" in
    fraction <- int (remainder ++ padding) ;;
    let off := (hours * 3600 + minutes * 60 + seconds)%Z in
    Ok (if startswith z1 "-" then (- off, - fraction)%Z else (off, fraction)).

Definition strptime (data_string format : string) : pyresult Datetime.t :=
  match pattern format false with
  | None => Raise ValueError                            (* bad directive, stray % *)
  | Some r =>
      match Re.match_ true r data_string with
      | None => Raise ValueError                        (* does not match format *)
      | Some found =>
          if negb (String.eqb (rest found) "") then Raise ValueError   (* unconverted data *)
          else
            let caps := groups found in
            year <- int_group caps g_Y 1900 ;;
            month <- match lookup g_b caps with
                     | Some b =>
                         match index_of (lower_str b) a_month 1 with
                         | Some i => Ok i
                         | None => Raise ValueError
                         end
                     | None => int_group caps g_m 1
                     end ;;
            day <- int_group caps g_d 1 ;;
            hour <- int_group caps g_H 0 ;;
            minute <- int_group caps g_M 0 ;;
            second <- int_group caps g_S 0 ;;
            tz <- match lookup g_z caps with
                  | Some z => off <- gmtoff z ;; Ok (Some off)
                  | None => Ok None
                  end ;;
            if ((year <? 1) || (9999 <? year) || (day <? 1)
                || (days_in_month year month <? day) || (59 <? second))%Z
            then Raise ValueError
            else
              match tz with
              | Some (s, us) =>
                  if (Z.abs (s * 1000000 + us) <? 86400 * 1000000)%Z
                  then Ok {| Datetime.year := year; Datetime.month := month;
                             Datetime.day := day; Datetime.hour := hour;
                             Datetime.minute := minute; Datetime.second := second;
                             Datetime.tzinfo := Some (s, us) |}
                  else Raise ValueError
              | None =>
                  Ok {| Datetime.year := year; Datetime.month := month;
                        Datetime.day := day; Datetime.hour := hour;
                        Datetime.minute := minute; Datetime.second := second;
                        Datetime.tzinfo := None |}
              end
      end
  end.

End Strptime.

(* ================================================================= *)
(** ** DDoS window analyzer *)

Module DDoS.

Import LogEntry.

Local Open Scope Z_scope.

(** [config.py], [DDOS_DETECTION] *)
Record Config : Type := {
  time_window_minutes : Z;
  min_requests_threshold : Z;
  min_ip_diversity : float;
  min_error_rate : float
}.

Definition DDOS_DETECTION : Config :=
  {| time_window_minutes := 5;
     min_requests_threshold := 1000;
     min_ip_diversity := 0.1%float;
     min_error_rate := 0.5%float |}.

(** [models/analysis_result.py], [class DDosAlert] *)
Record DDosAlert : Type := {
  timestamp : Datetime.t;
  request_count : Z;
  unique_ips : Z;
  error_rate : float;
  severity : string;
  top_ips : dict Z;
  duration_minutes : Z
}.

(** Days from 1970-01-01 to a date of the proleptic Gregorian calendar,
    and back. *)
Definition days_from_civil (y m d : Z) : Z :=
  let y := if m <=? 2 then y - 1 else y in
  let era := y / 400 in
  let yoe := y - era * 400 in
  let doy := (153 * (if 2 <? m then m - 3 else m + 9) + 2) / 5 + d - 1 in
  let doe := yoe * 365 + yoe / 4 - yoe / 100 + doy in
  era * 146097 + doe - 719468.

Definition civil_from_days (z : Z) : Z * Z * Z :=
  let z := z + 719468 in
  let era := z / 146097 in
  let doe := z - era * 146097 in
  let yoe := (doe - doe / 1460 + doe / 36524 - doe / 146096) / 365 in
  let doy := doe - (365 * yoe + yoe / 4 - yoe / 100) in
  let mp := (5 * doy + 2) / 153 in
  let d := doy - (153 * mp + 2) / 5 + 1 in
  let m := if mp <? 10 then mp + 3 else mp - 9 in
  (yoe + era * 400 + (if m <=? 2 then 1 else 0), m, d).

(** Seconds since the epoch; a naive value is read as UTC. *)
Definition epoch (dt : Datetime.t) : Z :=
  let offset := match Datetime.tzinfo dt with Some (s, _) => s | None => 0 end in
  days_from_civil (Datetime.year dt) (Datetime.month dt) (Datetime.day dt) * 86400
  + Datetime.hour dt * 3600 + Datetime.minute dt * 60 + Datetime.second dt - offset.

(** The naive UTC value of a number of seconds since the epoch. *)
Definition of_epoch (t : Z) : Datetime.t :=
  let '(y, m, d) := civil_from_days (t / 86400) in
  let r := t mod 86400 in
  {| Datetime.year := y; Datetime.month := m; Datetime.day := d;
     Datetime.hour := r / 3600; Datetime.minute := (r / 60) mod 60;
     Datetime.second := r mod 60; Datetime.tzinfo := None |}.

(** An [int] as a [float], and [a / b] on two [int]s. *)
Definition to_float (z : Z) : float := PrimFloat.of_uint63 (Uint63.of_Z z).
Definition true_div (a b : Z) : float := PrimFloat.div (to_float a) (to_float b).

(** Modelled from the spec: the start of the window of an entry.  The
    window scan of section 4.4 is code of [src/analyzer/core.py], which
    is not among the sources.  Windows are tumbling buckets of
    [time_window_minutes], keyed by their start in seconds since the
    epoch. *)
Definition window_start (cfg : Config) (e : LogEntry.t) : Z :=
  let width := time_window_minutes cfg * 60 in
  let t := epoch (LogEntry.timestamp e) in
  t - t mod width.

(** Modelled from the spec: an entry joins the bucket of its window, or
    opens it. *)
Fixpoint add_to_window (start : Z) (e : LogEntry.t) (ws : list (Z * list LogEntry.t))
  : list (Z * list LogEntry.t) :=
  match ws with
  | [] => [(start, [e])]
  | (s, es) :: ws' =>
      if s =? start then (s, es ++ [e]) :: ws' else (s, es) :: add_to_window start e ws'
  end.

(** Modelled from the spec: the buckets of an entry stream, in the order
    in which their first entries arrive. *)
Definition windows (cfg : Config) (entries : list LogEntry.t) : list (Z * list LogEntry.t) :=
  fold_left (fun ws e => add_to_window (window_start cfg e) e ws) entries [].

Fixpoint distinct (l : list string) : list string :=
  match l with
  | [] => []
  | x :: l' => if existsb (String.eqb x) l' then distinct l' else x :: distinct l'
  end.

(** Modelled from the spec: the statistics of one window, the number of
    requests, the number of distinct IPs, and the share of requests
    with a status of 400 or more. *)
Definition window_request_count (es : list LogEntry.t) : Z := Z.of_nat (List.length es).
Definition window_unique_ips (es : list LogEntry.t) : Z :=
  Z.of_nat (List.length (distinct (map LogEntry.ip es))).
Definition window_error_rate (es : list LogEntry.t) : float :=
  true_div (Z.of_nat (List.length (filter (fun e => 400 <=? LogEntry.status_code e) es)))
           (window_request_count es).

(** Modelled from the spec: the alert rule of section 4.4.  A window is
    an alert when its volume reaches the threshold, its error rate
    reaches [min_error_rate], and the fraction of distinct sources is
    below the floor [min_ip_diversity]. *)
Definition is_alert (cfg : Config) (es : list LogEntry.t) : bool :=
  (min_requests_threshold cfg <=? window_request_count es)
  && fge (window_error_rate es) (min_error_rate cfg)
  && flt (true_div (window_unique_ips es) (window_request_count es)) (min_ip_diversity cfg).

Section Alerts.

(** The severity of a window, from its request count and error rate, and
    its table of top contributors: the design document leaves the
    breakpoints and the size of the table to the implementer. *)
Variable severity_of : Z -> float -> string.
Variable top_ips_of : list LogEntry.t -> dict Z.

(** Modelled from the spec: the alert of a window. *)
Definition alert_of (cfg : Config) (w : Z * list LogEntry.t) : DDosAlert :=
  {| timestamp := of_epoch (fst w);
     request_count := window_request_count (snd w);
     unique_ips := window_unique_ips (snd w);
     error_rate := window_error_rate (snd w);
     severity := severity_of (window_request_count (snd w)) (window_error_rate (snd w));
     top_ips := top_ips_of (snd w);
     duration_minutes := time_window_minutes cfg |}.

(** Modelled from the spec: one pass over the windows, an alert for each
    window that satisfies the rule. *)
Definition detect_ddos (cfg : Config) (entries : list LogEntry.t) : list DDosAlert :=
  map (alert_of cfg) (filter (fun w => is_alert cfg (snd w)) (windows cfg entries)).

End Alerts.

End DDoS.

(* ================================================================= *)
(** ** [src/analyzer/detectors.py]: the report *)

Module Reports.

Import BotDetectionResult Detectors.

Local Open Scope string_scope.

(** A number that is an [int] or a [float]. *)
Inductive number : Type :=
  | Int (n : Z)
  | Float (x : float).

(** [collections.Counter(iterable)]: the count of each element, under
    keys in the order of first occurrence. *)
Definition Counter (l : list string) : dict Z :=
  fold_left (fun c k => setitem c k (dict_get c k 0 + 1)%Z) l [].

(** [sorted(l, key=lambda x: x.confidence, reverse=True)]: a stable
    sort on [<] between the keys; among equal keys the order of [l] is
    kept. *)
Fixpoint insert_desc (x : BotDetectionResult.t) (l : list BotDetectionResult.t)
  : list BotDetectionResult.t :=
  match l with
  | [] => [x]
  | y :: l' =>
      if flt x.(confidence) y.(confidence) then y :: insert_desc x l' else x :: y :: l'
  end.

Definition sorted_desc (l : list BotDetectionResult.t) : list BotDetectionResult.t :=
  fold_right insert_desc [] l.

(** [s.split(sep)[0]]: the part of [s] before the first [sep]. *)
Fixpoint split_head (sep s : string) : string :=
  if String.prefix sep s then ""
  else match s with
       | EmptyString => ""
       | String c s' => String c (split_head sep s')
       end.

(** The dicts of the report: ['summary'], an item of ['top_bots'], and
    the report itself. *)
Record Summary : Type := {
  total_ips_analyzed : Z;
  detected_bots : Z;
  bot_percentage : number;
  risk_distribution : dict Z
}.

Module TopBot.
Record t : Type := {
  ip : string;
  confidence : float;
  risk_level : string;
  reasons : list string
}.
End TopBot.

Record Report : Type := {
  summary : Summary;
  top_bots : list TopBot.t;
  recommended_actions : dict Z;
  immediate_blocks : list string;
  rate_limit_candidates : list string
}.

(** [len(x)] *)
Definition len {A : Type} (l : list A) : Z := Z.of_nat (List.length l).

(** [x in l] for a list of strings. *)
Definition str_in (x : string) (l : list string) : bool := existsb (String.eqb x) l.

Definition generate_bot_report (self : BotDetector)
           (detection_results : dict BotDetectionResult.t) : Report :=
  let total_ips := len detection_results in
  let bot_ips := filter is_bot (values detection_results) in
  let risk_distribution := Counter (map BotDetectionResult.risk_level (values detection_results)) in
  (* Top bot IPs by confidence *)
  let top_bots := firstn 10 (sorted_desc (filter is_bot (values detection_results))) in
  (* Recommended actions summary *)
  let action_summary :=
    Counter (map (fun result => split_head " - " result.(recommended_action))
                 (values detection_results)) in
  {| summary :=
       {| total_ips_analyzed := total_ips;
          detected_bots := len bot_ips;
          bot_percentage :=
            if (total_ips >? 0)%Z
            then Float (PrimFloat.mul (DDoS.true_div (len bot_ips) total_ips) 100)
            else Int 0;
          risk_distribution := risk_distribution |};
     top_bots :=
       map (fun bot => {| TopBot.ip := bot.(BotDetectionResult.ip);
                          TopBot.confidence := bot.(BotDetectionResult.confidence);
                          TopBot.risk_level := bot.(BotDetectionResult.risk_level);
                          TopBot.reasons := firstn 3 bot.(BotDetectionResult.reasons) |})
           top_bots;
     recommended_actions := action_summary;
     immediate_blocks :=
       map BotDetectionResult.ip
           (filter (fun result => String.eqb result.(BotDetectionResult.risk_level) "CRITICAL")
                   (values detection_results));
     rate_limit_candidates :=
       map BotDetectionResult.ip
           (filter (fun result => str_in result.(BotDetectionResult.risk_level) ["HIGH"; "MEDIUM"])
                   (values detection_results)) |}.

End Reports.

(* ================================================================= *)
(** ** [src/utils/validation.py]: file names and format detection *)

Module ValidationUtils.

Local Open Scope string_scope.

(** [is_valid_status_code] *)
Definition is_valid_status_code (status_code : Z) : bool :=
  (100 <=? status_code)%Z && (status_code <=? 599)%Z.

(** [re.sub(pattern, repl, s)] for a pattern that matches no empty
    string: scanning from the left, every match is replaced by [repl]
    and the scan goes on behind it.  [skip] counts the characters of the
    current match that are still to be dropped. *)
Fixpoint sub_go (r : regex) (repl s : string) (skip : nat) : string :=
  match s with
  | EmptyString => EmptyString
  | String c s' =>
      match skip with
      | S n => sub_go r repl s' n
      | O =>
          match match_len r s with
          | Some (S n) => repl ++ sub_go r repl s' n
          | _ => String c (sub_go r repl s' 0)
          end
      end
  end.

Definition sub (r : regex) (repl s : string) : string := sub_go r repl s 0.

(** [s.strip(chars)] *)
Fixpoint lstrip_chars (chars s : string) : string :=
  match s with
  | String c s' => if contains c chars then lstrip_chars chars s' else s
  | EmptyString => EmptyString
  end.

Fixpoint rstrip_chars (chars s : string) : string :=
  match s with
  | EmptyString => EmptyString
  | String c s' =>
      match rstrip_chars chars s' with
      | EmptyString => if contains c chars then EmptyString else String c EmptyString
      | t => String c t
      end
  end.

Definition strip_chars (chars s : string) : string :=
  rstrip_chars chars (lstrip_chars chars s).

(** The class of the first substitution, whose nine characters are
    [<], [>], [:], the double quote, [/], the backslash, [|], [?] and
    the asterisk; and [[\x00-\x1f\x7f-\x9f]]. *)
Definition special (c : ascii) : bool :=
  cls_in "<>:" c || Ascii.eqb c dquote || cls_in "/\|?*" c.

Definition control (c : ascii) : bool :=
  (code c <=? 31)%nat || ((127 <=? code c)%nat && (code c <=? 159)%nat).

Definition sanitize_filename (filename : string) : string :=
  if String.eqb filename "" then "unnamed"
  else
    (* Remove path separators and special characters *)
    let sanitized := sub (Cls special) "_" filename in
    (* Remove control characters *)
    let sanitized := sub (Cls control) "" sanitized in
    (* Trim and remove leading/trailing dots and spaces *)
    let sanitized := strip_chars ". " sanitized in
    (* Ensure not empty *)
    let sanitized := if String.eqb sanitized "" then "unnamed" else sanitized in
    (* Limit length *)
    if (255 <? String.length sanitized)%nat then take 255 sanitized else sanitized.

(** The patterns of [detect_log_format], in the order of the dict. *)
Definition apache_common : regex :=
  Cat [ Plus cls_S; Chr " "; Plus cls_S; Chr " "; Plus cls_S; Chr " ";
        Chr "["; Plus (cls_not "]"); Chr "]"; Chr " ";
        Chr dquote; Plus cls_S; Chr " "; Star (cls_not dquote); Chr " "; Plus cls_S;
        Chr dquote; Chr " "; Plus cls_d; Chr " "; Plus cls_d ].

Definition apache_combined : regex :=
  Cat [ Plus cls_S; Chr " "; Plus cls_S; Chr " "; Plus cls_S; Chr " ";
        Chr "["; Plus (cls_not "]"); Chr "]"; Chr " ";
        Chr dquote; Plus cls_S; Chr " "; Star (cls_not dquote); Chr " "; Plus cls_S;
        Chr dquote; Chr " "; Plus cls_d; Chr " "; Plus cls_d;
        Chr " "; Chr dquote; Star (cls_not dquote); Chr dquote;
        Chr " "; Chr dquote; Star (cls_not dquote); Chr dquote ].

Definition nginx_combined : regex :=
  Cat [ Plus cls_S; Lit " - "; Plus cls_S; Chr " ";
        Chr "["; Plus (cls_not "]"); Chr "]"; Chr " ";
        Chr dquote; Plus cls_S; Chr " "; Star (cls_not dquote); Chr " "; Plus cls_S;
        Chr dquote; Chr " "; Plus cls_d; Chr " "; Plus cls_d;
        Chr " "; Chr dquote; Star (cls_not dquote); Chr dquote;
        Chr " "; Chr dquote; Star (cls_not dquote); Chr dquote ].

Definition custom : regex :=
  Cat [ Plus cls_S; Lit " - "; Plus cls_S; Lit " - ";
        Chr "["; Plus (cls_not "]"); Chr "]"; Chr " ";
        Chr dquote; Plus cls_S; Chr " "; Star (cls_not dquote);
        Lit " HTTP/"; Plus (fun c => cls_d c || Ascii.eqb c "."); Chr dquote;
        Plus cls_s; Plus cls_d; Plus cls_s; Plus cls_d;
        Plus cls_s; Chr dquote; Star (cls_not dquote); Chr dquote;
        Plus cls_s; Chr dquote; Star (cls_not dquote); Chr dquote;
        Plus cls_s; Plus cls_d; Eol ].

Definition patterns : dict regex :=
  [ ("apache_common", apache_common);
    ("apache_combined", apache_combined);
    ("nginx_combined", nginx_combined);
    ("custom", custom) ].

(** [d[k] += 1] for a key of [d]. *)
Definition increment (d : dict Z) (k : string) : dict Z :=
  setitem d k (Detectors.dict_get d k 0 + 1)%Z.

(** [max(l)] for a list of [int]s that is not empty, and
    [max(d, key=d.get)]: the first key with the largest value. *)
Definition max_of (l : list Z) : Z :=
  match l with
  | [] => 0%Z
  | x :: l' => fold_left (fun best v => if (best <? v)%Z then v else best) l' x
  end.

Definition max_key (d : dict Z) : option string :=
  match d with
  | [] => None
  | (k, v) :: d' =>
      Some (fst (fold_left (fun best kv => if (snd best <? snd kv)%Z then kv else best)
                           d' (k, v)))
  end.

(** The body of the loop over the sampled lines. *)
Definition score_line (format_scores : dict Z) (line : string) : dict Z :=
  let line := strip line in
  if String.eqb line "" || startswith line "#" then format_scores
  else
    fold_left (fun scores '(fmt, pattern) =>
                 if Re.matches false pattern line then increment scores fmt else scores)
              patterns format_scores.

Definition detect_log_format (sample_lines : list string) : option string :=
  match sample_lines with
  | [] => None
  | _ =>
      let format_scores := map (fun '(fmt, _) => (fmt, 0%Z)) patterns in
      let format_scores := fold_left score_line (firstn 10 sample_lines) format_scores in
      (* Return format with highest score *)
      if (max_of (values format_scores) >? 0)%Z then max_key format_scores
      else None
  end.

End ValidationUtils.

(* ================================================================= *)
(** ** [src/analyzer/parsers.py]: [validate_log_format] *)

Module FormatValidation.

Import Parsers.

Local Open Scope string_scope.

(** The [results] dict; ['error'] and ['format_confidence'] are keys that
    are set on some paths only. *)
Record Results : Type := {
  total_lines : Z;
  parsed_lines : Z;
  failed_lines : Z;
  detected_format : option string;
  sample_failures : list string;
  error : option string;
  format_confidence : option float
}.

(** [results['total_lines'] += 1], [results['parsed_lines'] += 1] *)
Definition count_line (results : Results) : Results :=
  {| total_lines := results.(total_lines) + 1;
     parsed_lines := results.(parsed_lines);
     failed_lines := results.(failed_lines);
     detected_format := results.(detected_format);
     sample_failures := results.(sample_failures);
     error := results.(error);
     format_confidence := results.(format_confidence) |}.

Definition count_parsed (results : Results) : Results :=
  {| total_lines := results.(total_lines);
     parsed_lines := results.(parsed_lines) + 1;
     failed_lines := results.(failed_lines);
     detected_format := results.(detected_format);
     sample_failures := results.(sample_failures);
     error := results.(error);
     format_confidence := results.(format_confidence) |}.

Section WithLibrary.

(** Reading the file: [open(file_path, ...)] raises, or the file yields
    lines and then, asked for one more, ends ([None]) or raises
    ([Some e]).  And the f-string conversion [{n}] of an [int]. *)
Variable file_lines : string -> pyresult (list string * option exn).
Variable fmt_int : Z -> string.

(** The [else] branch: one more failed line, reported when fewer than
    five are. *)
Definition count_failed (results : Results) (line_num : Z) (line : string) : Results :=
  {| total_lines := results.(total_lines);
     parsed_lines := results.(parsed_lines);
     failed_lines := results.(failed_lines) + 1;
     detected_format := results.(detected_format);
     sample_failures :=
       if (Z.of_nat (List.length results.(sample_failures)) <? 5)%Z
       then results.(sample_failures)
            ++ ["Line " ++ fmt_int line_num ++ ": " ++ take 100 line ++ "..."]
       else results.(sample_failures);
     error := results.(error);
     format_confidence := results.(format_confidence) |}.

(** The loop over [enumerate(file, 1)]: [continue] goes on with the next
    line without the test that ends the loop, [break] returns.  The
    third component is the exception that leaves the loop, if any:
    after the last of [lines] the file ends or raises [failure]; a
    [break] asks for no further line. *)
Fixpoint scan (self : LogParser) (sample_size : Z) (lines : list string)
         (failure : option exn) (line_num : Z)
         (results : Results) (format_matches : dict Z)
  : Results * dict Z * option exn :=
  match lines with
  | [] => (results, format_matches, failure)
  | line :: lines' =>
      let results := count_line results in
      let next (results : Results) (format_matches : dict Z) :=
        if (line_num >=? sample_size)%Z then (results, format_matches, None)
        else scan self sample_size lines' failure (line_num + 1)%Z results format_matches in
      if (line_num <=? sample_size)%Z then
        let line := strip line in
        if String.eqb line "" || startswith line "#" then
          scan self sample_size lines' failure (line_num + 1)%Z results format_matches
        else
          (* Test each format *)
          if Re.matches false self.(patterns).(custom) line then
            next (count_parsed results) (ValidationUtils.increment format_matches "custom")
          else if Re.matches false self.(patterns).(combined) line then
            next (count_parsed results) (ValidationUtils.increment format_matches "combined")
          else if Re.matches false self.(patterns).(common) line then
            next (count_parsed results) (ValidationUtils.increment format_matches "common")
          else
            next (count_failed results line_num line) format_matches
      else next results format_matches
  end.

(** [except Exception as e: results['error'] = str(e); return results] *)
Definition with_error (results : Results) (e : exn) : Results :=
  {| total_lines := results.(total_lines);
     parsed_lines := results.(parsed_lines);
     failed_lines := results.(failed_lines);
     detected_format := results.(detected_format);
     sample_failures := results.(sample_failures);
     error := Some (exn_str e);
     format_confidence := results.(format_confidence) |}.

Definition validate_log_format (self : LogParser) (file_path : string) (sample_size : Z)
  : Results :=
  let results :=
    {| total_lines := 0; parsed_lines := 0; failed_lines := 0; detected_format := None;
       sample_failures := []; error := None; format_confidence := None |} in
  let format_matches := [("custom", 0%Z); ("combined", 0%Z); ("common", 0%Z)] in
  match file_lines file_path with
  | Raise e => with_error results e
  | Ok (lines, failure) =>
      match scan self sample_size lines failure 1 results format_matches with
      | (results, _, Some e) => with_error results e
      | (results, format_matches, None) =>
          (* Determine most likely format: [if format_matches] holds for a
             dict that is not empty *)
          match ValidationUtils.max_key format_matches with
          | None => results
          | Some detected =>
              {| total_lines := results.(total_lines);
                 parsed_lines := results.(parsed_lines);
                 failed_lines := results.(failed_lines);
                 detected_format := Some detected;
                 sample_failures := results.(sample_failures);
                 error := results.(error);
                 format_confidence :=
                   Some (DDoS.true_div
                           (Detectors.dict_get format_matches detected 0%Z)
                           (Z.max 1 (fold_right Z.add 0%Z (values format_matches)))) |}
          end
      end
  end.

End WithLibrary.

End FormatValidation.

(* ================================================================= *)
(** ** [src/models/analysis_result.py] *)

Module Models.

Local Open Scope string_scope.

Module ThreatInfo.
Record t : Type := {
  ip : string;
  threat_score : float;
  risk_level : string;
  confidence : float;
  request_count : Z;
  requests_per_minute : float;
  suspicious_requests : Z;
  error_rate : float;
  reasons : list string;
  recommended_action : string;
  country : option string;
  user_agents : list string
}.
End ThreatInfo.

Module TrafficSummary.
Record t : Type := {
  total_requests : Z;
  unique_ips : Z;
  error_rate : float;
  bot_request_rate : float;
  suspicious_request_rate : float;
  requests_per_hour : float;
  time_span_hours : float;
  status_codes : dict Z;
  top_countries : dict Z;
  methods : dict Z;
  top_paths : dict Z;
  date_range : dict Datetime.t
}.
End TrafficSummary.

Module BotAnalysisSummary.
Record t : Type := {
  total_ips_analyzed : Z;
  detected_bots : Z;
  bot_percentage : float;
  risk_distribution : dict Z;
  immediate_blocks : list string;
  rate_limit_candidates : list string;
  recommended_actions : dict Z
}.
End BotAnalysisSummary.

Module RecommendationAction.
Record t : Type := {
  priority : string;
  action : string;
  details : string;
  implementation : string;
  cost : string;
  effectiveness : string
}.
End RecommendationAction.

(** The dict of [get_summary_stats]. *)
Module SummaryStats.
Record t : Type := {
  total_requests : Z;
  unique_ips : Z;
  detected_bots : Z;
  bot_percentage : float;
  critical_threats : Z;
  high_threats : Z;
  ddos_alerts : Z;
  immediate_actions_needed : Z;
  processing_time : float
}.
End SummaryStats.

Section AnalysisResult.

(** The values of [analyzer_config], a [Dict[str, Any]]. *)
Variable Any : Type.

Record AnalysisMetadata : Type := {
  log_file : string;
  analysis_timestamp : Datetime.t;
  total_entries : Z;
  analysis_version : string;
  processing_time_seconds : float;
  analyzer_config : dict Any
}.

Record AnalysisResult : Type := {
  metadata : AnalysisMetadata;
  traffic_summary : TrafficSummary.t;
  bot_analysis : BotAnalysisSummary.t;
  top_threats : list ThreatInfo.t;
  ddos_alerts : list DDoS.DDosAlert;
  recommendations : dict (list RecommendationAction.t)
}.

Definition get_summary_stats (self : AnalysisResult) : SummaryStats.t :=
  {| SummaryStats.total_requests := self.(traffic_summary).(TrafficSummary.total_requests);
     SummaryStats.unique_ips := self.(traffic_summary).(TrafficSummary.unique_ips);
     SummaryStats.detected_bots := self.(bot_analysis).(BotAnalysisSummary.detected_bots);
     SummaryStats.bot_percentage := self.(bot_analysis).(BotAnalysisSummary.bot_percentage);
     SummaryStats.critical_threats :=
       Z.of_nat (List.length (filter (fun t => String.eqb t.(ThreatInfo.risk_level) "CRITICAL")
                                     self.(top_threats)));
     SummaryStats.high_threats :=
       Z.of_nat (List.length (filter (fun t => String.eqb t.(ThreatInfo.risk_level) "HIGH")
                                     self.(top_threats)));
     SummaryStats.ddos_alerts := Z.of_nat (List.length self.(ddos_alerts));
     SummaryStats.immediate_actions_needed :=
       Z.of_nat (List.length (Detectors.dict_get self.(recommendations) "immediate_actions" []));
     SummaryStats.processing_time := self.(metadata).(processing_time_seconds) |}.

(** [recommendations[key].append(ip)] for a key of the dict. *)
Definition append_to (recommendations : dict (list string)) (key ip : string)
  : dict (list string) :=
  setitem recommendations key (Detectors.dict_get recommendations key [] ++ [ip])%list.

Definition get_blocking_recommendations (self : AnalysisResult) : dict (list string) :=
  let recommendations :=
    [ ("immediate_block", []); ("rate_limit_strict", []);
      ("rate_limit_moderate", []); ("monitor_only", []) ] in
  fold_left (fun recommendations threat =>
               if String.eqb threat.(ThreatInfo.risk_level) "CRITICAL" then
                 append_to recommendations "immediate_block" threat.(ThreatInfo.ip)
               else if String.eqb threat.(ThreatInfo.risk_level) "HIGH" then
                 append_to recommendations "rate_limit_strict" threat.(ThreatInfo.ip)
               else if String.eqb threat.(ThreatInfo.risk_level) "MEDIUM" then
                 append_to recommendations "rate_limit_moderate" threat.(ThreatInfo.ip)
               else
                 append_to recommendations "monitor_only" threat.(ThreatInfo.ip))
            self.(top_threats) recommendations.

(** [list(set(l))]: the elements of [l], each once, in an order that
    Python leaves open. *)
Variable list_of_set : list string -> list string.

Definition export_blocklist (self : AnalysisResult) (risk_levels : option (list string))
  : list string :=
  let risk_levels :=
    match risk_levels with
    | None => ["CRITICAL"; "HIGH"]
    | Some levels => levels
    end in
  let blocklist :=
    map ThreatInfo.ip
        (filter (fun threat => existsb (String.eqb threat.(ThreatInfo.risk_level)) risk_levels)
                self.(top_threats)) in
  list_of_set blocklist.  (* Remove duplicates *)

End AnalysisResult.

End Models.

(* ================================================================= *)
(** * Specification vocabulary

    The notions the design document uses to state its properties, the
    auxiliary definitions of the proofs, and the concrete inputs of the
    examples. *)

(* ================================================================= *)
(** ** The detector: signals, as the design document words them *)

Module Signals.

Import TrafficPattern BotSignature BotDetectionResult Detectors.

Local Open Scope float_scope.

(** The detector every statement is about: the one [__init__] builds. *)
Definition detector : BotDetector := Detectors.__init__.

(** A signature matches a set of user agents when one of its patterns
    matches one of them, ignoring case. *)
Definition signature_matches (uas : list string) (s : BotSignature.t) : bool :=
  existsb (fun re => existsb (fun ua => Re.matches true re ua) uas) s.(user_agent_patterns).

Definition matching_scores (uas : list string) : list float :=
  map confidence_score (filter (signature_matches uas) detector.(bot_signatures)).

(** [u] is the maximum of [l], and [0] when [l] is empty. *)
Definition is_maximum (u : float) (l : list float) : Prop :=
  (l = [] /\ u = 0) \/ (In u l /\ Forall (fun x => PrimFloat.leb x u = true) l).

(** The score of the user agents of a pattern. *)
Definition ua_score (p : TrafficPattern.t) : float :=
  _analyze_user_agents detector p.(user_agents).

(** The five yes/no signals. *)
Definition rate_signal (p : TrafficPattern.t) : bool := fgt p.(requests_per_minute) 10.
Definition path_signal (p : TrafficPattern.t) : bool :=
  (p.(unique_paths) =? 1)%Z && (p.(request_count) >? 10)%Z.
Definition error_signal (p : TrafficPattern.t) : bool := fgt p.(error_rate) 0.3.
Definition suspicious_signal (p : TrafficPattern.t) : bool := (p.(suspicious_requests) >? 0)%Z.
Definition timing_signal (p : TrafficPattern.t) : bool :=
  fgt p.(requests_per_minute) 5 && flt p.(avg_response_time) 100.

(** One scoring signal: whether it triggered, what it adds to the
    score, and its reason. *)
Record signal : Type := {
  triggered : bool;
  contribution : float;
  reason : string
}.

Definition weighted (b : bool) (w : float) (why : string) : signal :=
  {| triggered := b; contribution := if b then w else 0; reason := why |}.

Section Formatting.

Variable fmt_1f : float -> string.
Variable fmt_pct : float -> string.
Variable fmt_int : Z -> string.

(** The signals in their fixed order. *)
Definition signals (p : TrafficPattern.t) : list signal :=
  [ weighted (rate_signal p) 0.3
      ("High request rate: " ++ fmt_1f p.(requests_per_minute) ++ " req/min");
    {| triggered := fgt (ua_score p) 0;
       contribution := 0.3 * ua_score p;
       reason := "Bot-like user agent detected" |};
    weighted (path_signal p) 0.2 "Low path diversity with high volume";
    weighted (error_signal p) 0.2 ("High error rate: " ++ fmt_pct p.(error_rate));
    weighted (suspicious_signal p) 0.4
      ("Suspicious path requests: " ++ fmt_int p.(suspicious_requests));
    weighted (timing_signal p) 0.1 "Suspicious timing patterns" ].

(** The sum of the contributions, taken in order from [0.0]. *)
Definition total (p : TrafficPattern.t) : float :=
  fold_left PrimFloat.add (map contribution (signals p)) 0.

End Formatting.

(** The unclamped score as a function of the six signals. *)
Definition score (rate : bool) (ua : float) (path err susp timing : bool) : float :=
  let c := 0.0 in
  let c := if rate then c + 0.3 else c in
  let c := c + ua * 0.3 in
  let c := if path then c + 0.2 else c in
  let c := if err then c + 0.2 else c in
  let c := if susp then c + 0.4 else c in
  if timing then c + 0.1 else c.

Definition score_of (p : TrafficPattern.t) : float :=
  score (rate_signal p) (ua_score p) (path_signal p) (error_signal p)
        (suspicious_signal p) (timing_signal p).

(** The values a user-agent score can take. *)
Definition ua_values : list float := [0; 0.5; 0.6; 0.7; 0.8; 0.9; 0.95].

(** [p'] triggers every signal that [p] triggers, and its user-agent
    score is no smaller. *)
Definition triggers_more (p p' : TrafficPattern.t) : Prop :=
  (rate_signal p = true -> rate_signal p' = true)
  /\ PrimFloat.leb (ua_score p) (ua_score p') = true
  /\ (path_signal p = true -> path_signal p' = true)
  /\ (error_signal p = true -> error_signal p' = true)
  /\ (suspicious_signal p = true -> suspicious_signal p' = true)
  /\ (timing_signal p = true -> timing_signal p' = true).

(** The risk levels as an ordered table of tests, first match wins. *)
Definition risk_table : list ((float -> TrafficPattern.t -> bool) * string) :=
  [ (fun c p => fge c 0.9 || (p.(suspicious_requests) >? 5)%Z, "CRITICAL");
    (fun c p => fge c 0.7 || fgt p.(requests_per_minute) 20, "HIGH");
    (fun c p => fge c 0.5 || fgt p.(requests_per_minute) 10, "MEDIUM") ].

Fixpoint first_match (table : list ((float -> TrafficPattern.t -> bool) * string))
         (c : float) (p : TrafficPattern.t) (otherwise : string) : string :=
  match table with
  | [] => otherwise
  | (test, level) :: table' => if test c p then level else first_match table' c p otherwise
  end.

(** The level names in their order LOW < MEDIUM < HIGH < CRITICAL, and
    the rank of a name in it. *)
Definition level_names : list string := ["LOW"; "MEDIUM"; "HIGH"; "CRITICAL"].

Fixpoint index_of (x : string) (l : list string) : option nat :=
  match l with
  | [] => None
  | y :: l' => if String.eqb x y then Some 0%nat else option_map S (index_of x l')
  end.

Definition rank (level : string) : option nat := index_of level level_names.

(** The verdicts of a result map all carry one of the four names. *)
Definition valid_levels (results : dict BotDetectionResult.t) : Prop :=
  Forall (fun r => In r.(risk_level) level_names) (values results).

(** The verdict's level has rank at least [k]. *)
Definition rank_at_least (k : nat) (r : BotDetectionResult.t) : bool :=
  match rank r.(risk_level) with
  | Some j => (k <=? j)%nat
  | None => false
  end.

End Signals.

(* ================================================================= *)
(** ** Ranks of the signature scores *)

Module Ranks.

Import TrafficPattern BotSignature BotDetectionResult Detectors Signals.

Local Open Scope float_scope.

(** The scores of the signatures in increasing order, [0] first: a
    score is handled through its position in this list. *)
Definition scores : list float := [0; 0.6; 0.7; 0.8; 0.9; 0.95].
Definition val (k : nat) : float := nth k scores 0.

Definition rank_of (s : BotSignature.t) : nat :=
  let c := s.(confidence_score) in
  if c =? 0.95 then 5 else if c =? 0.9 then 4 else if c =? 0.8 then 3
  else if c =? 0.7 then 2 else if c =? 0.6 then 1 else 0.

(** The innermost loop: the patterns of one signature on one user agent. *)
Definition sig_matches_ua (ua : string) (s : BotSignature.t) : bool :=
  existsb (fun re => Re.matches true re ua) s.(user_agent_patterns).

(** Folding a conditional maximum over a list, on ranks. *)
Definition max_fold (X : Type) (P : X -> bool) (f : X -> nat) (l : list X) (k : nat) : nat :=
  fold_left (fun k x => if P x then Nat.max k (f x) else k) l k.

(** The pairs (user agent, signature) in the order the two outer loops
    visit them. *)
Definition visits (uas : list string) (sigs : list BotSignature.t)
  : list (string * BotSignature.t) :=
  flat_map (fun ua => map (pair ua) sigs) uas.

Definition visit_matches (v : string * BotSignature.t) : bool := sig_matches_ua (fst v) (snd v).
Definition visit_rank (v : string * BotSignature.t) : nat := rank_of (snd v).

(** The rank the loops end with. *)
Definition final_rank (uas : list string) : nat :=
  max_fold _ visit_matches visit_rank (visits uas detector.(bot_signatures)) 0.

End Ranks.

(* ================================================================= *)
(** ** Signal vectors *)

Module Vectors.

Import Signals.

Local Open Scope float_scope.

(** The six signals of a pattern as a vector, and monotonicity of the
    clamped score as a check over all pairs of vectors. *)
Definition vector : Type := (bool * (float * (bool * (bool * (bool * bool)))))%type.

Definition bools : list bool := [true; false].

Definition vectors : list vector :=
  list_prod bools (list_prod ua_values (list_prod bools (list_prod bools
    (list_prod bools bools)))).

Definition vector_score (v : vector) : float :=
  let '(rate, (u, (path, (err, (susp, timing))))) := v in
  score rate u path err susp timing.

Definition vector_le (v w : vector) : bool :=
  let '(rate, (u, (path, (err, (susp, timing))))) := v in
  let '(rate', (u', (path', (err', (susp', timing'))))) := w in
  implb rate rate' && PrimFloat.leb u u' && implb path path' && implb err err'
  && implb susp susp' && implb timing timing'.

Definition monotone_on_vectors : bool :=
  forallb (fun v => forallb (fun w =>
    implb (vector_le v w)
          (PrimFloat.leb (pymin 1.0 (vector_score v)) (pymin 1.0 (vector_score w))))
    vectors) vectors.

End Vectors.

(* ================================================================= *)
(** ** The parser: grammar order, parsed entries, outcomes *)

Module ParserSpec.

Import LogEntry Parsers.

(** The grammars in the order they are tried. *)
Definition grammars (strptime : string -> string -> pyresult Datetime.t) (self : LogParser)
  : list (string -> pyresult (option LogEntry.t)) :=
  [ _parse_custom_format strptime self;
    _parse_combined_format strptime self;
    _parse_common_format strptime self ].

(** The entry of the first grammar that yields one. *)
Fixpoint first_success (gs : list (string -> pyresult (option LogEntry.t))) (line : string)
  : pyresult (option LogEntry.t) :=
  match gs with
  | [] => Ok None
  | g :: gs' =>
      match g line with
      | Ok (Some e) => Ok (Some e)
      | Ok None => first_success gs' line
      | Raise e => Raise e
      end
  end.

(** The entries of the lines that parse, in the order of the lines. *)
Definition parsed_entries (strptime : string -> string -> pyresult Datetime.t)
           (self : LogParser) (lines : list string) : list LogEntry.t :=
  flat_map (fun line =>
              match parse_log_line strptime self line with
              | Ok (Some e) => [e]
              | _ => []
              end) lines.

(** [strptime] reports a string it cannot read with [ValueError], and
    with nothing else. *)
Definition raises_only_ValueError (strptime : string -> string -> pyresult Datetime.t) : Prop :=
  forall data_string format e, strptime data_string format = Raise e -> e = ValueError.

(** An outcome that [except (ValueError, IndexError)] turns into a
    return. *)
Definition caught {A : Type} (r : pyresult A) : Prop :=
  match r with
  | Ok _ => True
  | Raise ValueError => True
  | Raise IndexError => True
  | Raise _ => False
  end.

(** An outcome that is a value or a [ValueError]. *)
Definition value_error_only {A : Type} (r : pyresult A) : Prop :=
  match r with
  | Ok _ => True
  | Raise e => e = ValueError
  end.

End ParserSpec.

(* ================================================================= *)
(** ** The user-agent field: what sanitized means, sample lines *)

Module SanitizeSpec.

Import LogEntry Parsers Validation.

Local Open Scope string_scope.

(** The characters [sanitize_user_agent] removes. *)
Definition is_harmful (c : ascii) : bool :=
  Ascii.eqb c "<" || Ascii.eqb c ">" || Ascii.eqb c dquote || Ascii.eqb c squote.

(** A control character: U+0000..U+001F or U+007F. *)
Definition is_control (c : ascii) : bool := (code c <? 32)%nat || (code c =? 127)%nat.

(** What the design document asks of a stored user agent: no control and no quote
    character, at most 500 characters. *)
Definition is_sanitized (s : string) : bool :=
  forall_chars (fun c => negb (is_control c || Ascii.eqb c dquote || Ascii.eqb c squote)) s
  && (String.length s <=? 500)%nat.

(** The user agent [parse_log_line] stores for a line, with the
    reference [strptime]. *)
Definition stored_user_agent (line : string) : option string :=
  match parse_log_line Strptime.strptime Parsers.__init__ line with
  | Ok (Some e) => Some e.(user_agent)
  | _ => None
  end.

Definition q : string := String dquote "".

(** A line of the common format: it has no user agent. *)
Definition common_line : string :=
  "192.0.2.1 - - [10/Oct/2023:13:55:36 +0000] " ++ q ++ "GET /index.html HTTP/1.1" ++ q
  ++ " 200 2326".

(** A line of the combined format whose user agent holds a single
    quote and the control character U+0007. *)
Definition bell : string := String "007"%char "".
Definition combined_line : string :=
  common_line ++ " " ++ q ++ "-" ++ q ++ " " ++ q ++ "it's" ++ bell ++ q.

(** A line of the combined format with a user agent of 600 characters. *)
Fixpoint repeat_char (c : ascii) (n : nat) : string :=
  match n with
  | O => EmptyString
  | S n' => String c (repeat_char c n')
  end.
Definition long_line : string :=
  common_line ++ " " ++ q ++ "-" ++ q ++ " " ++ q ++ repeat_char "a" 600 ++ q.

End SanitizeSpec.

(* ================================================================= *)
(** ** A volumetric attack followed by a quiet window *)

Module DDoSScenario.

Import DDoS.

Local Open Scope Z_scope.

(** A request [t] seconds after 2024-01-01 00:00:00 UTC, itself a
    multiple of five minutes after the epoch. *)
Definition at_second (t : Z) : Datetime.t :=
  {| Datetime.year := 2024; Datetime.month := 1; Datetime.day := 1;
     Datetime.hour := t / 3600; Datetime.minute := (t / 60) mod 60;
     Datetime.second := t mod 60; Datetime.tzinfo := None |}.

Definition request (t : Z) (source : string) (status : Z) : LogEntry.t :=
  {| LogEntry.ip := source; LogEntry.country := "--";
     LogEntry.timestamp := at_second t; LogEntry.method := "GET";
     LogEntry.path := "/"; LogEntry.status_code := status;
     LogEntry.response_size := 0; LogEntry.user_agent := "";
     LogEntry.response_time := 0 |}.

Definition sources : list string :=
  [ "198.51.100.1"; "198.51.100.2"; "198.51.100.3"; "198.51.100.4";
    "198.51.100.5"; "198.51.100.6"; "198.51.100.7"; "198.51.100.8";
    "198.51.100.9"; "198.51.100.10"; "198.51.100.11"; "198.51.100.12" ].

Definition source (i : nat) : string := nth (i mod 12) sources "".

(** 1200 requests in the first five minutes, from 12 sources, three in
    five of them answered with an error. *)
Definition attack_window : list LogEntry.t :=
  map (fun i => request (Z.of_nat i / 4) (source i)
                        (if (i mod 5 <? 3)%nat then 503 else 200))
      (seq 0 1200).

(** 400 requests in the next five minutes, from 4 sources, all errors. *)
Definition next_window : list LogEntry.t :=
  map (fun i => request (300 + Z.of_nat (i mod 300)) (source (i mod 4)) 503)
      (seq 0 400).

End DDoSScenario.

(* ================================================================= *)
(** ** Worked inputs: two sources and a short log *)

Module Scenarios.

Import TrafficPattern BotDetectionResult Detectors Signals.

Local Open Scope float_scope.

(** The text of a number inside a reason plays no role below. *)
Definition shown_float (x : float) : string := "#".
Definition shown_int (n : Z) : string := "#".

Definition analyze : TrafficPattern.t -> BotDetectionResult.t :=
  _analyze_single_ip shown_float shown_float shown_int detector.

(** One source, 50 requests in a minute, all to [/admin], sent with
    curl, no error. *)
Definition scraper : TrafficPattern.t :=
  {| TrafficPattern.ip := "203.0.113.7";
     request_count := 50;
     requests_per_minute := 50;
     requests_per_hour := 3000;
     user_agents := ["curl/7.68.0"];
     unique_paths := 1;
     error_rate := 0;
     suspicious_requests := 50;
     avg_response_time := 180 |}.

(** One source, 5 requests over an hour to different pages, sent by a
    browser, all answered with 200. *)
Definition visitor : TrafficPattern.t :=
  {| TrafficPattern.ip := "198.51.100.4";
     request_count := 5;
     requests_per_minute := 0.083;
     requests_per_hour := 5;
     user_agents := ["Mozilla/5.0 (X11; Linux x86_64) Gecko/20100101 Firefox/115.0"];
     unique_paths := 5;
     error_rate := 0;
     suspicious_requests := 0;
     avg_response_time := 240 |}.

Definition verdicts : dict BotDetectionResult.t :=
  detect_bots shown_float shown_float shown_int detector
    [ ("203.0.113.7", scraper); ("198.51.100.4", visitor) ].

(** A log of four lines: a combined-format request, a line that is no
    request, a comment, and a common-format request. *)
Definition q : string := String dquote "".
Definition nl : string := String newline "".

Definition access_log : list string :=
  [ ("203.0.113.7 - - [10/Oct/2023:13:55:36 +0000] " ++ q ++ "GET /admin HTTP/1.1" ++ q
     ++ " 403 199 " ++ q ++ "-" ++ q ++ " " ++ q ++ "curl/7.68.0" ++ q ++ nl)%string;
    ("connection reset by peer" ++ nl)%string;
    ("# rotated 2023-10-10" ++ nl)%string;
    ("198.51.100.4 - - [10/Oct/2023:13:56:02 +0000] " ++ q ++ "GET /index.html HTTP/1.1" ++ q
     ++ " 200 2326" ++ nl)%string ].

Definition disk (file_path : string) : pyresult (list string) :=
  if String.eqb file_path "access.log" then Ok access_log else Raise OSError.

End Scenarios.

(* ================================================================= *)
(** ** The detector: verdict maps and the action table *)

Module VerdictSpec.

Import TrafficPattern BotDetectionResult Detectors Signals.

(** The keys of a dict, in order. *)
Definition keys {V : Type} (d : dict V) : list string := map fst d.

(** The actions of [_recommend_action], by level. *)
Definition action_table : list (string * string) :=
  [ ("CRITICAL", "BLOCK_IMMEDIATELY - High confidence malicious bot");
    ("HIGH", "RATE_LIMIT_STRICT - Apply strict rate limiting");
    ("MEDIUM", "RATE_LIMIT_MODERATE - Apply moderate rate limiting");
    ("LOW", "MONITOR - Continue monitoring for patterns") ].

(** The number of signals a vector triggers. *)
Definition b2n (b : bool) : nat := if b then 1 else 0.
Definition triggered_count (rate : bool) (ua : float) (path err susp timing : bool) : nat :=
  b2n rate + b2n (fgt ua 0) + b2n path + b2n err + b2n susp + b2n timing.

End VerdictSpec.

(* ================================================================= *)
(** ** What a pattern matches *)

Module RegexSpec.

Local Open Scope string_scope.

(** The strings a pattern can consume, groups and [$] aside. *)
Fixpoint lang (ic : bool) (r : regex) (w : string) : Prop :=
  match r with
  | Eps => w = ""
  | Chr c => exists d, w = String d "" /\ Re.chr_eq ic c d = true
  | Cls p => exists d, w = String d "" /\ p d = true
  | Star p => forall_chars p w = true
  | Seq r1 r2 => exists w1 w2, w = w1 ++ w2 /\ lang ic r1 w1 /\ lang ic r2 w2
  | Alt r1 r2 => lang ic r1 w \/ lang ic r2 w
  | Grp _ r1 => lang ic r1 w
  | Eol => w = ""
  end.

(** Every group [n] of the pattern captures only strings that satisfy
    [spec n]. *)
Fixpoint groups_in (spec : nat -> string -> Prop) (ic : bool) (r : regex) : Prop :=
  match r with
  | Seq r1 r2 | Alt r1 r2 => groups_in spec ic r1 /\ groups_in spec ic r2
  | Grp n r1 => (forall w, lang ic r1 w -> spec n w) /\ groups_in spec ic r1
  | _ => True
  end.

Definition captured (spec : nat -> string -> Prop) (caps : captures) : Prop :=
  Forall (fun nw => spec (fst nw) (snd nw)) caps.

(** A pattern matches at the start of a string. *)
Definition accepts (r : regex) (s : string) : Prop := Re.matches false r s = true.

(** The pattern holds no [$]. *)
Fixpoint eol_free (r : regex) : bool :=
  match r with
  | Seq r1 r2 | Alt r1 r2 => eol_free r1 && eol_free r2
  | Grp _ r1 => eol_free r1
  | Eol => false
  | _ => true
  end.

(** Kinds of captured fields. *)
Definition token (w : string) : Prop := w <> "" /\ forall_chars cls_S w = true.
Definition digits (w : string) : Prop := w <> "" /\ forall_chars cls_d w = true.
Definition unquoted (w : string) : Prop := forall_chars (cls_not dquote) w = true.

End RegexSpec.

(* ================================================================= *)
(** ** Parsed entries: the kinds of their fields *)

Module EntrySpec.

Import LogEntry Parsers RegexSpec.

Local Open Scope string_scope.

(** What each group of the three patterns captures. *)
Definition common_fields (n : nat) (w : string) : Prop :=
  match n with
  | 1 | 3 => token w
  | 4 => unquoted w
  | 5 => digits w
  | 6 => digits w \/ w = "-"
  | _ => True
  end.

Definition combined_fields (n : nat) (w : string) : Prop :=
  match n with
  | 1 | 3 => token w
  | 4 | 7 | 8 => unquoted w
  | 5 => digits w
  | 6 => digits w \/ w = "-"
  | _ => True
  end.

Definition custom_fields (n : nat) (w : string) : Prop :=
  match n with
  | 1 | 2 | 4 => token w
  | 5 | 8 | 9 => unquoted w
  | 6 | 7 | 10 => digits w
  | _ => True
  end.

(** The fields of an entry are of the kinds the patterns capture: the
    IP and the method are non-empty and hold no white space, the path
    and the user agent hold no double quote, the country is [--] or a
    token, and the three numbers are not negative. *)
Definition well_formed (e : LogEntry.t) : Prop :=
  token e.(ip) /\ token e.(method) /\ unquoted e.(path) /\ unquoted e.(user_agent)
  /\ (e.(country) = "--" \/ token e.(country))
  /\ (0 <= e.(status_code))%Z /\ (0 <= e.(response_size))%Z /\ (0 <= e.(response_time))%Z.

(** The items of the common pattern, and those the combined pattern
    adds behind them. *)
Definition common_items : list regex :=
  [ Grp 1 (Plus cls_S); Chr " "; Plus cls_S; Chr " "; Plus cls_S; Chr " ";
    Chr "["; Grp 2 (Plus (cls_not "]")); Chr "]"; Chr " ";
    Chr dquote; Grp 3 (Plus cls_S); Chr " "; Grp 4 (Star (cls_not dquote));
    Chr " "; Plus cls_S; Chr dquote; Chr " ";
    Grp 5 (Plus cls_d); Chr " "; Grp 6 (Alt (Plus cls_d) (Chr "-")) ].

Definition combined_items : list regex :=
  [ Chr " "; Chr dquote; Grp 7 (Star (cls_not dquote)); Chr dquote; Chr " ";
    Chr dquote; Grp 8 (Star (cls_not dquote)); Chr dquote ].

End EntrySpec.

(* ================================================================= *)
(** ** The report: counts and listed sources *)

Module ReportSpec.

Import BotDetectionResult Detectors Reports.

Local Open Scope string_scope.

(** The number of occurrences of a key in a list, and the sum of the
    counts of a counter. *)
Definition occurrences (k : string) (l : list string) : Z :=
  len (filter (String.eqb k) l).

Definition counted (c : dict Z) : Z := fold_right Z.add 0%Z (values c).

(** The first words of the four actions. *)
Definition action_names : list string :=
  ["BLOCK_IMMEDIATELY"; "RATE_LIMIT_STRICT"; "RATE_LIMIT_MODERATE"; "MONITOR"].

(** The sources a report lists for blocking or rate limiting. *)
Definition listed (r : Report) : list string :=
  r.(immediate_blocks) ++ r.(rate_limit_candidates).

End ReportSpec.

(* ================================================================= *)
(** ** File names: what safe means *)

Module FilenameSpec.

Import ValidationUtils.

Local Open Scope string_scope.

(** A character that [sanitize_filename] lets through. *)
Definition plain (c : ascii) : bool := negb (special c) && negb (control c).

(** A character that [strip('. ')] removes at the ends. *)
Definition trimmed (c : ascii) : bool := contains c ". ".

(** [s] ends with a character of the class [p]. *)
Fixpoint ends_in (p : ascii -> bool) (s : string) : bool :=
  match s with
  | EmptyString => false
  | String c EmptyString => p c
  | String _ s' => ends_in p s'
  end.

Definition starts_in (p : ascii -> bool) (s : string) : bool :=
  match s with
  | String c _ => p c
  | EmptyString => false
  end.

(** Every character of the class [p] replaced by [repl]. *)
Fixpoint replace_chars (p : ascii -> bool) (repl s : string) : string :=
  match s with
  | EmptyString => EmptyString
  | String c s' =>
      if p c then repl ++ replace_chars p repl s' else String c (replace_chars p repl s')
  end.

(** A name that needs no sanitizing. *)
Definition safe_name (s : string) : Prop :=
  s <> "" /\ (String.length s <= 255)%nat /\ forall_chars plain s = true
  /\ starts_in trimmed s = false /\ ends_in trimmed s = false.

End FilenameSpec.

(* ================================================================= *)
(** ** Format detection: sampled lines and hits *)

Module DetectSpec.

Import ValidationUtils.

Local Open Scope string_scope.

(** The lines [detect_log_format] tests: the first ten, stripped, the
    blank ones and the comments left out. *)
Definition sampled (sample_lines : list string) : list string :=
  filter (fun line => negb (String.eqb line "" || startswith line "#"))
         (map strip (firstn 10 sample_lines)).

(** The number of lines a pattern matches. *)
Definition hits (r : regex) (lines : list string) : Z :=
  Z.of_nat (List.length (filter (Re.matches false r) lines)).

(** The items the patterns of [detect_log_format] are made of. *)
Definition head_common : list regex :=
  [ Plus cls_S; Chr " "; Plus cls_S; Chr " "; Plus cls_S; Chr " " ].

Definition head_nginx : list regex :=
  [ Plus cls_S; Lit " - "; Plus cls_S; Chr " " ].

Definition request_items : list regex :=
  [ Chr "["; Plus (cls_not "]"); Chr "]"; Chr " ";
    Chr dquote; Plus cls_S; Chr " "; Star (cls_not dquote); Chr " "; Plus cls_S;
    Chr dquote; Chr " "; Plus cls_d; Chr " "; Plus cls_d ].

Definition quoted_items : list regex :=
  [ Chr " "; Chr dquote; Star (cls_not dquote); Chr dquote;
    Chr " "; Chr dquote; Star (cls_not dquote); Chr dquote ].

(** A score dict with the four keys in the order of [patterns]. *)
Definition scores (a b c d : Z) : dict Z :=
  [ ("apache_common", a); ("apache_combined", b); ("nginx_combined", c); ("custom", d) ].

End DetectSpec.

(* ================================================================= *)
(** ** Format validation: the counters *)

Module FormatValidationSpec.

Import Parsers FormatValidation.

Local Open Scope string_scope.

(** The dict [format_matches] with its three keys in order. *)
Definition format_counts (custom combined common : Z) : dict Z :=
  [ ("custom", custom); ("combined", combined); ("common", common) ].

(** The counters of a result are consistent with [counts], the three
    numbers of matches. *)
Definition consistent (results : Results) (custom combined common : Z) : Prop :=
  (0 <= custom /\ 0 <= combined /\ 0 <= common)%Z
  /\ results.(parsed_lines) = (custom + combined + common)%Z
  /\ (0 <= results.(failed_lines))%Z
  /\ Z.of_nat (List.length results.(sample_failures)) = Z.min 5 results.(failed_lines).

(** A line that [validate_log_format] counts as parsed when it samples
    it: not blank, no comment, and matched by one of the patterns. *)
Definition recognised (self : LogParser) (line : string) : bool :=
  let line := strip line in
  negb (String.eqb line "" || startswith line "#")
  && (Re.matches false self.(patterns).(custom) line
      || Re.matches false self.(patterns).(combined) line
      || Re.matches false self.(patterns).(common) line).

End FormatValidationSpec.

(* ================================================================= *)
(** ** Blocking recommendations: threats by level *)

Module ThreatSpec.

Import Models.

Local Open Scope string_scope.

(** The [ip]s of the threats whose level is among [levels], and of the
    threats whose level is not, in the order of the list. *)
Definition at_levels (levels : list string) (threats : list ThreatInfo.t) : list string :=
  map ThreatInfo.ip
      (filter (fun t => existsb (String.eqb t.(ThreatInfo.risk_level)) levels) threats).

Definition at_other_levels (levels : list string) (threats : list ThreatInfo.t)
  : list string :=
  map ThreatInfo.ip
      (filter (fun t => negb (existsb (String.eqb t.(ThreatInfo.risk_level)) levels)) threats).

(** The dict of [get_blocking_recommendations] with its four keys in
    order. *)
Definition four_lists (block strict moderate monitor : list string) : dict (list string) :=
  [ ("immediate_block", block); ("rate_limit_strict", strict);
    ("rate_limit_moderate", moderate); ("monitor_only", monitor) ].

(** [list_of_set] lists the elements of a list, each once. *)
Definition lists_each_once (list_of_set : list string -> list string) : Prop :=
  forall l, NoDup (list_of_set l) /\ forall x, In x (list_of_set l) <-> In x l.

End ThreatSpec.

(* ================================================================= *)
(** ** The order of the reachable confidences *)

Module Heights.

Import BotDetectionResult Signals Vectors Reports.

Local Open Scope float_scope.

(** The confidence of a signal vector, and the height of a float: the
    number of signal vectors with a confidence below it. *)
Definition clamped (v : vector) : float := pymin 1.0 (vector_score v).

Definition height (x : float) : nat :=
  List.length (filter (fun v => flt (clamped v) x) vectors).

(** On the confidences of signal vectors, [>=] and [<] are the order of
    the heights: [agree], to be checked over all pairs of a table of
    confidences and heights. *)
Definition height_table : list (float * nat) :=
  map (fun v => (clamped v, height (clamped v))) vectors.

Definition agree (a b : float * nat) : bool :=
  Bool.eqb (fge (fst a) (fst b)) (snd b <=? snd a)%nat
  && Bool.eqb (flt (fst a) (fst b)) (snd a <? snd b)%nat.

Definition all_pairs {A : Type} (f : A -> A -> bool) (l : list A) : bool :=
  forallb (fun a => forallb (fun b => f a b) l) l.

(** A vector that triggers more reaches every threshold of the risk
    levels that the other reaches: a check over all pairs. *)
Definition thresholds_monotone : bool :=
  forallb (fun v => forallb (fun w =>
    implb (vector_le v w)
          (implb (fge (vector_score v) 0.9) (fge (vector_score w) 0.9)
           && implb (fge (vector_score v) 0.7) (fge (vector_score w) 0.7)
           && implb (fge (vector_score v) 0.5) (fge (vector_score w) 0.5)))
    vectors) vectors.

(** A verdict whose confidence is that of a signal vector. *)
Definition reachable (r : BotDetectionResult.t) : Prop :=
  exists v, In v vectors /\ r.(confidence) = clamped v.

(** [a] comes before [b] in a descending order of confidence. *)
Definition before (a b : BotDetectionResult.t) : Prop :=
  fge a.(confidence) b.(confidence) = true.

(** The item of [top_bots] for a verdict. *)
Definition top_bot_of (bot : BotDetectionResult.t) : TopBot.t :=
  {| TopBot.ip := bot.(BotDetectionResult.ip);
     TopBot.confidence := bot.(BotDetectionResult.confidence);
     TopBot.risk_level := bot.(BotDetectionResult.risk_level);
     TopBot.reasons := firstn 3 bot.(BotDetectionResult.reasons) |}.

End Heights.

(* ================================================================= *)
(** ** Worked inputs: an analysis result with two threats *)

Module ThreatScenario.

Import Models.

Local Open Scope string_scope.

Definition scraper_threat : ThreatInfo.t :=
  {| ThreatInfo.ip := "203.0.113.7";
     ThreatInfo.threat_score := 1;
     ThreatInfo.risk_level := "CRITICAL";
     ThreatInfo.confidence := 1;
     ThreatInfo.request_count := 50;
     ThreatInfo.requests_per_minute := 50;
     ThreatInfo.suspicious_requests := 50;
     ThreatInfo.error_rate := 0;
     ThreatInfo.reasons := ["Bot-like user agent detected"];
     ThreatInfo.recommended_action := "BLOCK_IMMEDIATELY - High confidence malicious bot";
     ThreatInfo.country := None;
     ThreatInfo.user_agents := ["curl/7.68.0"] |}.

Definition crawler_threat : ThreatInfo.t :=
  {| ThreatInfo.ip := "192.0.2.33";
     ThreatInfo.threat_score := 0.7;
     ThreatInfo.risk_level := "HIGH";
     ThreatInfo.confidence := 0.7;
     ThreatInfo.request_count := 400;
     ThreatInfo.requests_per_minute := 25;
     ThreatInfo.suspicious_requests := 0;
     ThreatInfo.error_rate := 0.4;
     ThreatInfo.reasons := ["High error rate: #"];
     ThreatInfo.recommended_action := "RATE_LIMIT_STRICT - Apply strict rate limiting";
     ThreatInfo.country := Some "NL";
     ThreatInfo.user_agents := [] |}.

Definition midnight : Datetime.t :=
  {| Datetime.year := 2023; Datetime.month := 10; Datetime.day := 10;
     Datetime.hour := 0; Datetime.minute := 0; Datetime.second := 0;
     Datetime.tzinfo := None |}.

(** The scraper is listed twice. *)
Definition analysis : AnalysisResult unit :=
  {| metadata :=
       {| log_file := "access.log"; analysis_timestamp := midnight; total_entries := 450;
          analysis_version := "1.0"; processing_time_seconds := 0.5;
          analyzer_config := [] |};
     traffic_summary :=
       {| TrafficSummary.total_requests := 450; TrafficSummary.unique_ips := 2;
          TrafficSummary.error_rate := 0.35; TrafficSummary.bot_request_rate := 1;
          TrafficSummary.suspicious_request_rate := 0.1;
          TrafficSummary.requests_per_hour := 450; TrafficSummary.time_span_hours := 1;
          TrafficSummary.status_codes := []; TrafficSummary.top_countries := [];
          TrafficSummary.methods := []; TrafficSummary.top_paths := [];
          TrafficSummary.date_range := [] |};
     bot_analysis :=
       {| BotAnalysisSummary.total_ips_analyzed := 2; BotAnalysisSummary.detected_bots := 2;
          BotAnalysisSummary.bot_percentage := 100;
          BotAnalysisSummary.risk_distribution := [];
          BotAnalysisSummary.immediate_blocks := ["203.0.113.7"];
          BotAnalysisSummary.rate_limit_candidates := ["192.0.2.33"];
          BotAnalysisSummary.recommended_actions := [] |};
     top_threats := [scraper_threat; crawler_threat; scraper_threat];
     ddos_alerts := [];
     recommendations := [] |}.

(** One way to list a set. *)
Definition each_once (l : list string) : list string := nodup string_dec l.

End ThreatScenario.

(* ================================================================= *)
(** ** Worked inputs: the log read to its end, and a file that fails *)

Module FileScenario.

Import Scenarios.

Local Open Scope string_scope.

(** [access.log] is read to its end; [broken.log] yields the first two
    lines of the log and then fails; no other file can be opened. *)
Definition files (file_path : string) : pyresult (list string * option exn) :=
  if String.eqb file_path "access.log" then Ok (access_log, None)
  else if String.eqb file_path "broken.log" then Ok (firstn 2 access_log, Some OSError)
  else Raise OSError.

End FileScenario.

(* ================================================================= *)
(** * Properties *)

(* ================================================================= *)
(** ** The user-agent score *)

Module UserAgentFacts.

Import TrafficPattern BotSignature BotDetectionResult Detectors Signals Ranks.

Local Open Scope float_scope.

Lemma pymax_val (i j : nat) :
  (i <= 5)%nat -> (j <= 5)%nat -> pymax (val i) (val j) = val (Nat.max i j).
Proof.
  intros Hi Hj.
  do 6 (destruct i as [|i]; [ do 6 (destruct j as [|j]; [ reflexivity | ]); lia | ]).
  lia.
Qed.

Lemma val_le (i j : nat) :
  (i <= j)%nat -> (j <= 5)%nat -> PrimFloat.leb (val i) (val j) = true.
Proof.
  intros Hij Hj.
  do 6 (destruct j as [|j]; [ do 6 (destruct i as [|i]; [ reflexivity || lia | ]); lia | ]).
  lia.
Qed.

Lemma val_in_ua_values (k : nat) : (k <= 5)%nat -> In (val k) ua_values.
Proof.
  intros Hk.
  do 6 (destruct k as [|k]; [ cbn; tauto | ]).
  lia.
Qed.

Lemma rank_of_signatures :
  Forall (fun s => (1 <= rank_of s <= 5)%nat /\ val (rank_of s) = s.(confidence_score))
         detector.(bot_signatures).
Proof.
  repeat constructor; cbn; lia.
Qed.

Lemma pymax_idem (a c : float) : pymax (pymax a c) c = pymax a c.
Proof.
  unfold pymax. destruct (PrimFloat.ltb a c) eqn:E.
  - destruct (PrimFloat.ltb c c); reflexivity.
  - rewrite E. reflexivity.
Qed.

Lemma pattern_loop (ua : string) (c : float) (pats : list regex) (acc : float) :
  fold_left (fun bot_score pattern =>
               if Re.matches true pattern ua then pymax bot_score c else bot_score)
            pats acc
  = if existsb (fun re => Re.matches true re ua) pats
    then pymax acc c else acc.
Proof.
  revert acc. induction pats as [|re pats IH]; intros acc; cbn.
  - reflexivity.
  - rewrite IH. destruct (Re.matches true re ua); cbn.
    + destruct (existsb _ pats); [apply pymax_idem | reflexivity].
    + reflexivity.
Qed.

Section MaxFold.

Variable X : Type.
Variable P : X -> bool.
Variable f : X -> nat.

Lemma max_fold_init (l : list X) (k : nat) : (k <= max_fold X P f l k)%nat.
Proof.
  revert k. induction l as [|x l IH]; intros k; cbn.
  - lia.
  - destruct (P x); [ specialize (IH (Nat.max k (f x))) | specialize (IH k) ];
      unfold max_fold in IH; lia.
Qed.

Lemma max_fold_ge (l : list X) (k : nat) (x : X) :
  In x l -> P x = true -> (f x <= max_fold X P f l k)%nat.
Proof.
  revert k. induction l as [|y l IH]; intros k Hin HP; cbn.
  - destruct Hin.
  - destruct Hin as [-> | Hin].
    + rewrite HP. pose proof (max_fold_init l (Nat.max k (f x))) as H.
      unfold max_fold in H. lia.
    + apply IH; assumption.
Qed.

Lemma max_fold_attained (l : list X) (k : nat) :
  max_fold X P f l k = k \/ exists x, In x l /\ P x = true /\ max_fold X P f l k = f x.
Proof.
  revert k. induction l as [|y l IH]; intros k; cbn.
  - left; reflexivity.
  - destruct (P y) eqn:HP.
    + destruct (IH (Nat.max k (f y))) as [E | (x & Hin & Hx & E)].
      * unfold max_fold in E. rewrite E.
        destruct (Nat.max_spec k (f y)) as [[_ ->] | [_ ->]].
        -- right. exists y. auto.
        -- left. reflexivity.
      * right. exists x. auto.
    + destruct (IH k) as [E | (x & Hin & Hx & E)].
      * left. exact E.
      * right. exists x. auto.
Qed.

Lemma max_fold_bound (l : list X) (k n : nat) :
  (k <= n)%nat -> (forall x, In x l -> f x <= n)%nat -> (max_fold X P f l k <= n)%nat.
Proof.
  intros Hk Hl. destruct (max_fold_attained l k) as [-> | (x & Hin & _ & ->)]; auto.
Qed.

End MaxFold.

Lemma signature_loop (sigs : list BotSignature.t) (ua : string) (k : nat) :
  Forall (fun s => (1 <= rank_of s <= 5)%nat /\ val (rank_of s) = s.(confidence_score)) sigs ->
  (k <= 5)%nat ->
  fold_left (fun bot_score signature =>
    fold_left (fun bot_score pattern =>
                 if Re.matches true pattern ua
                 then pymax bot_score signature.(confidence_score)
                 else bot_score)
              signature.(user_agent_patterns) bot_score)
    sigs (val k)
  = val (max_fold _ visit_matches visit_rank (map (pair ua) sigs) k).
Proof.
  intros Hs. revert k. induction Hs as [|s sigs [Hr Hv] _ IH]; intros k Hk.
  - reflexivity.
  - cbn [fold_left]. rewrite pattern_loop.
    change (max_fold _ visit_matches visit_rank (map (pair ua) (s :: sigs)) k)
      with (max_fold _ visit_matches visit_rank (map (pair ua) sigs)
              (if sig_matches_ua ua s then Nat.max k (rank_of s) else k)).
    unfold sig_matches_ua.
    destruct (existsb _ (user_agent_patterns s)).
    + replace (pymax (val k) (confidence_score s)) with (val (Nat.max k (rank_of s)))
        by (rewrite <- (pymax_val k (rank_of s)) by lia; f_equal; exact Hv).
      apply IH. lia.
    + apply IH. exact Hk.
Qed.

Lemma max_fold_app (X : Type) (P : X -> bool) (f : X -> nat) (l1 l2 : list X) (k : nat) :
  max_fold X P f (l1 ++ l2) k = max_fold X P f l2 (max_fold X P f l1 k).
Proof. unfold max_fold. apply fold_left_app. Qed.

Lemma user_agent_loop (sigs : list BotSignature.t) (uas : list string) (k : nat) :
  Forall (fun s => (1 <= rank_of s <= 5)%nat /\ val (rank_of s) = s.(confidence_score)) sigs ->
  (k <= 5)%nat ->
  fold_left (fun bot_score ua =>
    fold_left (fun bot_score signature =>
      fold_left (fun bot_score pattern =>
                   if Re.matches true pattern ua
                   then pymax bot_score signature.(confidence_score)
                   else bot_score)
                signature.(user_agent_patterns) bot_score)
      sigs bot_score)
    uas (val k)
  = val (max_fold _ visit_matches visit_rank (visits uas sigs) k).
Proof.
  intros Hs. revert k. induction uas as [|ua uas IH]; intros k Hk.
  - reflexivity.
  - cbn [fold_left]. rewrite signature_loop by assumption.
    change (visits (ua :: uas) sigs) with (map (pair ua) sigs ++ visits uas sigs).
    rewrite max_fold_app. apply IH.
    apply max_fold_bound; [exact Hk | ].
    intros [ua' s] Hin. apply in_map_iff in Hin. destruct Hin as (s' & E & Hin).
    inversion E; subst. unfold visit_rank; cbn.
    rewrite Forall_forall in Hs. apply Hs in Hin. lia.
Qed.

Lemma final_rank_le (uas : list string) : (final_rank uas <= 5)%nat.
Proof.
  apply max_fold_bound; [lia | ].
  intros [ua s] Hin. apply in_flat_map in Hin. destruct Hin as (ua' & _ & Hin).
  apply in_map_iff in Hin. destruct Hin as (s' & E & Hin). inversion E; subst.
  pose proof rank_of_signatures as Hs. rewrite Forall_forall in Hs.
  apply Hs in Hin. unfold visit_rank; cbn. lia.
Qed.

Lemma analyze_user_agents_rank (uas : list string) :
  uas <> [] -> _analyze_user_agents detector uas = val (final_rank uas).
Proof.
  intros Hne. unfold _analyze_user_agents. destruct uas as [|ua uas]; [congruence | ].
  change 0.0 with (val 0).
  apply (user_agent_loop detector.(bot_signatures) (ua :: uas) 0 rank_of_signatures).
  lia.
Qed.

Lemma analyze_user_agents_values (uas : list string) :
  In (_analyze_user_agents detector uas) ua_values.
Proof.
  destruct uas as [|ua uas].
  - cbn. tauto.
  - rewrite analyze_user_agents_rank by congruence.
    apply val_in_ua_values, final_rank_le.
Qed.

Lemma signature_matches_visit (uas : list string) (s : BotSignature.t) :
  signature_matches uas s = true <->
  exists ua, In ua uas /\ sig_matches_ua ua s = true.
Proof.
  unfold signature_matches, sig_matches_ua. rewrite existsb_exists. split.
  - intros (re & Hre & H). apply existsb_exists in H. destruct H as (ua & Hua & H).
    exists ua. split; [exact Hua | ]. apply existsb_exists. exists re. auto.
  - intros (ua & Hua & H). apply existsb_exists in H. destruct H as (re & Hre & H).
    exists re. split; [exact Hre | ]. apply existsb_exists. exists ua. auto.
Qed.

Lemma in_visits (uas : list string) (sigs : list BotSignature.t) (ua : string) (s : BotSignature.t) :
  In (ua, s) (visits uas sigs) <-> In ua uas /\ In s sigs.
Proof.
  unfold visits. rewrite in_flat_map. split.
  - intros (ua' & Hua & H). apply in_map_iff in H. destruct H as (s' & E & Hs).
    inversion E; subst. auto.
  - intros [Hua Hs]. exists ua. split; [exact Hua | ]. apply in_map. exact Hs.
Qed.

(** The score of a non-empty list of user agents is the maximum over
    the matching signatures. *)
Lemma analyze_user_agents_maximum (uas : list string) :
  uas <> [] -> is_maximum (_analyze_user_agents detector uas) (matching_scores uas).
Proof.
  intros Hne. rewrite analyze_user_agents_rank by exact Hne.
  pose proof rank_of_signatures as Hs. rewrite Forall_forall in Hs.
  assert (Hge : forall s, In s (filter (signature_matches uas) detector.(bot_signatures)) ->
                          (rank_of s <= final_rank uas)%nat).
  { intros s Hin. apply filter_In in Hin. destruct Hin as [Hin Hm].
    apply signature_matches_visit in Hm. destruct Hm as (ua & Hua & Hm).
    apply (max_fold_ge _ visit_matches visit_rank _ 0 (ua, s)).
    - apply in_visits. auto.
    - exact Hm. }
  unfold is_maximum, matching_scores.
  destruct (max_fold_attained _ visit_matches visit_rank
              (visits uas detector.(bot_signatures)) 0) as [E | ([ua s] & Hin & Hm & E)].
  - left. fold (final_rank uas) in E. rewrite E. split; [ | reflexivity].
    destruct (filter (signature_matches uas) (bot_signatures detector)) as [|s l] eqn:El;
      [reflexivity | ].
    assert (Hin : In s (filter (signature_matches uas) (bot_signatures detector)))
      by (rewrite El; left; reflexivity).
    pose proof (Hge s (or_introl eq_refl)) as Hle.
    apply filter_In in Hin. destruct Hin as [Hin _].
    apply Hs in Hin. lia.
  - right. fold (final_rank uas) in E. apply in_visits in Hin. destruct Hin as [Hua Hin].
    assert (Hf : In s (filter (signature_matches uas) (bot_signatures detector))).
    { apply filter_In. split; [exact Hin | ]. apply signature_matches_visit.
      exists ua. auto. }
    split.
    + apply in_map_iff. exists s. split; [ | exact Hf].
      rewrite E. unfold visit_rank; cbn. symmetry. apply Hs. exact Hin.
    + apply Forall_forall. intros x Hx. apply in_map_iff in Hx.
      destruct Hx as (s' & <- & Hs').
      pose proof (Hge s' Hs') as Hle. apply filter_In in Hs'. destruct Hs' as [Hs' _].
      destruct (Hs s' Hs') as [_ <-]. apply val_le; [exact Hle | apply final_rank_le].
Qed.

End UserAgentFacts.

(* ================================================================= *)
(** ** Scoring, classification and risk level *)

Module ScoringFacts.

Import TrafficPattern BotSignature BotDetectionResult Detectors Signals Ranks Vectors
       UserAgentFacts.

Local Open Scope float_scope.

Lemma ua_score_values (p : TrafficPattern.t) : In (ua_score p) ua_values.
Proof. apply analyze_user_agents_values. Qed.

(** Case analysis over the user-agent scores and the five yes/no
    signals: 7 x 32 closed computations. *)
Ltac by_cases Hu :=
  cbn in Hu;
  repeat (destruct Hu as [<- | Hu]; [ | ]);
  [ .. | destruct Hu ];
  repeat match goal with
         | b : bool |- _ => destruct b
         end;
  reflexivity.

Lemma total_score (rate path err susp timing : bool) (u : float) :
  In u ua_values ->
  ((((((0 + (if rate then 0.3 else 0)) + 0.3 * u) + (if path then 0.2 else 0))
     + (if err then 0.2 else 0)) + (if susp then 0.4 else 0)) + (if timing then 0.1 else 0))
  = score rate u path err susp timing.
Proof. intros Hu. unfold score. by_cases Hu. Qed.

Lemma clamp_above_half (rate path err susp timing : bool) (u : float) :
  In u ua_values ->
  fgt (pymin 1.0 (score rate u path err susp timing)) 0.5
  = fgt (score rate u path err susp timing) 0.5.
Proof. intros Hu. unfold score, fgt, pymin. by_cases Hu. Qed.

Lemma clamp_at_most_one (rate path err susp timing : bool) (u : float) :
  In u ua_values ->
  PrimFloat.leb (pymin 1.0 (score rate u path err susp timing)) 1 = true.
Proof. intros Hu. unfold score, pymin. by_cases Hu. Qed.

Lemma monotone_on_vectors_holds : monotone_on_vectors = true.
Proof. vm_compute. reflexivity. Qed.

Lemma in_bools (b : bool) : In b bools.
Proof. destruct b; cbn; tauto. Qed.

Lemma in_vectors (rate path err susp timing : bool) (u : float) :
  In u ua_values -> In (rate, (u, (path, (err, (susp, timing))))) vectors.
Proof.
  intros Hu. unfold vectors.
  repeat (apply in_prod; [ first [ apply in_bools | exact Hu ] | ]).
  apply in_bools.
Qed.

Lemma implb_of (b b' : bool) : (b = true -> b' = true) -> implb b b' = true.
Proof. destruct b, b'; cbn; intuition. Qed.

Section Formatting.

Variable fmt_1f : float -> string.
Variable fmt_pct : float -> string.
Variable fmt_int : Z -> string.

Local Abbreviation analyze := (_analyze_single_ip fmt_1f fmt_pct fmt_int detector).

Lemma analyze_confidence (p : TrafficPattern.t) :
  (analyze p).(confidence) = pymin 1.0 (score_of p).
Proof.
  unfold _analyze_single_ip, score_of, score, ua_score, rate_signal, path_signal,
    error_signal, suspicious_signal, timing_signal, _is_timing_suspicious.
  generalize (_analyze_user_agents detector (user_agents p)). intros u.
  cbn [detector Detectors.__init__ rate_limit_thresholds th_requests_per_minute
       error_rate_threshold].
  destruct (fgt (requests_per_minute p) 10),
           ((unique_paths p =? 1)%Z && (request_count p >? 10)%Z),
           (fgt (error_rate p) 0.3),
           (suspicious_requests p >? 0)%Z,
           (fgt (requests_per_minute p) 5 && flt (avg_response_time p) 100);
    reflexivity.
Qed.

Lemma analyze_is_bot (p : TrafficPattern.t) :
  (analyze p).(is_bot) = fgt (score_of p) 0.5.
Proof.
  unfold _analyze_single_ip, score_of, score, ua_score, rate_signal, path_signal,
    error_signal, suspicious_signal, timing_signal, _is_timing_suspicious.
  generalize (_analyze_user_agents detector (user_agents p)). intros u.
  cbn [detector Detectors.__init__ rate_limit_thresholds th_requests_per_minute
       error_rate_threshold].
  destruct (fgt (requests_per_minute p) 10),
           ((unique_paths p =? 1)%Z && (request_count p >? 10)%Z),
           (fgt (error_rate p) 0.3),
           (suspicious_requests p >? 0)%Z,
           (fgt (requests_per_minute p) 5 && flt (avg_response_time p) 100);
    reflexivity.
Qed.

Lemma analyze_reasons (p : TrafficPattern.t) :
  (analyze p).(reasons)
  = map reason (filter triggered (signals fmt_1f fmt_pct fmt_int p)).
Proof.
  unfold _analyze_single_ip, signals, weighted, ua_score, rate_signal, path_signal,
    error_signal, suspicious_signal, timing_signal, _is_timing_suspicious.
  generalize (_analyze_user_agents detector (user_agents p)). intros u.
  cbn [detector Detectors.__init__ rate_limit_thresholds th_requests_per_minute
       error_rate_threshold].
  destruct (fgt (requests_per_minute p) 10),
           (fgt u 0),
           ((unique_paths p =? 1)%Z && (request_count p >? 10)%Z),
           (fgt (error_rate p) 0.3),
           (suspicious_requests p >? 0)%Z,
           (fgt (requests_per_minute p) 5 && flt (avg_response_time p) 100);
    reflexivity.
Qed.

Lemma total_score_of (p : TrafficPattern.t) :
  total fmt_1f fmt_pct fmt_int p = score_of p.
Proof.
  unfold total, signals, weighted, score_of. cbn [map contribution fold_left].
  apply total_score. apply ua_score_values.
Qed.

(** C1.  The reported confidence of a pattern is the sum of the six
    signal contributions, added in their fixed order from 0.0 and
    clamped to at most 1.0: 0.3 for a request rate above 10, 0.3 times
    the user-agent score, 0.2 for a single path with more than 10
    requests, 0.2 for an error rate above 0.3, 0.4 for a suspicious
    request, 0.1 for the timing heuristic.  The reasons are those of the
    triggered signals in the same order.  The user-agent score is 0.5
    (contributing 0.15) when the pattern has no user agent, and
    otherwise the maximum confidence score over the signatures one of
    whose patterns matches one of the user agents, ignoring case. *)
Theorem confidence_is_clamped_sum_of_signals (p : TrafficPattern.t) :
  (analyze p).(confidence) = pymin 1.0 (total fmt_1f fmt_pct fmt_int p)
  /\ (analyze p).(reasons)
     = map reason (filter triggered (signals fmt_1f fmt_pct fmt_int p))
  /\ map contribution (signals fmt_1f fmt_pct fmt_int p)
     = [ if fgt p.(requests_per_minute) 10 then 0.3 else 0;
         0.3 * ua_score p;
         if (p.(unique_paths) =? 1)%Z && (p.(request_count) >? 10)%Z then 0.2 else 0;
         if fgt p.(error_rate) 0.3 then 0.2 else 0;
         if (p.(suspicious_requests) >? 0)%Z then 0.4 else 0;
         if fgt p.(requests_per_minute) 5 && flt p.(avg_response_time) 100
         then 0.1 else 0 ]
  /\ (p.(user_agents) = [] -> ua_score p = 0.5 /\ 0.3 * ua_score p = 0.15)
  /\ (p.(user_agents) <> [] ->
      is_maximum (ua_score p) (matching_scores p.(user_agents))).
Proof.
  split; [ | split; [ | split; [ | split]]].
  - rewrite analyze_confidence, total_score_of. reflexivity.
  - apply analyze_reasons.
  - reflexivity.
  - intros E. unfold ua_score. rewrite E. split; reflexivity.
  - intros Hne. apply analyze_user_agents_maximum. exact Hne.
Qed.

(** C3.  The verdict of a pattern has [is_bot] set exactly when its
    confidence field exceeds 0.5. *)
Theorem is_bot_iff_confidence_above_half (p : TrafficPattern.t) :
  (analyze p).(is_bot) = true <-> fgt (analyze p).(confidence) 0.5 = true.
Proof.
  rewrite analyze_is_bot, analyze_confidence. unfold score_of.
  rewrite clamp_above_half by apply ua_score_values. reflexivity.
Qed.

(** C4.  Confidence is monotonic and bounded: a pattern that triggers
    every signal another pattern triggers, with a user-agent score no
    smaller, gets a confidence no smaller; and every confidence is at
    most 1.0. *)
Theorem confidence_monotone_and_bounded :
  (forall p p' : TrafficPattern.t,
      triggers_more p p' ->
      PrimFloat.leb (analyze p).(confidence) (analyze p').(confidence) = true)
  /\ (forall p : TrafficPattern.t, PrimFloat.leb (analyze p).(confidence) 1 = true).
Proof.
  split.
  - intros p p' (H1 & Hu & H3 & H4 & H5 & H6).
    rewrite !analyze_confidence. unfold score_of.
    pose proof monotone_on_vectors_holds as M. unfold monotone_on_vectors in M.
    rewrite forallb_forall in M.
    specialize (M _ (in_vectors (rate_signal p) (path_signal p) (error_signal p)
                       (suspicious_signal p) (timing_signal p) _ (ua_score_values p))).
    rewrite forallb_forall in M.
    specialize (M _ (in_vectors (rate_signal p') (path_signal p') (error_signal p')
                       (suspicious_signal p') (timing_signal p') _ (ua_score_values p'))).
    cbn [vector_le vector_score] in M.
    rewrite Hu, (implb_of _ _ H1), (implb_of _ _ H3), (implb_of _ _ H4),
      (implb_of _ _ H5), (implb_of _ _ H6) in M.
    exact M.
  - intros p. rewrite analyze_confidence. unfold score_of.
    apply clamp_at_most_one, ua_score_values.
Qed.

End Formatting.

End ScoringFacts.

(* ================================================================= *)
(** ** Risk level and blocklist export *)

Module BlocklistFacts.

Import TrafficPattern BotDetectionResult Detectors Signals.

(** C2.  The risk level is a total function of the confidence and the
    pattern: it is the level of the first test that holds in the table
    CRITICAL (confidence >= 0.9 or more than 5 suspicious requests),
    HIGH (confidence >= 0.7 or more than 20 requests per minute), MEDIUM
    (confidence >= 0.5 or more than 10 requests per minute), and LOW
    when none holds; so each input gets exactly one of the four levels. *)
Theorem risk_level_first_match (self : BotDetector) (c : float) (p : TrafficPattern.t) :
  _calculate_risk_level self c p = first_match risk_table c p "LOW"
  /\ NoDup level_names
  /\ exists! level : string,
       In level level_names /\ _calculate_risk_level self c p = level.
Proof.
  split; [ | split].
  - unfold _calculate_risk_level, first_match, risk_table.
    destruct (fge c 0.9 || (suspicious_requests p >? 5)%Z); [reflexivity | ].
    destruct (fge c 0.7 || fgt (requests_per_minute p) 20); [reflexivity | ].
    destruct (fge c 0.5 || fgt (requests_per_minute p) 10); reflexivity.
  - unfold level_names.
    repeat (constructor; [ cbn; intuition discriminate | ]). constructor.
  - exists (_calculate_risk_level self c p). split.
    + split; [ | reflexivity]. unfold _calculate_risk_level, level_names.
      destruct (fge c 0.9 || (suspicious_requests p >? 5)%Z); [cbn; tauto | ].
      destruct (fge c 0.7 || fgt (requests_per_minute p) 20); [cbn; tauto | ].
      destruct (fge c 0.5 || fgt (requests_per_minute p) 10); cbn; tauto.
    + intros level [_ E]. exact E.
Qed.

Lemma rank_cases (m : string) (k : nat) :
  rank m = Some k ->
  (m = "LOW" /\ k = 0) \/ (m = "MEDIUM" /\ k = 1) \/ (m = "HIGH" /\ k = 2)
  \/ (m = "CRITICAL" /\ k = 3).
Proof.
  unfold rank, level_names, index_of.
  destruct (String.eqb_spec m "LOW") as [-> | _];
    [ cbn; injection 1 as <-; intuition | ].
  destruct (String.eqb_spec m "MEDIUM") as [-> | _];
    [ cbn; injection 1 as <-; intuition | ].
  destruct (String.eqb_spec m "HIGH") as [-> | _];
    [ cbn; injection 1 as <-; intuition | ].
  destruct (String.eqb_spec m "CRITICAL") as [-> | _];
    [ cbn; injection 1 as <-; intuition | ].
  discriminate.
Qed.

Lemma rank_of_name (m : string) : In m level_names -> exists k, rank m = Some k.
Proof.
  unfold level_names. cbn.
  intros [<- | [<- | [<- | [<- | []]]]]; eexists; reflexivity.
Qed.

Lemma name_of_rank (m : string) (k : nat) : rank m = Some k -> In m level_names.
Proof.
  intros H. apply rank_cases in H. unfold level_names. cbn.
  destruct H as [[-> _] | [[-> _] | [[-> _] | [-> _]]]]; tauto.
Qed.

Lemma getitem_rank (m : string) (k : nat) :
  rank m = Some k -> getitem risk_order m = Ok (Z.of_nat k).
Proof.
  intros H. apply rank_cases in H.
  destruct H as [[-> ->] | [[-> ->] | [[-> ->] | [-> ->]]]]; reflexivity.
Qed.

Lemma getitem_unknown (m : string) :
  ~ In m level_names -> getitem risk_order m = Raise (KeyError m).
Proof.
  unfold level_names, risk_order, getitem. cbn. intros H.
  destruct (String.eqb_spec m "LOW"); [subst; exfalso; apply H; auto 10 | ].
  destruct (String.eqb_spec m "MEDIUM"); [subst; exfalso; apply H; auto 10 | ].
  destruct (String.eqb_spec m "HIGH"); [subst; exfalso; apply H; auto 10 | ].
  destruct (String.eqb_spec m "CRITICAL"); [subst; exfalso; apply H; auto 10 | ].
  reflexivity.
Qed.

(** The comprehension of [export_blocklist] on verdicts with valid
    levels: no lookup fails, and what remains is a filter by rank. *)
Lemma blocklist_of_valid (k : nat) (rs : list BotDetectionResult.t) :
  Forall (fun r => In r.(risk_level) level_names) rs ->
  blocklist_of rs (Z.of_nat k)
  = Ok (map BotDetectionResult.ip (filter (rank_at_least k) rs)).
Proof.
  induction 1 as [|r rs Hr _ IH]; cbn [blocklist_of].
  - reflexivity.
  - destruct (rank_of_name _ Hr) as (j & Hj).
    assert (Er : rank_at_least k r = (k <=? j)%nat)
      by (unfold rank_at_least; rewrite Hj; reflexivity).
    rewrite (getitem_rank _ _ Hj), IH. cbn [bind filter]. rewrite Er.
    replace (Z.of_nat j >=? Z.of_nat k)%Z with (k <=? j)%nat.
    + destruct (k <=? j)%nat; reflexivity.
    + rewrite Z.geb_leb. destruct (Nat.leb_spec k j), (Z.leb_spec (Z.of_nat k) (Z.of_nat j));
        try reflexivity; lia.
Qed.

Lemma rank_at_least_zero (rs : list BotDetectionResult.t) :
  Forall (fun r => In r.(risk_level) level_names) rs ->
  filter (rank_at_least 0) rs = rs.
Proof.
  induction 1 as [|r rs Hr _ IH]; cbn.
  - reflexivity.
  - assert (Er : rank_at_least 0 r = true)
      by (unfold rank_at_least; destruct (rank_of_name _ Hr) as (j & ->); reflexivity).
    rewrite Er, IH. reflexivity.
Qed.

Lemma rank_at_least_weaken (j k : nat) (rs : list BotDetectionResult.t) :
  (j <= k)%nat ->
  incl (map BotDetectionResult.ip (filter (rank_at_least k) rs))
       (map BotDetectionResult.ip (filter (rank_at_least j) rs)).
Proof.
  intros Hjk x Hx. apply in_map_iff in Hx. destruct Hx as (r & <- & Hr).
  apply filter_In in Hr. destruct Hr as [Hin Hr].
  apply in_map, filter_In. split; [exact Hin | ].
  unfold rank_at_least in *. destruct (rank (risk_level r)) as [i|]; [ | discriminate].
  apply Nat.leb_le in Hr. apply Nat.leb_le. lia.
Qed.

Lemma export_blocklist_ranked (self : BotDetector)
      (results : dict BotDetectionResult.t) (m : string) (j : nat) :
  valid_levels results ->
  rank m = Some j ->
  export_blocklist self results m
  = Ok (map BotDetectionResult.ip (filter (rank_at_least j) (values results))).
Proof.
  intros Hv Hj. unfold export_blocklist. rewrite (getitem_rank _ _ Hj). cbn [bind].
  apply blocklist_of_valid. exact Hv.
Qed.

(** C6.  On a result map whose verdicts carry the four level names,
    [export_blocklist] with a level of rank [k] in the order
    LOW < MEDIUM < HIGH < CRITICAL returns, in the order of the map,
    exactly the IPs of the verdicts whose level has rank at least [k];
    with LOW that is every analyzed IP, and the list for CRITICAL is
    included in the list for HIGH. *)
Theorem export_blocklist_by_rank (self : BotDetector)
        (results : dict BotDetectionResult.t) (min_risk_level : string) (k : nat) :
  valid_levels results ->
  rank min_risk_level = Some k ->
  export_blocklist self results min_risk_level
  = Ok (map BotDetectionResult.ip (filter (rank_at_least k) (values results)))
  /\ export_blocklist self results "LOW"
     = Ok (map BotDetectionResult.ip (values results))
  /\ exists high critical : list string,
       export_blocklist self results "HIGH" = Ok high
       /\ export_blocklist self results "CRITICAL" = Ok critical
       /\ incl critical high.
Proof.
  intros Hv Hk.
  split; [ | split].
  - apply export_blocklist_ranked; assumption.
  - rewrite (export_blocklist_ranked self results "LOW" 0%nat Hv eq_refl).
    rewrite rank_at_least_zero by exact Hv. reflexivity.
  - eexists. eexists. split; [ | split].
    + apply (export_blocklist_ranked self results "HIGH" 2%nat Hv eq_refl).
    + apply (export_blocklist_ranked self results "CRITICAL" 3%nat Hv eq_refl).
    + apply rank_at_least_weaken. lia.
Qed.

(** C7.  On a result map whose verdicts carry the four level names,
    [export_blocklist] fails exactly when [min_risk_level] is none of
    LOW, MEDIUM, HIGH, CRITICAL, and the failure is the [KeyError] of
    that name: the call raises instead of returning a list.  The map is
    only read. *)
Theorem export_blocklist_fails_iff_unknown_level (self : BotDetector)
        (results : dict BotDetectionResult.t) (min_risk_level : string) :
  valid_levels results ->
  ((exists e, export_blocklist self results min_risk_level = Raise e)
   <-> ~ In min_risk_level level_names)
  /\ (~ In min_risk_level level_names ->
      export_blocklist self results min_risk_level = Raise (KeyError min_risk_level)).
Proof.
  intros Hv.
  assert (F : ~ In min_risk_level level_names ->
              export_blocklist self results min_risk_level
              = Raise (KeyError min_risk_level)).
  { intros Hn. unfold export_blocklist. rewrite (getitem_unknown _ Hn). reflexivity. }
  split; [ | exact F]. split.
  - intros (e & He) Hin. destruct (rank_of_name _ Hin) as (k & Hk).
    rewrite (export_blocklist_ranked self results min_risk_level k Hv Hk) in He.
    discriminate.
  - intros Hn. eexists. apply F. exact Hn.
Qed.

End BlocklistFacts.

(* ================================================================= *)
(** ** The parser: grammar order, skipped lines, totality *)

Module ParserFacts.

Import LogEntry Parsers ParserSpec.

Lemma rstrip_keeps_head (c : ascii) (s : string) :
  isspace c = false -> exists t, rstrip (String c s) = String c t.
Proof.
  intros Hc. cbn [rstrip]. destruct (rstrip s).
  - rewrite Hc. eexists; reflexivity.
  - eexists; reflexivity.
Qed.

Lemma startswith_strip (line : string) :
  startswith line "#" = true -> startswith (strip line) "#" = true.
Proof.
  destruct line as [|c s]; cbn [startswith]; [discriminate | ].
  intros E. apply Ascii.eqb_eq in E. subst c.
  unfold strip. cbn [lstrip]. change (isspace "#") with false. cbv iota.
  destruct (rstrip_keeps_head "#" s eq_refl) as (t & ->). reflexivity.
Qed.

Lemma caught_bind {A B : Type} (c : pyresult A) (f : A -> pyresult B) :
  caught c -> (forall a, caught (f a)) -> caught (Py.bind c f).
Proof.
  destruct c as [a | e]; cbn.
  - intros _ H. apply H.
  - intros H _. exact H.
Qed.

Lemma caught_group (m : Match) (n : nat) : caught (group m n).
Proof. unfold group. destruct (lookup n (groups m)); exact I. Qed.

Lemma caught_int (s : string) : caught (int s).
Proof. unfold int. destruct (strip s) as [|c t]; cbv zeta.
  - exact I.
  - match goal with |- caught (match ?x with _ => _ end) => destruct x end; exact I.
Qed.

Lemma caught_size (g : string) :
  caught (if negb (String.eqb g "-") then int g else Ok 0%Z).
Proof. destruct (negb (String.eqb g "-")); [apply caught_int | exact I]. Qed.

Lemma except_caught {A : Type} (body : pyresult (option A)) :
  caught body -> exists r, except_value_index body = Ok r.
Proof.
  destruct body as [r | e]; cbn.
  - intros _. exists r. reflexivity.
  - destruct e; cbn; intros H; try destruct H; exists None; reflexivity.
Qed.

Ltac step_caught :=
  first [ apply caught_group | apply caught_int | apply caught_size
        | apply caught_bind; [ | intros ? ] ].

Section WithLibrary.

Variable strptime : string -> string -> pyresult Datetime.t.
Variable read_lines : string -> pyresult (list string).

Lemma parse_log_line_order (self : LogParser) (line : string) :
  parse_log_line strptime self line
  = if String.eqb (strip line) "" || startswith (strip line) "#" then Ok None
    else first_success (grammars strptime self) (strip line).
Proof.
  unfold parse_log_line, grammars, first_success.
  destruct (String.eqb (strip line) "" || startswith (strip line) "#"); [reflexivity | ].
  destruct (_parse_custom_format strptime self (strip line)) as [[e | ] | x]; reflexivity.
Qed.

(** C8.  [parse_log_line] strips the line first.  A line that is then
    empty or then starts with [#] (so also one that starts with [#]
    before stripping) yields no entry and no error; every other line is
    given, stripped, to the custom grammar, then the combined one, then
    the common one, and the result is the entry of the first grammar
    that yields one.  The two cases cover every line. *)
Theorem parse_log_line_first_grammar (self : LogParser) (line : string) :
  parse_log_line strptime self line
  = (if String.eqb (strip line) "" || startswith (strip line) "#" then Ok None
     else first_success [ _parse_custom_format strptime self;
                          _parse_combined_format strptime self;
                          _parse_common_format strptime self ] (strip line))
  /\ (strip line = "" \/ startswith (strip line) "#" = true ->
      parse_log_line strptime self line = Ok None)
  /\ (startswith line "#" = true -> parse_log_line strptime self line = Ok None)
  /\ (strip line <> "" -> startswith (strip line) "#" = false ->
      parse_log_line strptime self line
      = first_success [ _parse_custom_format strptime self;
                        _parse_combined_format strptime self;
                        _parse_common_format strptime self ] (strip line)).
Proof.
  rewrite parse_log_line_order. split; [reflexivity | ]. split; [ | split].
  - intros [-> | ->]; [reflexivity | ]. rewrite orb_true_r. reflexivity.
  - intros H. rewrite (startswith_strip _ H), orb_true_r. reflexivity.
  - intros Hne Hs. rewrite Hs, orb_false_r.
    destruct (String.eqb_spec (strip line) ""); [contradiction | reflexivity].
Qed.

Hypothesis strptime_raises : raises_only_ValueError strptime.

Lemma try_formats_ok (timestamp_str : string) (fmts : list string) :
  exists r, try_formats strptime timestamp_str fmts = Ok r.
Proof.
  induction fmts as [|fmt fmts IH]; cbn.
  - eexists; reflexivity.
  - destruct (strptime timestamp_str fmt) as [dt | e] eqn:E.
    + eexists; reflexivity.
    + rewrite (strptime_raises _ _ _ E). exact IH.
Qed.

Lemma parse_timestamp_ok (self : LogParser) (timestamp_str : string) :
  exists r, _parse_timestamp strptime self timestamp_str = Ok r.
Proof.
  unfold _parse_timestamp.
  destruct (try_formats_ok timestamp_str formats) as ([dt | ] & ->); cbn [Py.bind].
  - eexists; reflexivity.
  - destruct (contains "+" timestamp_str || contains "-" timestamp_str).
    + apply try_formats_ok.
    + eexists; reflexivity.
Qed.

Lemma caught_timestamp {A : Type} (self : LogParser) (timestamp_str : string)
      (k : option Datetime.t -> pyresult A) :
  (forall t, caught (k t)) ->
  caught (Py.bind (_parse_timestamp strptime self timestamp_str) k).
Proof.
  intros Hk. destruct (parse_timestamp_ok self timestamp_str) as (t & ->). apply Hk.
Qed.

Ltac format_ok :=
  match goal with
  | |- exists r, match ?m with _ => _ end = Ok r =>
      destruct m as [m' | ]; [ | eexists; reflexivity ]
  end;
  apply except_caught;
  repeat first [ apply caught_timestamp; intros [t | ]; exact I | step_caught ].

Lemma parse_custom_format_ok (self : LogParser) (line : string) :
  exists r, _parse_custom_format strptime self line = Ok r.
Proof. unfold _parse_custom_format. format_ok. Qed.

Lemma parse_combined_format_ok (self : LogParser) (line : string) :
  exists r, _parse_combined_format strptime self line = Ok r.
Proof. unfold _parse_combined_format. format_ok. Qed.

Lemma parse_common_format_ok (self : LogParser) (line : string) :
  exists r, _parse_common_format strptime self line = Ok r.
Proof. unfold _parse_common_format. format_ok. Qed.

Lemma parse_log_line_ok (self : LogParser) (line : string) :
  exists r, parse_log_line strptime self line = Ok r.
Proof.
  unfold parse_log_line.
  destruct (String.eqb (strip line) "" || startswith (strip line) "#");
    [eexists; reflexivity | ].
  destruct (parse_custom_format_ok self (strip line)) as ([e | ] & ->); cbn [Py.bind];
    [eexists; reflexivity | ].
  destruct (parse_combined_format_ok self (strip line)) as ([e | ] & ->); cbn [Py.bind];
    [eexists; reflexivity | ].
  destruct (parse_common_format_ok self (strip line)) as ([e | ] & ->); cbn [Py.bind];
    eexists; reflexivity.
Qed.

Lemma parse_lines_entries (self : LogParser) (lines : list string) (entries : list LogEntry.t) :
  parse_lines strptime self lines entries
  = Ok (entries ++ parsed_entries strptime self lines).
Proof.
  revert entries. induction lines as [|line lines IH]; intros entries; cbn.
  - rewrite app_nil_r. reflexivity.
  - destruct (parse_log_line_ok self line) as ([e | ] & ->); cbn [Py.bind].
    + rewrite IH, <- app_assoc. reflexivity.
    + apply IH.
Qed.

(** C9.  When [strptime] raises nothing but [ValueError],
    [parse_log_line] returns on every string, an entry or none, and
    never raises; and [parse_log_file] on a readable file returns the
    entries of the lines that parse, in the order of the lines, none of
    the other lines stopping it. *)
Theorem parse_log_line_total_and_file_continues (self : LogParser) :
  (forall line : string,
      exists r : option LogEntry.t, parse_log_line strptime self line = Ok r)
  /\ (forall (file_path : string) (lines : list string),
        read_lines file_path = Ok lines ->
        parse_log_file strptime read_lines self file_path
        = Ok (parsed_entries strptime self lines)).
Proof.
  split.
  - apply parse_log_line_ok.
  - intros file_path lines E. unfold parse_log_file. rewrite E. cbn [Py.bind].
    rewrite parse_lines_entries. reflexivity.
Qed.

End WithLibrary.

End ParserFacts.

(* ================================================================= *)
(** ** The user-agent field and [sanitize_user_agent] *)

Module SanitizeFacts.

Import LogEntry Parsers Validation SanitizeSpec.

Local Open Scope string_scope.

(** C10, as stated, fails.  A common-format line has no user agent and
    its entry stores the empty string, not [Unknown]; a combined-format
    line keeps a single quote and a control character in the stored user
    agent, and keeps all 600 characters of a long one; and
    [sanitize_user_agent] itself leaves a control character in place and
    returns 503 characters for an input of 600. *)
Lemma user_agent_not_sanitized :
  stored_user_agent common_line = Some ""
  /\ stored_user_agent combined_line = Some ("it's" ++ bell)
  /\ is_sanitized ("it's" ++ bell) = false
  /\ option_map String.length (stored_user_agent long_line) = Some 600
  /\ sanitize_user_agent ("x" ++ bell) = "x" ++ bell
  /\ is_sanitized (sanitize_user_agent ("x" ++ bell)) = false
  /\ String.length (sanitize_user_agent (repeat_char "a" 600)) = 503.
Proof. vm_compute. repeat split. Qed.

(** Lengths and character-wise properties of the string operations. *)
Lemma length_rstrip (s : string) : (String.length (rstrip s) <= String.length s)%nat.
Proof.
  induction s as [|c s IH]; cbn [rstrip]; [apply le_n | ].
  destruct (rstrip s) as [|d t].
  - destruct (isspace c); cbn in *; lia.
  - cbn in *. lia.
Qed.

Lemma length_lstrip (s : string) : (String.length (lstrip s) <= String.length s)%nat.
Proof.
  induction s as [|c s IH]; cbn [lstrip]; [apply le_n | ].
  destruct (isspace c); cbn in *; lia.
Qed.

Lemma length_strip (s : string) : (String.length (strip s) <= String.length s)%nat.
Proof.
  unfold strip. pose proof (length_rstrip (lstrip s)). pose proof (length_lstrip s). lia.
Qed.

Lemma length_take (n : nat) (s : string) : (String.length (take n s) <= n)%nat.
Proof.
  revert s. induction n as [|n IH]; intros [|c s]; cbn; try lia.
  specialize (IH s). lia.
Qed.

Lemma length_append (s t : string) :
  String.length (s ++ t) = (String.length s + String.length t)%nat.
Proof. induction s as [|c s IH]; cbn; [reflexivity | rewrite IH; reflexivity]. Qed.

Section CharWise.

Variable p : ascii -> bool.

Lemma forall_rstrip (s : string) : forall_chars p s = true -> forall_chars p (rstrip s) = true.
Proof.
  induction s as [|c s IH]; cbn [rstrip forall_chars]; [auto | ].
  intros H. apply andb_true_iff in H. destruct H as [Hc Hs]. specialize (IH Hs).
  destruct (rstrip s) as [|d t].
  - destruct (isspace c); cbn; [reflexivity | rewrite Hc; reflexivity].
  - cbn [forall_chars] in *. rewrite Hc, IH. reflexivity.
Qed.

Lemma forall_lstrip (s : string) : forall_chars p s = true -> forall_chars p (lstrip s) = true.
Proof.
  induction s as [|c s IH]; cbn [lstrip]; [auto | ].
  intros H. destruct (isspace c); [ | exact H].
  cbn in H. apply andb_true_iff in H. apply IH, H.
Qed.

Lemma forall_strip (s : string) : forall_chars p s = true -> forall_chars p (strip s) = true.
Proof. intros H. apply forall_rstrip, forall_lstrip, H. Qed.

Lemma forall_take (n : nat) (s : string) :
  forall_chars p s = true -> forall_chars p (take n s) = true.
Proof.
  revert s. induction n as [|n IH]; intros [|c s]; cbn; auto.
  intros H. apply andb_true_iff in H. destruct H as [-> Hs]. apply IH, Hs.
Qed.

Lemma forall_append (s t : string) :
  forall_chars p s = true -> forall_chars p t = true -> forall_chars p (s ++ t) = true.
Proof.
  induction s as [|c s IH]; cbn; auto.
  intros H Ht. apply andb_true_iff in H. destruct H as [-> Hs]. apply IH; assumption.
Qed.

Lemma forall_filter (s : string) : forall_chars p (filter_chars p s) = true.
Proof.
  induction s as [|c s IH]; cbn; [reflexivity | ].
  destruct (p c) eqn:E; cbn; [rewrite E | ]; exact IH.
Qed.

End CharWise.

(** [re.sub] of a one-character class deletes the characters of the
    class. *)
Lemma sub_class (p : ascii -> bool) (s : string) :
  Re.sub_empty (Cls p) s = filter_chars (fun c => negb (p c)) s.
Proof.
  unfold Re.sub_empty. induction s as [|c s IH]; cbn [Re.sub_go filter_chars].
  - reflexivity.
  - unfold Re.match_len, Re.match_. cbn [Re.run].
    destruct (p c); cbn [negb Re.rest].
    + replace (String.length (String c s) - String.length s)%nat with 1%nat
        by (change (String.length (String c s)) with (S (String.length s)); lia).
      exact IH.
    + rewrite IH. reflexivity.
Qed.

Lemma sanitize_removes_harmful (user_agent : string) :
  Re.sub_empty harmful user_agent = filter_chars (fun c => negb (is_harmful c)) user_agent.
Proof. apply sub_class. Qed.

Lemma bind_Ok {A B : Type} (c : pyresult A) (f : A -> pyresult B) (v : B) :
  Py.bind c f = Ok v -> exists a, c = Ok a /\ f a = Ok v.
Proof.
  destruct c as [a | e]; cbn; [ | discriminate].
  intros H. exists a. auto.
Qed.

Lemma except_Some {A : Type} (body : pyresult (option A)) (e : A) :
  except_value_index body = Ok (Some e) -> body = Ok (Some e).
Proof.
  destruct body as [r | x]; cbn; [auto | ].
  destruct x; discriminate.
Qed.

(** Running the body of a format parser backwards from its entry. *)
Ltac invert_body H :=
  apply except_Some in H;
  repeat (apply bind_Ok in H; let a := fresh "a" in let E := fresh "E" in
          destruct H as (a & E & H));
  match type of H with
  | match ?t with _ => _ end = _ => destruct t; [ | discriminate ]
  end;
  injection H as <-.

Lemma sanitize_unfold (ua : string) :
  ua <> "" -> ua <> "-" ->
  sanitize_user_agent ua
  = let kept := filter_chars (fun c => negb (is_harmful c)) ua in
    strip (if (500 <? String.length kept)%nat then take 500 kept ++ "..." else kept).
Proof.
  intros H1 H2. unfold sanitize_user_agent.
  destruct (String.eqb_spec ua ""); [contradiction | ].
  destruct (String.eqb_spec ua "-"); [contradiction | ].
  cbn [orb]. rewrite sanitize_removes_harmful. reflexivity.
Qed.

Lemma sanitize_result (ua : string) :
  forall_chars (fun c => negb (is_harmful c)) (sanitize_user_agent ua) = true
  /\ (String.length (sanitize_user_agent ua) <= 503)%nat.
Proof.
  destruct (String.eqb_spec ua "") as [-> | H1]; [split; [reflexivity | cbn; lia] | ].
  destruct (String.eqb_spec ua "-") as [-> | H2]; [split; [reflexivity | cbn; lia] | ].
  rewrite (sanitize_unfold ua H1 H2). cbv zeta.
  set (kept := filter_chars (fun c => negb (is_harmful c)) ua).
  assert (Hk : forall_chars (fun c => negb (is_harmful c)) kept = true)
    by apply forall_filter.
  destruct (Nat.ltb_spec 500 (String.length kept)) as [Hlong | Hshort].
  - split.
    + apply forall_strip, forall_append; [apply forall_take, Hk | reflexivity].
    + pose proof (length_strip (take 500 kept ++ "...")) as L.
      rewrite length_append in L. pose proof (length_take 500 kept) as T.
      change (String.length "...") with 3%nat in L. lia.
  - split.
    + apply forall_strip, Hk.
    + pose proof (length_strip kept). lia.
Qed.

(** C10, amended.  A common-format entry stores the empty user agent;
    a combined-format or custom-format entry stores the quoted field of
    the line as the grammar captured it (group 8, group 9).  The
    utility [sanitize_user_agent] returns [Unknown] for an empty user
    agent (and for [-]); on any other it deletes the characters
    [<], [>], the double and the single quote, cuts what is left after
    500 characters and then appends three dots, and trims white space,
    so its result holds none of those four characters and at most 503
    characters. *)
Theorem user_agent_stored_as_captured
        (strptime : string -> string -> pyresult Datetime.t) (self : LogParser) :
  (forall line e,
      _parse_common_format strptime self line = Ok (Some e) -> e.(user_agent) = "")
  /\ (forall line e,
        _parse_combined_format strptime self line = Ok (Some e) ->
        exists m, Re.match_ false self.(patterns).(combined) line = Some m
                  /\ group m 8 = Ok e.(user_agent))
  /\ (forall line e,
        _parse_custom_format strptime self line = Ok (Some e) ->
        exists m, Re.match_ false self.(patterns).(custom) line = Some m
                  /\ group m 9 = Ok e.(user_agent))
  /\ sanitize_user_agent "" = "Unknown"
  /\ sanitize_user_agent "-" = "Unknown"
  /\ (forall ua, ua <> "" -> ua <> "-" ->
        sanitize_user_agent ua
        = let kept := filter_chars (fun c => negb (is_harmful c)) ua in
          strip (if (500 <? String.length kept)%nat then take 500 kept ++ "..." else kept))
  /\ (forall ua,
        forall_chars (fun c => negb (is_harmful c)) (sanitize_user_agent ua) = true
        /\ (String.length (sanitize_user_agent ua) <= 503)%nat).
Proof.
  repeat split.
  - intros line e H. unfold _parse_common_format in H.
    destruct (Re.match_ false (common (patterns self)) line) as [m | ]; [ | discriminate].
    invert_body H. reflexivity.
  - intros line e H. unfold _parse_combined_format in H.
    destruct (Re.match_ false (combined (patterns self)) line) as [m | ]; [ | discriminate].
    exists m. split; [reflexivity | ].
    invert_body H. cbn [user_agent]. assumption.
  - intros line e H. unfold _parse_custom_format in H.
    destruct (Re.match_ false (custom (patterns self)) line) as [m | ]; [ | discriminate].
    exists m. split; [reflexivity | ].
    invert_body H. cbn [user_agent]. assumption.
  - apply sanitize_unfold.
  - apply sanitize_result.
  - apply sanitize_result.
Qed.

End SanitizeFacts.

(* ================================================================= *)
(** ** The reference [strptime] raises only [ValueError] *)

Module StrptimeFacts.

Import ParserSpec.

Lemma value_error_bind {A B : Type} (c : pyresult A) (f : A -> pyresult B) :
  value_error_only c -> (forall a, value_error_only (f a)) -> value_error_only (Py.bind c f).
Proof.
  destruct c as [a | e]; cbn.
  - intros _ H. apply H.
  - intros H _. exact H.
Qed.

Lemma value_error_int (s : string) : value_error_only (int s).
Proof.
  unfold int. destruct (strip s) as [|c t]; cbv zeta.
  - reflexivity.
  - match goal with |- value_error_only (match ?x with _ => _ end) => destruct x end;
      cbn; auto.
Qed.

Lemma value_error_int_group (caps : captures) (g : nat) (d : Z) :
  value_error_only (Strptime.int_group caps g d).
Proof.
  unfold Strptime.int_group. destruct (lookup g caps); [apply value_error_int | exact I].
Qed.

Lemma value_error_gmtoff (z : string) : value_error_only (Strptime.gmtoff z).
Proof.
  unfold Strptime.gmtoff. destruct (String.eqb z "Z"); [exact I | ].
  apply value_error_bind.
  - destruct (String.eqb (substring 3 1 z) ":"); [ | exact I].
    cbv zeta. destruct (5 <? _); [ | exact I].
    destruct (negb _); [reflexivity | exact I].
  - intros z1. repeat (apply value_error_bind; [ | intros ? ]);
      try apply value_error_int.
    + cbv zeta. destruct (String.eqb _ ""); [exact I | apply value_error_int].
    + exact I.
Qed.

Lemma strptime_raises_only_ValueError : raises_only_ValueError Strptime.strptime.
Proof.
  intros data_string format e H.
  assert (V : value_error_only (Strptime.strptime data_string format));
    [ | rewrite H in V; exact V ].
  clear H. unfold Strptime.strptime.
  destruct (Strptime.pattern format false) as [r | ]; [ | reflexivity].
  destruct (Re.match_ true r data_string) as [found | ]; [ | reflexivity].
  destruct (negb _); [reflexivity | ]. cbv zeta.
  apply value_error_bind; [apply value_error_int_group | intros year].
  apply value_error_bind; [ | intros month].
  { destruct (lookup Strptime.g_b (groups found)); [ | apply value_error_int_group].
    destruct (Strptime.index_of _ _ _); [exact I | reflexivity]. }
  do 4 (apply value_error_bind; [apply value_error_int_group | intros ?]).
  apply value_error_bind; [ | intros tz].
  { destruct (lookup Strptime.g_z (groups found)); [ | exact I].
    apply value_error_bind; [apply value_error_gmtoff | intros; exact I]. }
  destruct (_ || _)%bool; [reflexivity | ].
  destruct tz as [[s us] | ]; [ | exact I].
  destruct (_ <? _)%Z; [exact I | reflexivity].
Qed.

End StrptimeFacts.

(* ================================================================= *)
(** ** The DDoS window rule *)

Module DDoSFacts.

Import DDoS DDoSScenario.

Local Open Scope Z_scope.

Lemma add_to_window_keys (start : Z) (e : LogEntry.t) (ws : list (Z * list LogEntry.t)) (k : Z) :
  In k (map fst (add_to_window start e ws)) <-> k = start \/ In k (map fst ws).
Proof.
  induction ws as [|[s es] ws IH]; cbn.
  - intuition.
  - destruct (Z.eqb_spec s start) as [-> | Hne]; cbn.
    + intuition.
    + rewrite IH. intuition.
Qed.

Lemma add_to_window_NoDup (start : Z) (e : LogEntry.t) (ws : list (Z * list LogEntry.t)) :
  NoDup (map fst ws) -> NoDup (map fst (add_to_window start e ws)).
Proof.
  induction ws as [|[s es] ws IH]; cbn; intros H.
  - constructor; [intros [] | constructor].
  - inversion H as [|? ? Hs Hws]; subst.
    destruct (Z.eqb_spec s start) as [-> | Hne]; cbn.
    + constructor; assumption.
    + constructor; [ | apply IH, Hws].
      rewrite add_to_window_keys. intros [-> | Hin]; [congruence | contradiction].
Qed.

Lemma windows_NoDup_from (cfg : Config) (entries : list LogEntry.t)
      (ws : list (Z * list LogEntry.t)) :
  NoDup (map fst ws) ->
  NoDup (map fst (fold_left (fun ws e => add_to_window (window_start cfg e) e ws) entries ws)).
Proof.
  revert ws. induction entries as [|e entries IH]; intros ws H; cbn.
  - exact H.
  - apply IH, add_to_window_NoDup, H.
Qed.

Lemma windows_NoDup (cfg : Config) (entries : list LogEntry.t) :
  NoDup (map fst (windows cfg entries)).
Proof. apply windows_NoDup_from. constructor. Qed.

Lemma add_to_window_starts (cfg : Config) (e : LogEntry.t) (ws : list (Z * list LogEntry.t)) :
  Forall (fun w => Forall (fun x => window_start cfg x = fst w) (snd w)) ws ->
  Forall (fun w => Forall (fun x => window_start cfg x = fst w) (snd w))
         (add_to_window (window_start cfg e) e ws).
Proof.
  induction ws as [|[s es] ws IH]; cbn; intros H.
  - repeat constructor.
  - inversion H as [|? ? Hw Hws]; subst. cbn in Hw.
    destruct (Z.eqb_spec s (window_start cfg e)) as [E | Hne].
    + constructor; [ | exact Hws]. cbn. apply Forall_app. split; [exact Hw | ].
      constructor; [symmetry; exact E | constructor].
    + constructor; [exact Hw | apply IH, Hws].
Qed.

Lemma windows_starts (cfg : Config) (entries : list LogEntry.t) :
  Forall (fun w => Forall (fun x => window_start cfg x = fst w) (snd w)) (windows cfg entries).
Proof.
  unfold windows.
  assert (G : forall ws,
             Forall (fun w => Forall (fun x => window_start cfg x = fst w) (snd w)) ws ->
             Forall (fun w => Forall (fun x => window_start cfg x = fst w) (snd w))
                    (fold_left (fun ws e => add_to_window (window_start cfg e) e ws) entries ws)).
  { induction entries as [|e entries IH]; intros ws H; cbn.
    - exact H.
    - apply IH, add_to_window_starts, H. }
  apply G. constructor.
Qed.

Section Alerts.

Variable severity_of : Z -> float -> string.
Variable top_ips_of : list LogEntry.t -> dict Z.

Local Abbreviation scan := (detect_ddos severity_of top_ips_of DDOS_DETECTION).
Local Abbreviation alert := (alert_of severity_of top_ips_of DDOS_DETECTION).

(** C5.  With the thresholds of [DDOS_DETECTION], the scan over tumbling
    five-minute windows emits an alert for a window exactly when the
    window has at least 1000 requests, an error rate of at least 0.5,
    and a fraction of distinct IPs below the floor 0.1.  The windows do
    not overlap: their starts differ and every entry lies in the window
    of its own start.  A window of 1200 requests from 12 IPs with 60%
    errors followed by a window of 400 requests yields one alert, that
    of the first window. *)
Theorem ddos_alert_rule :
  (forall (entries : list LogEntry.t) (a : DDosAlert),
      In a (scan entries) <->
      exists w, In w (windows DDOS_DETECTION entries)
                /\ a = alert w
                /\ 1000 <= window_request_count (snd w)
                /\ fge (window_error_rate (snd w)) 0.5 = true
                /\ flt (true_div (window_unique_ips (snd w))
                                 (window_request_count (snd w))) 0.1 = true)
  /\ (forall entries : list LogEntry.t,
        NoDup (map fst (windows DDOS_DETECTION entries))
        /\ Forall (fun w => Forall (fun e => window_start DDOS_DETECTION e = fst w) (snd w))
                  (windows DDOS_DETECTION entries))
  /\ map (fun w => (of_epoch (fst w), window_request_count (snd w),
                    window_unique_ips (snd w), window_error_rate (snd w)))
         (windows DDOS_DETECTION (attack_window ++ next_window))
     = [ (at_second 0, 1200, 12, 0.6%float); (at_second 300, 400, 4, 1%float) ]
  /\ map (fun a => (timestamp a, request_count a, unique_ips a, error_rate a,
                    duration_minutes a))
         (scan (attack_window ++ next_window))
     = [ (at_second 0, 1200, 12, 0.6%float, 5) ].
Proof.
  split; [ | split; [ | split]].
  - intros entries a. unfold detect_ddos. rewrite in_map_iff. split.
    + intros (w & <- & Hw). apply filter_In in Hw. destruct Hw as [Hin Hr].
      unfold is_alert in Hr. cbn [min_requests_threshold min_error_rate min_ip_diversity
                                  DDOS_DETECTION] in Hr.
      apply andb_true_iff in Hr. destruct Hr as [Hr Hd].
      apply andb_true_iff in Hr. destruct Hr as [Hc He].
      exists w. repeat split; try assumption. apply Z.leb_le. exact Hc.
    + intros (w & Hin & -> & Hc & He & Hd). exists w. split; [reflexivity | ].
      apply filter_In. split; [exact Hin | ].
      unfold is_alert. cbn [min_requests_threshold min_error_rate min_ip_diversity
                            DDOS_DETECTION].
      rewrite He, Hd. apply Z.leb_le in Hc. rewrite Hc. reflexivity.
  - intros entries. split; [apply windows_NoDup | apply windows_starts].
  - vm_compute. reflexivity.
  - unfold detect_ddos. rewrite map_map. cbn [timestamp request_count unique_ips error_rate
                                              duration_minutes alert_of].
    vm_compute. reflexivity.
Qed.

End Alerts.

End DDoSFacts.

(* ================================================================= *)
(** ** Worked examples *)

Module Examples.

Import TrafficPattern BotDetectionResult LogEntry Detectors Signals Parsers ParserSpec
       Validation Scenarios DDoSScenario.
Import ScoringFacts BlocklistFacts ParserFacts SanitizeFacts StrptimeFacts DDoSFacts.

Local Open Scope float_scope.

(** The two scenarios of the design document. *)
Example scraper_verdict :
  (analyze scraper).(is_bot) = true
  /\ (analyze scraper).(confidence) = 1.0
  /\ (analyze scraper).(risk_level) = "CRITICAL"
  /\ ua_score scraper = 0.9
  /\ (analyze scraper).(reasons)
     = [ "High request rate: # req/min"; "Bot-like user agent detected";
         "Low path diversity with high volume"; "Suspicious path requests: #" ]%string.
Proof. vm_compute. repeat split. Qed.

Example visitor_verdict :
  (analyze visitor).(is_bot) = false
  /\ (analyze visitor).(confidence) = 0
  /\ (analyze visitor).(risk_level) = "LOW"
  /\ (analyze visitor).(reasons) = [].
Proof. vm_compute. repeat split. Qed.

Lemma verdicts_valid : valid_levels verdicts.
Proof.
  unfold valid_levels. vm_compute.
  repeat first [ apply Forall_nil | apply Forall_cons ]; auto 10.
Qed.

(** C1 at the scraper. *)
Lemma confidence_is_clamped_sum_of_signals_witness :
  (analyze scraper).(confidence)
  = pymin 1.0 (total shown_float shown_float shown_int scraper)
  /\ is_maximum (ua_score scraper) (matching_scores ["curl/7.68.0"%string]).
Proof.
  destruct (confidence_is_clamped_sum_of_signals shown_float shown_float shown_int scraper)
    as (H1 & _ & _ & _ & H5).
  split; [exact H1 | apply H5; discriminate].
Defined.

(** C4 at the visitor and the scraper. *)
Lemma confidence_monotone_and_bounded_witness :
  PrimFloat.leb (analyze visitor).(confidence) (analyze scraper).(confidence) = true
  /\ PrimFloat.leb (analyze scraper).(confidence) 1 = true.
Proof.
  destruct (confidence_monotone_and_bounded shown_float shown_float shown_int) as [M B].
  split; [ | apply B].
  apply M. unfold triggers_more.
  repeat split; intros;
    first [ vm_compute; reflexivity
          | match goal with H : _ = true |- _ => vm_compute in H; discriminate H end ].
Defined.

(** C6 on the two verdicts. *)
Lemma export_blocklist_by_rank_witness :
  export_blocklist detector verdicts "HIGH" = Ok ["203.0.113.7"%string]
  /\ export_blocklist detector verdicts "LOW"
     = Ok ["203.0.113.7"%string; "198.51.100.4"%string].
Proof.
  destruct (export_blocklist_by_rank detector verdicts "HIGH" 2 verdicts_valid eq_refl)
    as (E1 & E2 & _).
  split; [rewrite E1 | rewrite E2]; vm_compute; reflexivity.
Defined.

(** C7 on the two verdicts. *)
Lemma export_blocklist_fails_iff_unknown_level_witness :
  export_blocklist detector verdicts "SEVERE" = Raise (KeyError "SEVERE").
Proof.
  apply (proj2 (export_blocklist_fails_iff_unknown_level detector verdicts "SEVERE"
                  verdicts_valid)).
  cbn. intuition discriminate.
Defined.

(** C8 on an indented comment and on the first line of the log, which
    the combined and the common grammar both match: the entry is that
    of the combined grammar, with its user agent. *)
Lemma parse_log_line_first_grammar_witness :
  parse_log_line Strptime.strptime Parsers.__init__ "   # rotated 2023-10-10" = Ok None
  /\ option_map LogEntry.user_agent
       (match parse_log_line Strptime.strptime Parsers.__init__ (nth 0 access_log "") with
        | Ok r => r
        | Raise _ => None
        end)
     = Some "curl/7.68.0"%string
  /\ option_map LogEntry.user_agent
       (match _parse_common_format Strptime.strptime Parsers.__init__
                                   (strip (nth 0 access_log "")) with
        | Ok r => r
        | Raise _ => None
        end)
     = Some ""%string.
Proof.
  split; [ | split].
  - apply (proj1 (proj2 (parse_log_line_first_grammar Strptime.strptime Parsers.__init__
                           "   # rotated 2023-10-10"))).
    right. reflexivity.
  - rewrite (proj2 (proj2 (proj2 (parse_log_line_first_grammar Strptime.strptime
                                    Parsers.__init__ (nth 0 access_log ""))))).
    + vm_compute. reflexivity.
    + vm_compute. discriminate.
    + vm_compute. reflexivity.
  - vm_compute. reflexivity.
Defined.

(** C9 on the four-line log. *)
Lemma parse_log_line_total_and_file_continues_witness :
  parse_log_file Strptime.strptime disk Parsers.__init__ "access.log"
  = Ok (parsed_entries Strptime.strptime Parsers.__init__ access_log)
  /\ map LogEntry.ip (parsed_entries Strptime.strptime Parsers.__init__ access_log)
     = ["203.0.113.7"%string; "198.51.100.4"%string].
Proof.
  split.
  - apply (proj2 (parse_log_line_total_and_file_continues Strptime.strptime disk
                    strptime_raises_only_ValueError Parsers.__init__)).
    reflexivity.
  - vm_compute. reflexivity.
Defined.

(** C10, amended, on a user agent in angle brackets. *)
Lemma user_agent_stored_as_captured_witness :
  sanitize_user_agent " <curl/7.68.0> " = "curl/7.68.0"%string.
Proof.
  destruct (user_agent_stored_as_captured Strptime.strptime Parsers.__init__)
    as (_ & _ & _ & _ & _ & H & _).
  rewrite H by discriminate. vm_compute. reflexivity.
Defined.

(** C3 at the scraper. *)
Lemma is_bot_iff_confidence_above_half_witness :
  (analyze scraper).(is_bot) = true.
Proof.
  apply (proj2 (is_bot_iff_confidence_above_half shown_float shown_float shown_int scraper)).
  vm_compute. reflexivity.
Defined.

End Examples.

(* ================================================================= *)
(** ** Verdict maps, actions and levels *)

Module VerdictFacts.

Import TrafficPattern BotSignature BotDetectionResult Detectors Signals Ranks Vectors.
Import UserAgentFacts ScoringFacts BlocklistFacts VerdictSpec.

Local Open Scope float_scope.

Lemma setitem_fresh {V : Type} (d : dict V) (k : string) (v : V) :
  ~ In k (keys d) -> setitem d k v = d ++ [(k, v)].
Proof.
  induction d as [|[k' v'] d IH]; cbn; intros H.
  - reflexivity.
  - destruct (String.eqb_spec k k') as [-> | Hne]; [tauto | ].
    rewrite IH by tauto. reflexivity.
Qed.

Lemma setitem_values {V : Type} (P : V -> Prop) (d : dict V) (k : string) (v : V) :
  Forall P (values d) -> P v -> Forall P (values (setitem d k v)).
Proof.
  unfold values. induction d as [|[k' v'] d IH]; cbn; intros H Hv.
  - constructor; [exact Hv | constructor].
  - inversion H; subst. destruct (String.eqb k k'); cbn.
    + constructor; assumption.
    + constructor; [assumption | apply IH; assumption].
Qed.

Lemma risk_level_names (self : BotDetector) (c : float) (p : TrafficPattern.t) :
  In (_calculate_risk_level self c p) level_names.
Proof.
  unfold _calculate_risk_level, level_names.
  destruct (fge c 0.9 || (suspicious_requests p >? 5)%Z); [cbn; tauto | ].
  destruct (fge c 0.7 || fgt (requests_per_minute p) 20); [cbn; tauto | ].
  destruct (fge c 0.5 || fgt (requests_per_minute p) 10); cbn; tauto.
Qed.

Lemma clamp_keeps_thresholds (rate path err susp timing : bool) (u : float) :
  In u ua_values ->
  fge (pymin 1.0 (score rate u path err susp timing)) 0.9
  = fge (score rate u path err susp timing) 0.9
  /\ fge (pymin 1.0 (score rate u path err susp timing)) 0.7
     = fge (score rate u path err susp timing) 0.7
  /\ fge (pymin 1.0 (score rate u path err susp timing)) 0.5
     = fge (score rate u path err susp timing) 0.5.
Proof.
  intros Hu. unfold score, fge, pymin. cbn in Hu.
  repeat (destruct Hu as [<- | Hu]; [ | ]); [ .. | destruct Hu ];
    destruct rate, path, err, susp, timing; repeat split; reflexivity.
Qed.

Lemma above_half_reaches_half (rate path err susp timing : bool) (u : float) :
  In u ua_values ->
  fgt (score rate u path err susp timing) 0.5 = true ->
  fge (score rate u path err susp timing) 0.5 = true.
Proof.
  intros Hu. unfold score, fge, fgt. cbn in Hu.
  repeat (destruct Hu as [<- | Hu]; [ | ]); [ .. | destruct Hu ];
    destruct rate, path, err, susp, timing; vm_compute; auto.
Qed.

Lemma above_half_two_signals (rate path err susp timing : bool) (u : float) :
  In u ua_values ->
  fgt (score rate u path err susp timing) 0.5 = true ->
  (2 <= triggered_count rate u path err susp timing)%nat.
Proof.
  intros Hu. unfold score, fgt, triggered_count, b2n. cbn in Hu.
  repeat (destruct Hu as [<- | Hu]; [ | ]); [ .. | destruct Hu ];
    destruct rate, path, err, susp, timing; vm_compute; intros H;
      first [ discriminate H | repeat constructor ].
Qed.

Lemma positive_iff_signal (rate path err susp timing : bool) (u : float) :
  In u ua_values ->
  fgt (pymin 1.0 (score rate u path err susp timing)) 0
  = negb (triggered_count rate u path err susp timing =? 0)%nat.
Proof.
  intros Hu. unfold score, pymin, triggered_count, b2n, fgt. cbn in Hu.
  repeat (destruct Hu as [<- | Hu]; [ | ]); [ .. | destruct Hu ];
    destruct rate, path, err, susp, timing; reflexivity.
Qed.

Section Formatting.

Variable fmt_1f : float -> string.
Variable fmt_pct : float -> string.
Variable fmt_int : Z -> string.

Local Abbreviation analyze := (_analyze_single_ip fmt_1f fmt_pct fmt_int detector).
Local Abbreviation detect := (detect_bots fmt_1f fmt_pct fmt_int detector).

Lemma analyze_risk_level (p : TrafficPattern.t) :
  (analyze p).(risk_level) = _calculate_risk_level detector (score_of p) p.
Proof.
  unfold _analyze_single_ip, score_of, score, ua_score, rate_signal, path_signal,
    error_signal, suspicious_signal, timing_signal, _is_timing_suspicious.
  generalize (_analyze_user_agents detector (user_agents p)). intros u.
  cbn [detector Detectors.__init__ rate_limit_thresholds th_requests_per_minute
       error_rate_threshold].
  destruct (fgt (requests_per_minute p) 10),
           ((unique_paths p =? 1)%Z && (request_count p >? 10)%Z),
           (fgt (error_rate p) 0.3),
           (suspicious_requests p >? 0)%Z,
           (fgt (requests_per_minute p) 5 && flt (avg_response_time p) 100);
    reflexivity.
Qed.

Lemma analyze_action (p : TrafficPattern.t) :
  (analyze p).(recommended_action)
  = _recommend_action detector (analyze p).(risk_level) p.
Proof.
  unfold _analyze_single_ip.
  cbn [detector Detectors.__init__ rate_limit_thresholds th_requests_per_minute
       error_rate_threshold].
  repeat match goal with
         | |- context [if ?b then _ else _] => destruct b
         end; reflexivity.
Qed.

Lemma reasons_count (p : TrafficPattern.t) :
  List.length (analyze p).(reasons)
  = triggered_count (rate_signal p) (ua_score p) (path_signal p) (error_signal p)
                    (suspicious_signal p) (timing_signal p).
Proof.
  rewrite analyze_reasons. unfold signals, weighted, triggered_count, b2n.
  cbn [filter triggered].
  destruct (rate_signal p), (fgt (ua_score p) 0), (path_signal p), (error_signal p),
           (suspicious_signal p), (timing_signal p); reflexivity.
Qed.

Lemma detect_bots_from (ps : dict TrafficPattern.t) (acc : dict BotDetectionResult.t) :
  NoDup (keys acc ++ keys ps) ->
  fold_left (fun results '(ip, pattern) => setitem results ip (analyze pattern)) ps acc
  = acc ++ map (fun kv => (fst kv, analyze (snd kv))) ps.
Proof.
  revert acc. induction ps as [|[k p] ps IH]; intros acc H; cbn [fold_left map].
  - rewrite app_nil_r. reflexivity.
  - cbn [keys map fst] in H.
    rewrite setitem_fresh.
    + rewrite IH.
      * rewrite <- app_assoc. reflexivity.
      * unfold keys in *. rewrite map_app. cbn [map fst]. rewrite <- app_assoc. exact H.
    + apply NoDup_remove_2 in H. intros Hin. apply H. apply in_or_app. left. exact Hin.
Qed.

Lemma analyze_ip (p : TrafficPattern.t) :
  (analyze p).(BotDetectionResult.ip) = p.(TrafficPattern.ip).
Proof.
  unfold _analyze_single_ip.
  cbn [detector Detectors.__init__ rate_limit_thresholds th_requests_per_minute
       error_rate_threshold].
  repeat match goal with
         | |- context [if ?b then _ else _] => destruct b
         end; reflexivity.
Qed.

Lemma detect_bots_map (ps : dict TrafficPattern.t) :
  NoDup (keys ps) ->
  detect ps = map (fun kv => (fst kv, analyze (snd kv))) ps.
Proof.
  intros H. unfold detect_bots. rewrite detect_bots_from; [reflexivity | exact H].
Qed.

Lemma detect_bots_ips (ps : dict TrafficPattern.t) :
  NoDup (keys ps) ->
  map BotDetectionResult.ip (values (detect ps)) = map TrafficPattern.ip (values ps).
Proof.
  intros H. rewrite (detect_bots_map ps H). unfold values. rewrite !map_map.
  apply map_ext. intros [k p]. apply analyze_ip.
Qed.

(** X1.  [detect_bots] returns one verdict for each entry of the
    pattern map, under the same key and in the same order, and the
    verdict is that of [_analyze_single_ip] on the entry's pattern, so
    its [ip] field is the pattern's. *)
Theorem detect_bots_in_order (ps : dict TrafficPattern.t) :
  NoDup (keys ps) ->
  detect ps = map (fun kv => (fst kv, analyze (snd kv))) ps
  /\ keys (detect ps) = keys ps
  /\ map BotDetectionResult.ip (values (detect ps)) = map TrafficPattern.ip (values ps).
Proof.
  intros H. split; [apply detect_bots_map, H | ].
  split; [ | apply detect_bots_ips, H].
  rewrite (detect_bots_map ps H). unfold keys. rewrite map_map. reflexivity.
Qed.

Lemma detect_bots_valid (ps : dict TrafficPattern.t) : valid_levels (detect ps).
Proof.
  unfold valid_levels, detect_bots.
  assert (G : forall acc,
             Forall (fun r => In r.(risk_level) level_names) (values acc) ->
             Forall (fun r => In r.(risk_level) level_names)
                    (values (fold_left (fun results '(ip, pattern) =>
                                          setitem results ip (analyze pattern)) ps acc))).
  { induction ps as [|[k p] ps IH]; intros acc H; cbn [fold_left].
    - exact H.
    - apply IH. apply setitem_values; [exact H | ].
      rewrite analyze_risk_level. apply risk_level_names. }
  apply G. constructor.
Qed.

(** X2.  The verdict map of [detect_bots] can always be exported:
    [export_blocklist] raises on it for none of the four level names,
    and for LOW it returns the [ip] of every pattern in the order of
    the pattern map. *)
Theorem export_blocklist_after_detect (ps : dict TrafficPattern.t) :
  (forall level, In level level_names ->
     exists ips, export_blocklist detector (detect ps) level = Ok ips)
  /\ (NoDup (keys ps) ->
      export_blocklist detector (detect ps) "LOW"
      = Ok (map TrafficPattern.ip (values ps))).
Proof.
  split.
  - intros level Hl. destruct (rank_of_name _ Hl) as (k & Hk).
    eexists. apply (export_blocklist_ranked detector _ level k (detect_bots_valid ps) Hk).
  - intros Hnd.
    rewrite (export_blocklist_ranked detector _ "LOW" 0%nat (detect_bots_valid ps) eq_refl).
    rewrite rank_at_least_zero by apply detect_bots_valid.
    rewrite (detect_bots_ips ps Hnd). reflexivity.
Qed.

Lemma analyze_level_names (p : TrafficPattern.t) :
  In (analyze p).(risk_level) level_names.
Proof. rewrite analyze_risk_level. apply risk_level_names. Qed.

Lemma analyze_action_pair (p : TrafficPattern.t) :
  In ((analyze p).(risk_level), (analyze p).(recommended_action)) action_table.
Proof.
  rewrite analyze_action. pose proof (analyze_level_names p) as H.
  unfold level_names in H. cbn in H.
  destruct H as [<- | [<- | [<- | [<- | []]]]]; cbn; tauto.
Qed.

Lemma action_table_one_to_one (l1 a1 l2 a2 : string) :
  In (l1, a1) action_table -> In (l2, a2) action_table -> (a1 = a2 <-> l1 = l2).
Proof.
  unfold action_table. cbn.
  intros [E1 | [E1 | [E1 | [E1 | []]]]] [E2 | [E2 | [E2 | [E2 | []]]]];
    inversion E1; inversion E2; subst; split; intros H;
      first [ reflexivity | discriminate H ].
Qed.

(** X3.  The recommended action of a verdict is the entry of its risk
    level in the table of four actions (never the bare [MONITOR] of the
    lookup default), and two verdicts recommend the same action exactly
    when they have the same risk level. *)
Theorem recommended_action_by_level (p p' : TrafficPattern.t) :
  In ((analyze p).(risk_level), (analyze p).(recommended_action)) action_table
  /\ ((analyze p).(recommended_action) = (analyze p').(recommended_action)
      <-> (analyze p).(risk_level) = (analyze p').(risk_level)).
Proof.
  split; [apply analyze_action_pair | ].
  apply action_table_one_to_one; apply analyze_action_pair.
Qed.

Lemma analyze_level_of_clamped (p : TrafficPattern.t) :
  _calculate_risk_level detector (analyze p).(confidence) p = (analyze p).(risk_level).
Proof.
  rewrite analyze_confidence, analyze_risk_level. unfold _calculate_risk_level, score_of.
  destruct (clamp_keeps_thresholds (rate_signal p) (path_signal p) (error_signal p)
              (suspicious_signal p) (timing_signal p) _ (ua_score_values p))
    as (-> & -> & ->).
  reflexivity.
Qed.

Lemma analyze_bot_level (p : TrafficPattern.t) :
  (analyze p).(is_bot) = true ->
  In (analyze p).(risk_level) ["MEDIUM"; "HIGH"; "CRITICAL"]%string.
Proof.
  rewrite analyze_is_bot, analyze_risk_level. unfold score_of. intros H.
  apply above_half_reaches_half in H; [ | apply ua_score_values].
  unfold _calculate_risk_level. fold (score_of p) in *.
  destruct (fge (score_of p) 0.9 || (suspicious_requests p >? 5)%Z); [cbn; tauto | ].
  destruct (fge (score_of p) 0.7 || fgt (requests_per_minute p) 20); [cbn; tauto | ].
  rewrite H. cbn. tauto.
Qed.

Lemma detect_bots_values (ps : dict TrafficPattern.t) :
  Forall (fun r => exists p, r = analyze p) (values (detect ps)).
Proof.
  unfold detect_bots.
  assert (G : forall acc,
             Forall (fun r => exists p, r = analyze p) (values acc) ->
             Forall (fun r => exists p, r = analyze p)
                    (values (fold_left (fun results '(ip, pattern) =>
                                          setitem results ip (analyze pattern)) ps acc))).
  { induction ps as [|[k p] ps IH]; intros acc H; cbn [fold_left].
    - exact H.
    - apply IH. apply setitem_values; [exact H | ]. exists p. reflexivity. }
  apply G. constructor.
Qed.

(** X4.  The stored risk level is the one [_calculate_risk_level] gives
    for the stored, clamped confidence, although it is computed from
    the unclamped score; and a verdict with [is_bot] set is never LOW. *)
Theorem level_agrees_with_confidence (p : TrafficPattern.t) :
  _calculate_risk_level detector (analyze p).(confidence) p = (analyze p).(risk_level)
  /\ ((analyze p).(is_bot) = true ->
      In (analyze p).(risk_level) ["MEDIUM"; "HIGH"; "CRITICAL"]%string).
Proof.
  split; [apply analyze_level_of_clamped | apply analyze_bot_level].
Qed.

(** X5.  No single signal makes a source a bot: a verdict with [is_bot]
    set lists at least two reasons. *)
Theorem bot_needs_two_signals (p : TrafficPattern.t) :
  (analyze p).(is_bot) = true -> (2 <= List.length (analyze p).(reasons))%nat.
Proof.
  rewrite analyze_is_bot, reasons_count. unfold score_of.
  apply above_half_two_signals, ua_score_values.
Qed.

(** X6.  A verdict has a confidence above 0 exactly when it lists at
    least one reason. *)
Theorem confidence_positive_iff_reason (p : TrafficPattern.t) :
  fgt (analyze p).(confidence) 0 = true <-> (analyze p).(reasons) <> [].
Proof.
  rewrite analyze_confidence. unfold score_of.
  rewrite positive_iff_signal by apply ua_score_values.
  rewrite <- reasons_count.
  destruct (reasons (analyze p)) as [|r rs]; cbn; split; intros H;
    first [ discriminate H | congruence | reflexivity ].
Qed.

End Formatting.

End VerdictFacts.

(* ================================================================= *)
(** ** The report of [generate_bot_report] *)

Module ReportFacts.

Import TrafficPattern BotDetectionResult Detectors Signals Reports ReportSpec VerdictSpec.
Import BlocklistFacts VerdictFacts.

Local Open Scope string_scope.

(** *** Counters *)

Lemma dict_get_setitem {V : Type} (d : dict V) (k k' : string) (v default : V) :
  dict_get (setitem d k v) k' default
  = if String.eqb k' k then v else dict_get d k' default.
Proof.
  unfold dict_get. induction d as [|[k0 v0] d IH]; cbn [setitem getitem].
  - destruct (String.eqb k' k); reflexivity.
  - destruct (String.eqb_spec k k0) as [-> | Hne]; cbn [getitem].
    + destruct (String.eqb k' k0); reflexivity.
    + destruct (String.eqb_spec k' k0) as [-> | Hne'].
      * destruct (String.eqb_spec k0 k) as [E | _]; [congruence | reflexivity].
      * exact IH.
Qed.

Lemma counted_setitem (d : dict Z) (k : string) :
  counted (setitem d k (dict_get d k 0 + 1)%Z) = (counted d + 1)%Z.
Proof.
  unfold counted, values, dict_get.
  induction d as [|[k0 v0] d IH]; cbn [setitem getitem map fold_right fst snd].
  - lia.
  - destruct (String.eqb k k0); cbn [map fold_right fst snd]; lia.
Qed.

Lemma keys_setitem {V : Type} (d : dict V) (k : string) (v : V) (x : string) :
  In x (keys (setitem d k v)) <-> x = k \/ In x (keys d).
Proof.
  unfold keys. induction d as [|[k0 v0] d IH]; cbn [setitem map In fst].
  - intuition.
  - destruct (String.eqb_spec k k0) as [-> | Hne]; cbn [map In fst].
    + intuition.
    + rewrite IH. intuition.
Qed.

Lemma Counter_from (l : list string) (c : dict Z) :
  let c' := fold_left (fun c k => setitem c k (dict_get c k 0 + 1)%Z) l c in
  (forall k, dict_get c' k 0%Z = (dict_get c k 0 + occurrences k l)%Z)
  /\ counted c' = (counted c + len l)%Z
  /\ (forall k, In k (keys c') <-> In k (keys c) \/ In k l).
Proof.
  revert c. induction l as [|x l IH]; intros c; cbn [fold_left].
  - unfold occurrences, len. cbn. repeat split; intros; try lia; tauto.
  - destruct (IH (setitem c x (dict_get c x 0 + 1)%Z)) as (G & T & K).
    repeat split.
    + intros k. rewrite G, dict_get_setitem. unfold occurrences, len. cbn [filter].
      destruct (String.eqb k x) eqn:E.
      * apply String.eqb_eq in E. subst k. cbn [List.length]. lia.
      * lia.
    + rewrite T, counted_setitem. unfold len. cbn [List.length]. lia.
    + rewrite K, keys_setitem. cbn [In]. intuition.
    + rewrite K, keys_setitem. cbn [In]. intuition.
Qed.

Lemma Counter_counts (l : list string) :
  (forall k, dict_get (Counter l) k 0%Z = occurrences k l)
  /\ counted (Counter l) = len l
  /\ (forall k, In k (keys (Counter l)) <-> In k l).
Proof.
  destruct (Counter_from l []) as (G & T & K). unfold Counter. repeat split.
  - intros k. rewrite G. reflexivity.
  - rewrite T. reflexivity.
  - rewrite K. cbn. tauto.
  - rewrite K. cbn. tauto.
Qed.

(** *** Sorting keeps the elements *)

Lemma insert_desc_perm (x : BotDetectionResult.t) (l : list BotDetectionResult.t) :
  Permutation (x :: l) (insert_desc x l).
Proof.
  induction l as [|y l IH]; cbn [insert_desc].
  - apply Permutation_refl.
  - destruct (flt (confidence x) (confidence y)).
    + apply perm_trans with (y :: x :: l); [apply perm_swap | apply perm_skip, IH].
    + apply Permutation_refl.
Qed.

Lemma sorted_desc_perm (l : list BotDetectionResult.t) : Permutation l (sorted_desc l).
Proof.
  induction l as [|x l IH]; cbn [sorted_desc fold_right].
  - apply perm_nil.
  - apply perm_trans with (x :: sorted_desc l); [apply perm_skip, IH | apply insert_desc_perm].
Qed.

(** *** The lists of the report and the blocklists *)

Lemma level_filters (r : BotDetectionResult.t) :
  In r.(risk_level) level_names ->
  rank_at_least 3 r = String.eqb r.(risk_level) "CRITICAL"
  /\ rank_at_least 1 r
     = String.eqb r.(risk_level) "CRITICAL" || str_in r.(risk_level) ["HIGH"; "MEDIUM"]
  /\ String.eqb r.(risk_level) "CRITICAL" && str_in r.(risk_level) ["HIGH"; "MEDIUM"] = false.
Proof.
  unfold rank_at_least, rank, level_names. cbn [In].
  intros [<- | [<- | [<- | [<- | []]]]]; repeat split; reflexivity.
Qed.

Lemma filter_split {A : Type} (f g h : A -> bool) (l : list A) :
  Forall (fun x => f x = g x || h x /\ g x && h x = false) l ->
  Permutation (filter f l) (filter g l ++ filter h l).
Proof.
  induction 1 as [|x l [E D] _ IH]; cbn [filter].
  - apply perm_nil.
  - rewrite E. destruct (g x), (h x); cbn in D |- *; try discriminate D.
    + apply perm_skip, IH.
    + apply perm_trans with (x :: filter g l ++ filter h l);
        [apply perm_skip, IH | apply Permutation_middle].
    + exact IH.
Qed.

Lemma filter_same {A : Type} (f g : A -> bool) (l : list A) :
  Forall (fun x => f x = g x) l -> filter f l = filter g l.
Proof.
  induction 1 as [|x l E _ IH]; cbn [filter]; [reflexivity | ]. rewrite E, IH. reflexivity.
Qed.

(** X9.  On verdicts with valid level names the lists of the report
    are blocklists: [immediate_blocks] is what [export_blocklist]
    returns for CRITICAL, and [immediate_blocks] together with
    [rate_limit_candidates] holds, up to order, what it returns for
    MEDIUM. *)
Theorem report_lists_are_blocklists (self : BotDetector)
        (results : dict BotDetectionResult.t) :
  valid_levels results ->
  export_blocklist self results "CRITICAL"
  = Ok (generate_bot_report self results).(immediate_blocks)
  /\ exists ips,
       export_blocklist self results "MEDIUM" = Ok ips
       /\ Permutation ips (listed (generate_bot_report self results)).
Proof.
  intros Hv. split.
  - rewrite (export_blocklist_ranked self results "CRITICAL" 3 Hv eq_refl).
    cbn [generate_bot_report immediate_blocks]. do 2 f_equal.
    apply filter_same. eapply Forall_impl; [ | exact Hv].
    intros r Hr. apply (level_filters r Hr).
  - eexists. split; [apply (export_blocklist_ranked self results "MEDIUM" 1 Hv eq_refl) | ].
    unfold listed. cbn [generate_bot_report immediate_blocks rate_limit_candidates].
    rewrite <- map_app. apply Permutation_map. apply filter_split.
    eapply Forall_impl; [ | exact Hv].
    intros r Hr. destruct (level_filters r Hr) as (_ & E & D). split; assumption.
Qed.

Lemma firstn_In {A : Type} (n : nat) (l : list A) (x : A) : In x (firstn n l) -> In x l.
Proof.
  revert l. induction n as [|n IH]; intros [|y l]; cbn; try tauto.
  intros [E | H]; [left; exact E | right; apply IH, H].
Qed.

Lemma filter_length_le {A : Type} (f : A -> bool) (l : list A) :
  (List.length (filter f l) <= List.length l)%nat.
Proof.
  induction l as [|x l IH]; cbn [filter]; [lia | ].
  destruct (f x); cbn [List.length]; lia.
Qed.

Lemma filter_disjoint_length {A : Type} (g h : A -> bool) (l : list A) :
  (forall x, g x && h x = false) ->
  (List.length (filter g l) + List.length (filter h l) <= List.length l)%nat.
Proof.
  intros D. induction l as [|x l IH]; cbn [filter List.length]; [lia | ].
  specialize (D x). destruct (g x), (h x); cbn [List.length] in *; try discriminate D; lia.
Qed.

(** X10.  The counts of the report.  [risk_distribution] gives for
    each level the number of verdicts with that level; its counts, and
    those of [recommended_actions], add up to [total_ips_analyzed];
    [detected_bots] lies between 0 and that total; [top_bots] has
    min(10, [detected_bots]) items, each with at most three reasons and
    with the ip, confidence and level of a verdict that has [is_bot]
    set; and the two lists of sources hold no more items than there
    are verdicts. *)
Theorem report_counts (self : BotDetector) (results : dict BotDetectionResult.t) :
  let report := generate_bot_report self results in
  let levels := map BotDetectionResult.risk_level (values results) in
  (forall level,
     dict_get report.(summary).(risk_distribution) level 0%Z = occurrences level levels)
  /\ counted report.(summary).(risk_distribution) = report.(summary).(total_ips_analyzed)
  /\ counted report.(recommended_actions) = report.(summary).(total_ips_analyzed)
  /\ (0 <= report.(summary).(detected_bots) <= report.(summary).(total_ips_analyzed))%Z
  /\ len report.(top_bots) = Z.min 10 report.(summary).(detected_bots)
  /\ (len report.(immediate_blocks) + len report.(rate_limit_candidates)
      <= report.(summary).(total_ips_analyzed))%Z
  /\ (forall bot, In bot report.(top_bots) ->
        (List.length bot.(TopBot.reasons) <= 3)%nat
        /\ exists result,
             In result (values results) /\ result.(is_bot) = true
             /\ bot.(TopBot.ip) = result.(BotDetectionResult.ip)
             /\ bot.(TopBot.confidence) = result.(BotDetectionResult.confidence)
             /\ bot.(TopBot.risk_level) = result.(BotDetectionResult.risk_level)).
Proof.
  cbn zeta.
  cbn [generate_bot_report summary risk_distribution total_ips_analyzed recommended_actions
       detected_bots top_bots immediate_blocks rate_limit_candidates].
  destruct (Counter_counts (map risk_level (values results))) as (G & T & _).
  destruct (Counter_counts (map (fun result => split_head " - " (recommended_action result))
                                (values results))) as (_ & T' & _).
  assert (L : len results = len (values results)).
  { unfold len, values. rewrite length_map. reflexivity. }
  repeat split.
  - exact G.
  - rewrite T, L. unfold len. rewrite length_map. reflexivity.
  - rewrite T', L. unfold len. rewrite length_map. reflexivity.
  - unfold len. lia.
  - rewrite L. unfold len. pose proof (filter_length_le is_bot (values results)). lia.
  - unfold len. rewrite length_map, length_firstn.
    rewrite <- (Permutation_length (sorted_desc_perm _)). lia.
  - rewrite L. unfold len. rewrite !length_map.
    pose proof (filter_disjoint_length
                  (fun result => String.eqb (risk_level result) "CRITICAL")
                  (fun result => str_in (risk_level result) ["HIGH"; "MEDIUM"])
                  (values results)) as D.
    cut (List.length (filter (fun result => String.eqb (risk_level result) "CRITICAL")
                             (values results))
         + List.length (filter (fun result => str_in (risk_level result) ["HIGH"; "MEDIUM"])
                               (values results)) <= List.length (values results))%nat; [lia | ].
    apply D. intros x. unfold str_in. cbn [existsb].
    destruct (String.eqb_spec (risk_level x) "CRITICAL") as [-> | _]; reflexivity.
  - apply in_map_iff in H. destruct H as (r & <- & _). cbn [TopBot.reasons].
    rewrite length_firstn. lia.
  - apply in_map_iff in H. destruct H as (r & <- & Hr). cbn.
    exists r. apply firstn_In in Hr.
    apply (Permutation_in _ (Permutation_sym (sorted_desc_perm _))) in Hr.
    apply filter_In in Hr. tauto.
Qed.

(** *** The report of the verdicts of [detect_bots] *)

Section Formatting.

Variable fmt_1f : float -> string.
Variable fmt_pct : float -> string.
Variable fmt_int : Z -> string.

Local Abbreviation analyze := (_analyze_single_ip fmt_1f fmt_pct fmt_int detector).
Local Abbreviation detect := (detect_bots fmt_1f fmt_pct fmt_int detector).

Lemma analyze_action_name (p : TrafficPattern.t) :
  In (split_head " - " (analyze p).(recommended_action)) action_names.
Proof.
  pose proof (analyze_action_pair fmt_1f fmt_pct fmt_int p) as H.
  revert H. generalize (risk_level (analyze p)), (recommended_action (analyze p)).
  intros l a. unfold action_table. cbn [In].
  intros [E | [E | [E | [E | []]]]]; inversion E; subst; cbn; tauto.
Qed.

Lemma bot_is_listed (self : BotDetector) (results : dict BotDetectionResult.t)
      (result : BotDetectionResult.t) :
  In result (values results) ->
  In result.(risk_level) ["MEDIUM"; "HIGH"; "CRITICAL"] ->
  In result.(BotDetectionResult.ip) (listed (generate_bot_report self results)).
Proof.
  intros Hin Hl. unfold listed.
  cbn [generate_bot_report immediate_blocks rate_limit_candidates].
  rewrite <- map_app. apply in_map. apply in_or_app. rewrite !filter_In.
  cbn [In] in Hl. destruct Hl as [E | [E | [E | []]]]; rewrite <- E; cbn; tauto.
Qed.

(** X11.  In the report of the verdicts of [detect_bots] every source
    with [is_bot] set is listed for blocking or for rate limiting, and
    so is every item of [top_bots]; the keys of [risk_distribution] are
    among the four level names and the keys of [recommended_actions]
    among the four action names. *)
Theorem detected_bots_are_listed (ps : dict TrafficPattern.t) :
  let results := detect ps in
  let report := generate_bot_report detector results in
  (forall result, In result (values results) -> result.(is_bot) = true ->
     In result.(BotDetectionResult.ip) (listed report))
  /\ (forall bot, In bot report.(top_bots) -> In bot.(TopBot.ip) (listed report))
  /\ (forall level, In level (keys report.(summary).(risk_distribution)) ->
        In level level_names)
  /\ (forall action, In action (keys report.(recommended_actions)) ->
        In action action_names).
Proof.
  cbn zeta.
  assert (B : forall result, In result (values (detect ps)) -> result.(is_bot) = true ->
                In result.(BotDetectionResult.ip)
                   (listed (generate_bot_report detector (detect ps)))).
  { intros result Hin Hb. apply bot_is_listed; [exact Hin | ].
    pose proof (detect_bots_values fmt_1f fmt_pct fmt_int ps) as V.
    rewrite Forall_forall in V. destruct (V _ Hin) as (p & ->).
    apply analyze_bot_level, Hb. }
  split; [exact B | ]. split; [ | split].
  - intros bot Hb. cbn [generate_bot_report top_bots] in Hb.
    apply in_map_iff in Hb. destruct Hb as (r & <- & Hr). cbn [TopBot.ip].
    apply firstn_In in Hr.
    apply (Permutation_in _ (Permutation_sym (sorted_desc_perm _))) in Hr.
    apply filter_In in Hr. apply B; tauto.
  - intros level. cbn [generate_bot_report summary risk_distribution].
    rewrite (proj2 (proj2 (Counter_counts _))). intros H.
    apply in_map_iff in H. destruct H as (r & <- & Hr).
    pose proof (detect_bots_valid fmt_1f fmt_pct fmt_int ps) as V.
    unfold valid_levels in V. rewrite Forall_forall in V. apply V, Hr.
  - intros action. cbn [generate_bot_report recommended_actions].
    rewrite (proj2 (proj2 (Counter_counts _))). intros H.
    apply in_map_iff in H. destruct H as (r & <- & Hr).
    pose proof (detect_bots_values fmt_1f fmt_pct fmt_int ps) as V.
    rewrite Forall_forall in V. destruct (V _ Hr) as (p & ->).
    apply analyze_action_name.
Qed.

End Formatting.

End ReportFacts.

(* ================================================================= *)
(** ** Order: the top bots and the monotone risk level *)

Module OrderFacts.

Import TrafficPattern BotDetectionResult Detectors Signals Vectors Reports ReportSpec
       VerdictSpec Heights.
Import ScoringFacts BlocklistFacts VerdictFacts ReportFacts.

Local Open Scope float_scope.

Lemma heights_agree_holds : all_pairs agree height_table = true.
Proof. vm_compute. reflexivity. Qed.

Lemma thresholds_monotone_holds : thresholds_monotone = true.
Proof. vm_compute. reflexivity. Qed.

Lemma all_pairs_holds {A : Type} (f : A -> A -> bool) (l : list A) :
  all_pairs f l = true -> forall a b, In a l -> In b l -> f a b = true.
Proof.
  unfold all_pairs. intros H a b Ha Hb. rewrite forallb_forall in H. specialize (H a Ha).
  rewrite forallb_forall in H. exact (H b Hb).
Qed.

Lemma in_height_table (v : vector) :
  In v vectors -> In (clamped v, height (clamped v)) height_table.
Proof. intros H. unfold height_table. apply in_map_iff. exists v. split; [reflexivity | exact H]. Qed.

Lemma heights_agree_pairs (a b : float * nat) :
  In a height_table -> In b height_table -> agree a b = true.
Proof.
  revert a b. exact (all_pairs_holds agree height_table heights_agree_holds).
Qed.

Lemma heights_order (v w : vector) :
  In v vectors -> In w vectors ->
  fge (clamped v) (clamped w) = (height (clamped w) <=? height (clamped v))%nat
  /\ flt (clamped v) (clamped w) = (height (clamped v) <? height (clamped w))%nat.
Proof.
  intros Hv Hw.
  pose proof (heights_agree_pairs _ _ (in_height_table v Hv) (in_height_table w Hw)) as H.
  unfold agree in H. cbn [fst snd] in H.
  apply andb_true_iff in H. destruct H as [H1 H2].
  apply Bool.eqb_prop in H1, H2. split; assumption.
Qed.

Lemma before_height (a b : BotDetectionResult.t) :
  reachable a -> reachable b ->
  (before a b <-> (height b.(confidence) <= height a.(confidence))%nat)
  /\ (flt a.(confidence) b.(confidence) = true
      <-> (height a.(confidence) < height b.(confidence))%nat).
Proof.
  intros (v & Hv & Ea) (w & Hw & Eb). unfold before. rewrite Ea, Eb.
  destruct (heights_order v w Hv Hw) as [-> ->].
  split; [apply Nat.leb_le | apply Nat.ltb_lt].
Qed.

Lemma insert_desc_sorted (x : BotDetectionResult.t) (l : list BotDetectionResult.t) :
  reachable x -> Forall reachable l ->
  StronglySorted (fun a b => (height b.(confidence) <= height a.(confidence))%nat) l ->
  StronglySorted (fun a b => (height b.(confidence) <= height a.(confidence))%nat)
                 (insert_desc x l).
Proof.
  intros Hx Hl S. induction S as [|y l S IH F]; cbn [insert_desc].
  - constructor; constructor.
  - inversion Hl as [|y' l' Hy Hl']; subst.
    destruct (flt (confidence x) (confidence y)) eqn:E.
    + apply (proj2 (before_height x y Hx Hy)) in E.
      constructor; [apply IH, Hl' | ].
      apply (Permutation_Forall (insert_desc_perm x l)).
      constructor; [lia | exact F].
    + assert (G : (height (confidence y) <= height (confidence x))%nat).
      { destruct (Nat.le_gt_cases (height (confidence y)) (height (confidence x)))
          as [L | L]; [exact L | ].
        apply (proj2 (before_height x y Hx Hy)) in L. congruence. }
      constructor; [constructor; assumption | ].
      constructor; [exact G | ].
      eapply Forall_impl; [ | exact F]. cbn beta. intros z Hz. lia.
Qed.

Lemma sorted_desc_sorted (l : list BotDetectionResult.t) :
  Forall reachable l ->
  StronglySorted (fun a b => (height b.(confidence) <= height a.(confidence))%nat)
                 (sorted_desc l).
Proof.
  induction 1 as [|x l Hx Hl IH]; cbn [sorted_desc fold_right].
  - constructor.
  - apply insert_desc_sorted; [exact Hx | | exact IH].
    apply (Permutation_Forall (sorted_desc_perm l)), Hl.
Qed.

Lemma sorted_by_confidence (l : list BotDetectionResult.t) :
  Forall reachable l -> StronglySorted before (sorted_desc l).
Proof.
  intros Hl. pose proof (sorted_desc_sorted l Hl) as S.
  assert (R : Forall reachable (sorted_desc l))
    by apply (Permutation_Forall (sorted_desc_perm l)), Hl.
  induction S as [|y s S IH F]; [constructor | ].
  inversion R as [|y' s' Hy Hs]; subst.
  constructor; [apply IH, Hs | ].
  rewrite Forall_forall in *. intros z Hz.
  apply (proj1 (before_height y z Hy (Hs z Hz))). apply F, Hz.
Qed.

Section Formatting.

Variable fmt_1f : float -> string.
Variable fmt_pct : float -> string.
Variable fmt_int : Z -> string.

Local Abbreviation analyze := (_analyze_single_ip fmt_1f fmt_pct fmt_int detector).
Local Abbreviation detect := (detect_bots fmt_1f fmt_pct fmt_int detector).

Lemma analyze_reachable (p : TrafficPattern.t) : reachable (analyze p).
Proof.
  exists (rate_signal p, (ua_score p, (path_signal p, (error_signal p,
            (suspicious_signal p, timing_signal p))))).
  split; [apply in_vectors, ua_score_values | ].
  rewrite analyze_confidence. reflexivity.
Qed.

(** X19.  The top bots of the report of the verdicts of [detect_bots]
    are the bots of highest confidence, in descending order: the bots
    can be arranged in a list, descending in confidence throughout,
    whose first min(10, number of bots) verdicts are the items of
    [top_bots] in their order. *)
Theorem top_bots_by_confidence (ps : dict TrafficPattern.t) :
  let bots := filter is_bot (values (detect ps)) in
  exists top rest : list BotDetectionResult.t,
    (generate_bot_report detector (detect ps)).(top_bots) = map top_bot_of top
    /\ List.length top = Nat.min 10 (List.length bots)
    /\ Permutation bots (top ++ rest)
    /\ StronglySorted before (top ++ rest).
Proof.
  cbn zeta. set (bots := filter is_bot (values (detect ps))).
  exists (firstn 10 (sorted_desc bots)), (skipn 10 (sorted_desc bots)).
  split; [reflexivity | ]. split.
  - rewrite length_firstn, <- (Permutation_length (sorted_desc_perm bots)). reflexivity.
  - rewrite firstn_skipn. split; [apply sorted_desc_perm | ].
    apply sorted_by_confidence. unfold bots.
    pose proof (detect_bots_values fmt_1f fmt_pct fmt_int ps) as V.
    rewrite Forall_forall in *. intros r Hr. apply filter_In in Hr.
    destruct (V r (proj1 Hr)) as (p & ->). apply analyze_reachable.
Qed.

Lemma level_rank (c : float) (p : TrafficPattern.t) :
  rank (_calculate_risk_level detector c p)
  = Some (if fge c 0.9 || (p.(suspicious_requests) >? 5)%Z then 3
          else if fge c 0.7 || fgt p.(requests_per_minute) 20 then 2
          else if fge c 0.5 || fgt p.(requests_per_minute) 10 then 1
          else 0)%nat.
Proof.
  unfold _calculate_risk_level.
  destruct (fge c 0.9 || (suspicious_requests p >? 5)%Z); [reflexivity | ].
  destruct (fge c 0.7 || fgt (requests_per_minute p) 20); [reflexivity | ].
  destruct (fge c 0.5 || fgt (requests_per_minute p) 10); reflexivity.
Qed.

(** X20.  The risk level is monotone: a pattern that triggers every
    signal another pattern triggers, with a user-agent score no
    smaller, with no fewer suspicious requests, and above 20 requests
    per minute when the other is, gets a level of no lower rank in
    LOW < MEDIUM < HIGH < CRITICAL. *)
Theorem risk_level_monotone (p p' : TrafficPattern.t) :
  triggers_more p p' ->
  (p.(suspicious_requests) <= p'.(suspicious_requests))%Z ->
  (fgt p.(requests_per_minute) 20 = true -> fgt p'.(requests_per_minute) 20 = true) ->
  exists k k' : nat,
    rank (analyze p).(risk_level) = Some k
    /\ rank (analyze p').(risk_level) = Some k'
    /\ (k <= k')%nat.
Proof.
  intros (H1 & Hu & H3 & H4 & H5 & H6) Hs Hr.
  rewrite !analyze_risk_level, !level_rank.
  do 2 eexists. split; [reflexivity | ]. split; [reflexivity | ].
  pose proof thresholds_monotone_holds as M. unfold thresholds_monotone in M.
  rewrite forallb_forall in M.
  specialize (M _ (in_vectors (rate_signal p) (path_signal p) (error_signal p)
                     (suspicious_signal p) (timing_signal p) _ (ua_score_values p))).
  rewrite forallb_forall in M.
  specialize (M _ (in_vectors (rate_signal p') (path_signal p') (error_signal p')
                     (suspicious_signal p') (timing_signal p') _ (ua_score_values p'))).
  cbn [vector_le vector_score] in M.
  rewrite Hu, (implb_of _ _ H1), (implb_of _ _ H3), (implb_of _ _ H4),
    (implb_of _ _ H5), (implb_of _ _ H6) in M.
  cbn [andb implb] in M. fold (score_of p) (score_of p') in M.
  apply andb_true_iff in M. destruct M as [M M5].
  apply andb_true_iff in M. destruct M as [M9 M7].
  unfold rate_signal in H1.
  assert (S5 : (suspicious_requests p >? 5)%Z = true -> (suspicious_requests p' >? 5)%Z = true).
  { intros G. apply Z.gtb_lt in G. apply Z.gtb_lt. lia. }
  destruct (fge (score_of p) 0.9), (fge (score_of p') 0.9); try discriminate M9;
    destruct (suspicious_requests p >? 5)%Z, (suspicious_requests p' >? 5)%Z;
    try (specialize (S5 eq_refl); discriminate S5); cbn [orb]; try lia;
    destruct (fge (score_of p) 0.7), (fge (score_of p') 0.7); try discriminate M7;
    destruct (fgt (requests_per_minute p) 20), (fgt (requests_per_minute p') 20);
    try (specialize (Hr eq_refl); discriminate Hr); cbn [orb]; try lia;
    destruct (fge (score_of p) 0.5), (fge (score_of p') 0.5); try discriminate M5;
    destruct (fgt (requests_per_minute p) 10), (fgt (requests_per_minute p') 10);
    try (specialize (H1 eq_refl); discriminate H1); cbn [orb]; lia.
Qed.

End Formatting.

End OrderFacts.

(* ================================================================= *)
(** ** The matcher is sound, and monotone in its continuation *)

Module RegexFacts.

Import RegexSpec.

Local Open Scope string_scope.

Lemma append_assoc (a b c : string) : (a ++ b) ++ c = a ++ (b ++ c).
Proof. induction a as [|x a IH]; cbn; [reflexivity | rewrite IH; reflexivity]. Qed.

Lemma append_nil_r (a : string) : a ++ "" = a.
Proof. induction a as [|x a IH]; cbn; [reflexivity | rewrite IH; reflexivity]. Qed.

Lemma length_app (a b : string) :
  String.length (a ++ b) = (String.length a + String.length b)%nat.
Proof. induction a as [|x a IH]; cbn; [reflexivity | rewrite IH; reflexivity]. Qed.

Lemma take_app (a b : string) : take (String.length a) (a ++ b) = a.
Proof. induction a as [|x a IH]; cbn; [destruct b; reflexivity | rewrite IH; reflexivity]. Qed.

Lemma consumed_app (w s : string) : consumed (w ++ s) s = w.
Proof.
  unfold consumed. rewrite length_app.
  replace (String.length w + String.length s - String.length s)%nat with (String.length w) by lia.
  apply take_app.
Qed.

Lemma forall_chars_app (p : ascii -> bool) (a b : string) :
  forall_chars p (a ++ b) = forall_chars p a && forall_chars p b.
Proof.
  induction a as [|x a IH]; cbn; [reflexivity | ].
  rewrite IH, andb_assoc. reflexivity.
Qed.

Section Sound.

Variable ic : bool.
Variable R : Type.

Lemma star_sound (p : ascii -> bool) (s : string) (k : string -> option R) (x : R) :
  Re.star R p s k = Some x ->
  exists w s', s = w ++ s' /\ forall_chars p w = true /\ k s' = Some x.
Proof.
  induction s as [|c s IH]; cbn [Re.star].
  - intros H. exists "", "". auto.
  - destruct (p c) eqn:Hc.
    + destruct (Re.star R p s k) as [y | ] eqn:E.
      * intros H. injection H as ->.
        destruct (IH eq_refl) as (w & s' & -> & Hw & Hk).
        exists (String c w), s'. cbn. rewrite Hc, Hw. auto.
      * intros H. exists "", (String c s). auto.
    + intros H. exists "", (String c s). auto.
Qed.

Lemma run_sound (spec : nat -> string -> Prop) (r : regex) :
  groups_in spec ic r ->
  forall (s : string) (caps : captures) (k : string -> captures -> option R) (x : R),
    captured spec caps ->
    Re.run ic R r s caps k = Some x ->
    exists w s' caps',
      s = w ++ s' /\ lang ic r w /\ captured spec caps' /\ k s' caps' = Some x.
Proof.
  induction r as [ | c | p | p | r1 IH1 r2 IH2 | r1 IH1 r2 IH2 | n r1 IH1 | ];
    intros G s caps k x Hc H; cbn [Re.run] in H.
  - exists "", s, caps. cbn. auto.
  - destruct s as [|d s]; [discriminate | ].
    destruct (Re.chr_eq ic c d) eqn:E; [ | discriminate].
    exists (String d ""), s, caps. cbn. eauto 6.
  - destruct s as [|d s]; [discriminate | ].
    destruct (p d) eqn:E; [ | discriminate].
    exists (String d ""), s, caps. cbn. eauto 6.
  - apply star_sound in H. destruct H as (w & s' & -> & Hw & Hk).
    exists w, s', caps. cbn. auto.
  - destruct G as [G1 G2].
    destruct (IH1 G1 _ _ _ _ Hc H) as (w1 & s1 & caps1 & -> & L1 & C1 & H1).
    destruct (IH2 G2 _ _ _ _ C1 H1) as (w2 & s2 & caps2 & -> & L2 & C2 & H2).
    exists (w1 ++ w2), s2, caps2. rewrite append_assoc. cbn. eauto 8.
  - destruct G as [G1 G2].
    destruct (Re.run ic R r1 s caps k) as [y | ] eqn:E.
    + injection H as ->.
      destruct (IH1 G1 _ _ _ _ Hc E) as (w & s' & caps' & -> & L & C & K).
      exists w, s', caps'. cbn. auto.
    + destruct (IH2 G2 _ _ _ _ Hc H) as (w & s' & caps' & -> & L & C & K).
      exists w, s', caps'. cbn. auto.
  - destruct G as [Gn G1].
    destruct (IH1 G1 _ _ _ _ Hc H) as (w & s' & caps' & -> & L & C & K).
    rewrite consumed_app in K.
    exists w, s', ((n, w) :: caps'). cbn [lang]. repeat split; try assumption.
    constructor; [apply Gn, L | exact C].
  - exists "", s, caps. cbn.
    destruct s as [|c [|d s]]; try discriminate; [auto | ].
    destruct (Ascii.eqb c newline); [auto | discriminate].
Qed.

End Sound.

(** A successful [re.match] consumed a string of the pattern's language
    and captured, in each group, a string of the group's kind. *)
Lemma match_sound (ic : bool) (spec : nat -> string -> Prop) (r : regex) (s : string)
      (m : Match) :
  groups_in spec ic r ->
  Re.match_ ic r s = Some m ->
  (exists w, s = w ++ rest m /\ lang ic r w) /\ captured spec (groups m).
Proof.
  intros G H. unfold Re.match_ in H.
  destruct (run_sound ic Match spec r G _ _ _ _ (Forall_nil _) H)
    as (w & s' & caps' & -> & L & C & K).
  injection K as <-. cbn. split; [exists w; auto | exact C].
Qed.

Lemma captured_lookup (spec : nat -> string -> Prop) (caps : captures) (n : nat) (w : string) :
  captured spec caps -> lookup n caps = Some w -> spec n w.
Proof.
  induction 1 as [|[m v] caps Hm _ IH]; cbn; [discriminate | ].
  destruct (Nat.eqb_spec n m) as [-> | _]; [ | exact IH].
  intros H. injection H as <-. exact Hm.
Qed.

Lemma group_kind (spec : nat -> string -> Prop) (ic : bool) (r : regex) (s : string)
      (m : Match) (n : nat) (w : string) :
  groups_in spec ic r -> Re.match_ ic r s = Some m -> group m n = Ok w -> spec n w.
Proof.
  intros G H Hg. destruct (match_sound ic spec r s m G H) as [_ C].
  unfold group in Hg. destruct (lookup n (groups m)) as [v | ] eqn:E; [ | discriminate].
  injection Hg as <-. apply (captured_lookup spec _ n v C E).
Qed.

(** Success of the matcher only grows with the continuation. *)
Section Monotone.

Variable ic : bool.
Variables R R' : Type.

Lemma star_mono (p : ascii -> bool) (s : string)
      (k : string -> option R) (k' : string -> option R') :
  (forall s', k s' <> None -> k' s' <> None) ->
  Re.star R p s k <> None -> Re.star R' p s k' <> None.
Proof.
  intros Hk. induction s as [|c s IH]; cbn [Re.star].
  - apply Hk.
  - destruct (p c); [ | apply Hk].
    destruct (Re.star R p s k) as [y | ] eqn:E.
    + intros _. destruct (Re.star R' p s k') as [y' | ]; [discriminate | ].
      exfalso. apply IH; [discriminate | reflexivity].
    + intros H. destruct (Re.star R' p s k') as [y' | ]; [discriminate | ].
      apply Hk, H.
Qed.

Lemma run_mono (r : regex) :
  forall (s : string) (caps : captures)
         (k : string -> captures -> option R) (k' : string -> captures -> option R'),
    (forall s' c', k s' c' <> None -> k' s' c' <> None) ->
    Re.run ic R r s caps k <> None -> Re.run ic R' r s caps k' <> None.
Proof.
  induction r as [ | c | p | p | r1 IH1 r2 IH2 | r1 IH1 r2 IH2 | n r1 IH1 | ];
    intros s caps k k' Hk; cbn [Re.run].
  - apply Hk.
  - destruct s as [|d s]; [auto | ]. destruct (Re.chr_eq ic c d); [apply Hk | auto].
  - destruct s as [|d s]; [auto | ]. destruct (p d); [apply Hk | auto].
  - apply star_mono. intros s'. apply Hk.
  - apply IH1. intros s1 c1. apply IH2. exact Hk.
  - destruct (Re.run ic R r1 s caps k) as [y | ] eqn:E.
    + intros _. destruct (Re.run ic R' r1 s caps k') as [y' | ] eqn:E'; [discriminate | ].
      exfalso. apply (IH1 s caps k k' Hk); [rewrite E; discriminate | exact E'].
    + intros H. destruct (Re.run ic R' r1 s caps k') as [y' | ]; [discriminate | ].
      apply (IH2 s caps k k' Hk H).
  - apply IH1. intros s1 c1. apply Hk.
  - destruct s as [|c [|d s]].
    + apply Hk.
    + destruct (Ascii.eqb c newline); [apply Hk | auto].
    + auto.
Qed.

End Monotone.

(** A pattern that extends another by further items matches only where
    the shorter one matches. *)
Lemma Cat_prefix (ic : bool) (R R' : Type) (l l' : list regex) :
  forall (s : string) (caps : captures)
         (k : string -> captures -> option R) (k0 : string -> captures -> option R'),
    (forall s' c', k0 s' c' <> None) ->
    Re.run ic R (Cat (l ++ l')%list) s caps k <> None ->
    Re.run ic R' (Cat l) s caps k0 <> None.
Proof.
  induction l as [|r l IH]; intros s caps k k0 H0; cbn [Cat app Re.run].
  - intros _. apply H0.
  - apply run_mono. intros s1 c1. apply IH. exact H0.
Qed.

(** *** Completeness for patterns without [$] *)

Section Complete.

Variable ic : bool.
Variable R : Type.

Lemma star_fallback (p : ascii -> bool) (s : string) (k : string -> option R) :
  k s <> None -> Re.star R p s k <> None.
Proof.
  intros H. destruct s as [|c s]; cbn [Re.star]; [exact H | ].
  destruct (p c); [ | exact H].
  destruct (Re.star R p s k); [discriminate | exact H].
Qed.

Lemma star_complete (p : ascii -> bool) (w s : string) (k : string -> option R) :
  forall_chars p w = true -> k s <> None -> Re.star R p (w ++ s) k <> None.
Proof.
  intros Hw Hk. induction w as [|c w IH]; cbn [append].
  - apply star_fallback, Hk.
  - cbn in Hw. apply andb_true_iff in Hw. destruct Hw as [Hc Hw].
    cbn [Re.star]. rewrite Hc.
    specialize (IH Hw).
    destruct (Re.star R p (w ++ s) k); [discriminate | exact (False_ind _ (IH eq_refl))].
Qed.

Lemma run_complete (r : regex) :
  eol_free r = true ->
  forall (w s : string) (caps : captures) (k : string -> captures -> option R),
    lang ic r w -> (forall c, k s c <> None) -> Re.run ic R r (w ++ s) caps k <> None.
Proof.
  induction r as [ | c | p | p | r1 IH1 r2 IH2 | r1 IH1 r2 IH2 | n r1 IH1 | ];
    cbn [eol_free lang]; intros F w s caps k L Hk; cbn [Re.run].
  - subst w. apply Hk.
  - destruct L as (d & -> & E). cbn [append]. rewrite E. apply Hk.
  - destruct L as (d & -> & E). cbn [append]. rewrite E. apply Hk.
  - apply star_complete; [exact L | apply Hk].
  - apply andb_true_iff in F. destruct F as [F1 F2].
    destruct L as (w1 & w2 & -> & L1 & L2). rewrite append_assoc.
    apply (IH1 F1 w1 (w2 ++ s) caps _ L1). intros c.
    apply (IH2 F2 w2 s c k L2 Hk).
  - apply andb_true_iff in F. destruct F as [F1 F2].
    destruct L as [L | L].
    + pose proof (IH1 F1 w s caps k L Hk) as G.
      destruct (Re.run ic R r1 (w ++ s) caps k); [discriminate | exact (False_ind _ (G eq_refl))].
    + destruct (Re.run ic R r1 (w ++ s) caps k); [discriminate | ].
      apply (IH2 F2 w s caps k L Hk).
  - apply (IH1 F w s caps _ L). intros c. apply Hk.
  - discriminate F.
Qed.

End Complete.

(** [re.match] with a pattern without [$] succeeds exactly on the
    strings that start with a string of the pattern's language. *)
Lemma accepts_iff_lang (r : regex) (s : string) :
  eol_free r = true ->
  (accepts r s <-> exists w tail, s = w ++ tail /\ lang false r w).
Proof.
  intros F. unfold accepts, Re.matches. split.
  - destruct (Re.match_ false r s) as [m | ] eqn:E; [ | discriminate].
    intros _.
    assert (G : groups_in (fun _ _ => True) false r) by (clear; induction r; cbn; auto).
    destruct (match_sound false _ r s m G E) as [(w & -> & L) _].
    exists w, (rest m). auto.
  - intros (w & tail & -> & L).
    destruct (Re.match_ false r (w ++ tail)) as [m | ] eqn:E; [reflexivity | ].
    exfalso. unfold Re.match_ in E. revert E.
    apply (run_complete false Match r F w tail [] _ L). discriminate.
Qed.

Lemma accepts_run (r : regex) (s : string) :
  accepts r s <->
  Re.run false Match r s [] (fun s' caps => Some {| groups := caps; rest := s' |}) <> None.
Proof.
  unfold accepts, Re.matches, Re.match_.
  destruct (Re.run false Match r s [] _); split; intros H; congruence.
Qed.

(** A pattern that other items follow matches wherever the longer
    pattern matches. *)
Lemma accepts_prefix (l l' : list regex) (s : string) :
  accepts (Cat (l ++ l')%list) s -> accepts (Cat l) s.
Proof. rewrite !accepts_run. apply Cat_prefix. intros s' c'. discriminate. Qed.

Lemma lang_Cat_app (ic : bool) (l l' : list regex) (w : string) :
  lang ic (Cat (l ++ l')%list) w
  <-> exists w1 w2, w = w1 ++ w2 /\ lang ic (Cat l) w1 /\ lang ic (Cat l') w2.
Proof.
  revert w. induction l as [|r l IH]; intros w; cbn [Cat app lang].
  - split.
    + intros H. exists "", w. auto.
    + intros (w1 & w2 & -> & -> & H). exact H.
  - split.
    + intros (a & b & -> & La & Lb). apply IH in Lb.
      destruct Lb as (w1 & w2 & -> & L1 & L2).
      exists (a ++ w1), w2. rewrite append_assoc. split; [reflexivity | ].
      split; [ | exact L2]. exists a, w1. auto.
    + intros (w1 & w2 & -> & (a & b & -> & La & Lb) & L2).
      exists a, (b ++ w2). rewrite append_assoc. split; [reflexivity | ].
      split; [exact La | ]. apply IH. exists b, w2. auto.
Qed.

End RegexFacts.

(* ================================================================= *)
(** ** Parsed entries are well formed; how the three patterns relate *)

Module EntryFacts.

Import LogEntry Parsers ParserSpec RegexSpec RegexFacts EntrySpec.

Local Open Scope string_scope.

Lemma lang_Plus (ic : bool) (p : ascii -> bool) (w : string) :
  lang ic (Plus p) w -> w <> "" /\ forall_chars p w = true.
Proof.
  unfold Plus. cbn [lang]. intros (w1 & w2 & -> & (d & -> & Hd) & H2).
  cbn [append forall_chars]. rewrite Hd, H2.
  split; [discriminate | reflexivity].
Qed.

Lemma lang_dash (w : string) : lang false (Chr "-") w -> w = "-".
Proof.
  cbn [lang]. intros (d & -> & H). unfold Re.chr_eq in H.
  apply Ascii.eqb_eq in H. subst. reflexivity.
Qed.

Ltac kinds :=
  repeat match goal with
         | |- _ /\ _ => split
         | |- True => exact I
         | |- forall w, _ -> _ =>
             let w := fresh "w" in
             let H := fresh "H" in
             intros w H;
             first [ exact I
                   | exact (lang_Plus _ _ _ H)
                   | exact H
                   | destruct H as [H | H];
                     [ left; exact (lang_Plus _ _ _ H) | right; exact (lang_dash _ H) ] ]
         end.

Lemma common_groups : groups_in common_fields false _get_common_log_pattern.
Proof. unfold _get_common_log_pattern. cbn [groups_in Cat Plus]. kinds. Qed.

Lemma combined_groups : groups_in combined_fields false _get_combined_log_pattern.
Proof. unfold _get_combined_log_pattern. cbn [groups_in Cat Plus]. kinds. Qed.

Lemma custom_groups : groups_in custom_fields false _get_custom_log_pattern.
Proof. unfold _get_custom_log_pattern. cbn [groups_in Cat Plus Lit]. kinds. Qed.

(** [int] of a string of digits. *)
Lemma digit_not_space (c : ascii) : isdigit c = true -> isspace c = false.
Proof.
  unfold isdigit, isspace. generalize (code c). intros n H.
  apply andb_true_iff in H. destruct H as [H1 H2].
  apply Nat.leb_le in H1. apply Nat.leb_le in H2.
  repeat match goal with
         | |- context [(?a <=? ?b)%nat] => destruct (Nat.leb_spec a b)
         | |- context [(?a =? ?b)%nat] => destruct (Nat.eqb_spec a b)
         end; cbn; try reflexivity; lia.
Qed.

Lemma rstrip_no_space (s : string) :
  forall_chars (fun c => negb (isspace c)) s = true -> rstrip s = s.
Proof.
  induction s as [|c s IH]; cbn [rstrip forall_chars]; [reflexivity | ].
  intros H. apply andb_true_iff in H. destruct H as [Hc Hs]. rewrite (IH Hs).
  destruct s; [ | reflexivity]. apply negb_true_iff in Hc. rewrite Hc. reflexivity.
Qed.

Lemma strip_no_space (s : string) :
  forall_chars (fun c => negb (isspace c)) s = true -> strip s = s.
Proof.
  intros H. unfold strip.
  assert (L : lstrip s = s).
  { destruct s as [|c s]; [reflexivity | ]. cbn in *.
    apply andb_true_iff in H. destruct H as [Hc _]. apply negb_true_iff in Hc.
    rewrite Hc. reflexivity. }
  rewrite L. apply rstrip_no_space, H.
Qed.

Lemma forall_chars_impl (p q : ascii -> bool) (s : string) :
  (forall c, p c = true -> q c = true) -> forall_chars p s = true -> forall_chars q s = true.
Proof.
  intros Hpq. induction s as [|c s IH]; cbn; [auto | ].
  intros H. apply andb_true_iff in H. destruct H as [Hc Hs].
  rewrite (Hpq c Hc), (IH Hs). reflexivity.
Qed.

Lemma digit_val_nonneg (c : ascii) : isdigit c = true -> (0 <= digit_val c)%Z.
Proof.
  unfold isdigit, digit_val. intros H. apply andb_true_iff in H. destruct H as [H _].
  apply Nat.leb_le in H. lia.
Qed.

Lemma int_digits_nonneg (s : string) (prev : bool) (acc : Z) :
  forall_chars isdigit s = true -> (prev = true \/ s <> "") -> (0 <= acc)%Z ->
  exists z, int_digits s prev acc = Some z /\ (0 <= z)%Z.
Proof.
  revert prev acc. induction s as [|c s IH]; intros prev acc H Hp Hacc; cbn [int_digits].
  - destruct Hp as [-> | Hp]; [eauto | congruence].
  - cbn in H. apply andb_true_iff in H. destruct H as [Hc Hs]. rewrite Hc.
    apply IH; [exact Hs | left; reflexivity | ].
    pose proof (digit_val_nonneg c Hc). lia.
Qed.

Lemma digit_not_sign (c : ascii) (A : Type) (minus plus other : A) :
  isdigit c = true ->
  match c with
  | "-"%char => minus
  | "+"%char => plus
  | _ => other
  end = other.
Proof.
  destruct c as [[] [] [] [] [] [] [] []]; intros H; try reflexivity; discriminate H.
Qed.

Lemma int_of_digits (w : string) : digits w -> exists z, int w = Ok z /\ (0 <= z)%Z.
Proof.
  intros [Hne Hd]. unfold int.
  rewrite strip_no_space
    by (apply (forall_chars_impl cls_d); [ | exact Hd];
        intros c Hc; apply negb_true_iff, digit_not_space, Hc).
  destruct w as [|c t]; [congruence | ].
  assert (Hc : isdigit c = true) by (cbn in Hd; apply andb_true_iff in Hd; apply Hd).
  destruct (int_digits_nonneg (String c t) false 0 Hd) as (z & Ez & Hz);
    [right; discriminate | lia | ].
  exists z. split; [ | exact Hz].
  transitivity (match (if isdigit c then int_digits (String c t) false 0 else None) with
                | Some z => Ok z
                | None => Raise ValueError
                end).
  - destruct c as [[] [] [] [] [] [] [] []]; try reflexivity; discriminate Hc.
  - rewrite Hc, Ez. reflexivity.
Qed.

Lemma size_of_group (g : string) (z : Z) :
  digits g \/ g = "-" ->
  (if negb (String.eqb g "-") then int g else Ok 0%Z) = Ok z -> (0 <= z)%Z.
Proof.
  intros Hg. destruct (String.eqb_spec g "-") as [-> | Hne]; cbn.
  - intros H. injection H as <-. lia.
  - destruct Hg as [Hd | ->]; [ | congruence].
    destruct (int_of_digits g Hd) as (z' & -> & Hz). intros H. injection H as <-. exact Hz.
Qed.

Lemma int_of_group (g : string) (z : Z) : digits g -> int g = Ok z -> (0 <= z)%Z.
Proof.
  intros Hd. destruct (int_of_digits g Hd) as (z' & -> & Hz).
  intros H. injection H as <-. exact Hz.
Qed.

(** Running the body of a format parser backwards from its entry, the
    nested conversions included. *)
Ltac invert_entry H :=
  apply SanitizeFacts.except_Some in H;
  repeat (apply SanitizeFacts.bind_Ok in H;
          let a := fresh "a" in let E := fresh "E" in destruct H as (a & E & H));
  repeat match goal with
         | E : Py.bind _ _ = Ok _ |- _ =>
             apply SanitizeFacts.bind_Ok in E;
             let g := fresh "g" in let G := fresh "G" in destruct E as (g & G & E)
         end;
  match type of H with
  | match ?t with _ => _ end = _ => destruct t; [ | discriminate ]
  end;
  injection H as <-.

Section WithLibrary.

Variable strptime : string -> string -> pyresult Datetime.t.

Local Abbreviation parser := Parsers.__init__.

Lemma common_well_formed (line : string) (e : LogEntry.t) :
  _parse_common_format strptime parser line = Ok (Some e) -> well_formed e.
Proof.
  unfold _parse_common_format. cbn [patterns common parser Parsers.__init__].
  destruct (Re.match_ false _get_common_log_pattern line) as [m | ] eqn:M; [ | discriminate].
  intros H. invert_entry H.
  pose proof (fun n w => group_kind common_fields false _ line m n w common_groups M) as K.
  refine (conj (K 1 _ _) (conj (K 3 _ _) (conj (K 4 _ _) (conj _ (conj _ (conj _ (conj _ _)))))));
    cbn [ip method path user_agent country status_code response_size response_time];
    try eassumption.
  - reflexivity.
  - left. reflexivity.
  - eapply int_of_group; [apply (K 5); eassumption | eassumption].
  - eapply size_of_group; [apply (K 6); eassumption | eassumption].
  - lia.
Qed.

Lemma combined_well_formed (line : string) (e : LogEntry.t) :
  _parse_combined_format strptime parser line = Ok (Some e) -> well_formed e.
Proof.
  unfold _parse_combined_format. cbn [patterns combined parser Parsers.__init__].
  destruct (Re.match_ false _get_combined_log_pattern line) as [m | ] eqn:M; [ | discriminate].
  intros H. invert_entry H.
  pose proof (fun n w => group_kind combined_fields false _ line m n w combined_groups M) as K.
  refine (conj (K 1 _ _) (conj (K 3 _ _) (conj (K 4 _ _) (conj (K 8 _ _)
           (conj _ (conj _ (conj _ _)))))));
    cbn [ip method path user_agent country status_code response_size response_time];
    try eassumption.
  - left. reflexivity.
  - eapply int_of_group; [apply (K 5); eassumption | eassumption].
  - eapply size_of_group; [apply (K 6); eassumption | eassumption].
  - lia.
Qed.

Lemma custom_well_formed (line : string) (e : LogEntry.t) :
  _parse_custom_format strptime parser line = Ok (Some e) -> well_formed e.
Proof.
  unfold _parse_custom_format. cbn [patterns custom parser Parsers.__init__].
  destruct (Re.match_ false _get_custom_log_pattern line) as [m | ] eqn:M; [ | discriminate].
  intros H. invert_entry H.
  pose proof (fun n w => group_kind custom_fields false _ line m n w custom_groups M) as K.
  refine (conj (K 1 _ _) (conj (K 4 _ _) (conj (K 5 _ _) (conj (K 9 _ _)
           (conj (or_intror (K 2 _ _)) (conj _ (conj _ _)))))));
    cbn [ip method path user_agent country status_code response_size response_time];
    try eassumption.
  - eapply int_of_group; [apply (K 6); eassumption | eassumption].
  - eapply size_of_group; [left; apply (K 7); eassumption | eassumption].
  - eapply int_of_group; [apply (K 10); eassumption | eassumption].
Qed.

Lemma parse_log_line_well_formed (line : string) (e : LogEntry.t) :
  parse_log_line strptime parser line = Ok (Some e) -> well_formed e.
Proof.
  rewrite ParserFacts.parse_log_line_order.
  destruct (String.eqb (strip line) "" || startswith (strip line) "#"); [discriminate | ].
  unfold grammars, first_success.
  destruct (_parse_custom_format strptime parser (strip line)) as [[e1 | ] | x] eqn:E1;
    [ intros H; injection H as <-; apply (custom_well_formed _ _ E1) | | discriminate ].
  destruct (_parse_combined_format strptime parser (strip line)) as [[e2 | ] | x] eqn:E2;
    [ intros H; injection H as <-; apply (combined_well_formed _ _ E2) | | discriminate ].
  destruct (_parse_common_format strptime parser (strip line)) as [[e3 | ] | x] eqn:E3;
    [ intros H; injection H as <-; apply (common_well_formed _ _ E3) | discriminate
    | discriminate ].
Qed.

Lemma parse_lines_well_formed (lines : list string) (acc entries : list LogEntry.t) :
  Forall well_formed acc ->
  parse_lines strptime parser lines acc = Ok entries -> Forall well_formed entries.
Proof.
  revert acc. induction lines as [|line lines IH]; intros acc Hacc; cbn [parse_lines].
  - intros H. injection H as <-. exact Hacc.
  - destruct (parse_log_line strptime parser line) as [[e | ] | x] eqn:E; cbn [Py.bind].
    + apply IH. apply Forall_app. split; [exact Hacc | ].
      constructor; [apply (parse_log_line_well_formed _ _ E) | constructor].
    + apply IH. exact Hacc.
    + discriminate.
Qed.

(** X7.  Every entry the parser returns is well formed, whatever
    [strptime] does: its IP and method are non-empty and free of white
    space, its path and user agent hold no double quote, its country is
    [--] or a token, and its status code, response size and response
    time are not negative.  The same holds of every entry of a parsed
    file. *)
Theorem parsed_entries_well_formed (read_lines : string -> pyresult (list string)) :
  (forall line e, parse_log_line strptime parser line = Ok (Some e) -> well_formed e)
  /\ (forall file_path entries,
        parse_log_file strptime read_lines parser file_path = Ok entries ->
        Forall well_formed entries).
Proof.
  split; [apply parse_log_line_well_formed | ].
  intros file_path entries. unfold parse_log_file.
  destruct (read_lines file_path) as [lines | x]; cbn [Py.bind]; [ | discriminate].
  destruct (parse_lines strptime parser lines []) as [es | x] eqn:E; [ | discriminate].
  intros H. injection H as <-. apply (parse_lines_well_formed lines [] es); [constructor | exact E].
Qed.

End WithLibrary.

End EntryFacts.

(* ================================================================= *)
(** ** How the three patterns relate *)

Module PatternFacts.

Import LogEntry Parsers ParserSpec RegexSpec RegexFacts EntrySpec.

Local Open Scope string_scope.

Lemma combined_accepts_common (s : string) :
  accepts _get_combined_log_pattern s -> accepts _get_common_log_pattern s.
Proof.
  change _get_combined_log_pattern with (Cat (common_items ++ combined_items)%list).
  change _get_common_log_pattern with (Cat common_items).
  apply accepts_prefix.
Qed.

(** Two tokens that are each followed by a space in the same string
    are the same token. *)
Lemma token_space_unique (a b x y : string) :
  forall_chars cls_S a = true -> forall_chars cls_S b = true ->
  a ++ String " " x = b ++ String " " y -> a = b /\ x = y.
Proof.
  revert b. induction a as [|c a IH]; intros [|d b] Ha Hb; cbn [append]; intros H.
  - injection H as <-. auto.
  - injection H as <- _. cbn in Hb. discriminate.
  - injection H as -> _. cbn in Ha. discriminate.
  - injection H as <- H. cbn in Ha, Hb.
    apply andb_true_iff in Ha. apply andb_true_iff in Hb.
    destruct (IH b (proj2 Ha) (proj2 Hb) H) as [-> ->]. auto.
Qed.

Lemma lang_Chr (c : ascii) (w : string) : lang false (Chr c) w -> w = String c "".
Proof.
  cbn [lang]. intros (d & -> & H). unfold Re.chr_eq in H.
  apply Ascii.eqb_eq in H. subst. reflexivity.
Qed.

Lemma lang_token (w : string) :
  lang false (Plus cls_S) w -> forall_chars cls_S w = true.
Proof. intros H. apply EntryFacts.lang_Plus in H. apply H. Qed.

(** The first fields of a line of the common pattern and of a line of
    the custom pattern. *)
Lemma common_head (w : string) :
  lang false _get_common_log_pattern w ->
  exists t1 t2 t3 tail,
    w = t1 ++ String " " (t2 ++ String " " (t3 ++ String " " (String "[" tail)))
    /\ forall_chars cls_S t1 = true /\ forall_chars cls_S t2 = true
    /\ forall_chars cls_S t3 = true.
Proof.
  unfold _get_common_log_pattern. cbn [Cat].
  intros (t1 & w1 & -> & H1 & s1 & w2 & -> & Hs1 & t2 & w3 & -> & H2 & s2 & w4 & -> & Hs2
          & t3 & w5 & -> & H3 & s3 & w6 & -> & Hs3 & b & tail & -> & Hb & _).
  apply lang_Chr in Hs1, Hs2, Hs3, Hb. subst.
  exists t1, t2, t3, tail. cbn [append].
  repeat split; try reflexivity; apply lang_token; assumption.
Qed.

Lemma custom_head (w : string) :
  lang false _get_custom_log_pattern w ->
  exists t1 t2 tail,
    w = t1 ++ String " " (String "-" (String " "
          (t2 ++ String " " (String "-" (String " " (String "[" tail))))))
    /\ forall_chars cls_S t1 = true /\ forall_chars cls_S t2 = true.
Proof.
  unfold _get_custom_log_pattern. cbn [Cat Lit].
  intros (t1 & w1 & -> & H1 & d1 & w2 & -> & Hd1 & t2 & w3 & -> & H2 & d2 & w4 & -> & Hd2
          & b & tail & -> & Hb & _).
  destruct Hd1 as (x1 & y1 & -> & Hx1 & x2 & y2 & -> & Hx2 & x3 & y3 & -> & Hx3 & ->).
  destruct Hd2 as (u1 & v1 & -> & Hu1 & u2 & v2 & -> & Hu2 & u3 & v3 & -> & Hu3 & ->).
  apply lang_Chr in Hx1, Hx2, Hx3, Hu1, Hu2, Hu3, Hb. subst.
  exists t1, t2, tail. cbn [append].
  repeat split; try reflexivity; apply lang_token; assumption.
Qed.

Lemma groups_in_any (ic : bool) (r : regex) : groups_in (fun _ _ => True) ic r.
Proof. induction r; cbn; auto. Qed.

Lemma accepts_lang (r : regex) (s : string) :
  accepts r s -> exists w tail, s = w ++ tail /\ lang false r w.
Proof.
  unfold accepts, Re.matches. destruct (Re.match_ false r s) as [m | ] eqn:E; [ | discriminate].
  intros _. destruct (match_sound false _ r s m (groups_in_any false r) E) as [(w & -> & L) _].
  exists w, (rest m). auto.
Qed.

Lemma app_String (a b r : string) (c : ascii) :
  (a ++ String c b) ++ r = a ++ String c (b ++ r).
Proof. rewrite append_assoc. reflexivity. Qed.

Lemma custom_rejects_common (s : string) :
  accepts _get_custom_log_pattern s -> accepts _get_common_log_pattern s -> False.
Proof.
  intros Hc Hm.
  destruct (accepts_lang _ _ Hc) as (w & r & -> & L).
  destruct (accepts_lang _ _ Hm) as (w' & r' & E & L').
  destruct (custom_head _ L) as (t1 & t2 & tail & -> & T1 & T2).
  destruct (common_head _ L') as (a1 & a2 & a3 & tail' & -> & A1 & A2 & A3).
  rewrite !app_String in E. cbn [append] in E. rewrite !app_String in E. cbn [append] in E.
  apply token_space_unique in E; [ | assumption | assumption].
  destruct E as [_ E].
  apply (token_space_unique "-" a2) in E; [ | reflexivity | assumption].
  destruct E as [_ E].
  apply token_space_unique in E; [ | assumption | assumption].
  destruct E as [_ E]. discriminate E.
Qed.

(** X8.  How the three patterns of the parser relate: a line that the
    combined pattern matches is matched by the common pattern too, and
    a line that the custom pattern matches is matched by neither of the
    other two. *)
Theorem patterns_nested_and_apart (s : string) :
  (accepts _get_combined_log_pattern s -> accepts _get_common_log_pattern s)
  /\ (accepts _get_custom_log_pattern s ->
      ~ accepts _get_common_log_pattern s /\ ~ accepts _get_combined_log_pattern s).
Proof.
  split; [apply combined_accepts_common | ].
  intros Hc. split; intros H.
  - exact (custom_rejects_common s Hc H).
  - exact (custom_rejects_common s Hc (combined_accepts_common s H)).
Qed.

End PatternFacts.

(* ================================================================= *)
(** ** [sanitize_filename] *)

Module FilenameFacts.

Import ValidationUtils FilenameSpec.

Local Open Scope string_scope.

Lemma match_len_class (p : ascii -> bool) (c : ascii) (s : string) :
  match_len (Cls p) (String c s) = if p c then Some 1 else None.
Proof.
  unfold match_len, Re.match_. cbn [Re.run]. destruct (p c); [ | reflexivity].
  cbn [rest]. f_equal. cbn [String.length]. lia.
Qed.

(** Substitution for a class replaces character by character. *)
Lemma sub_class_with (p : ascii -> bool) (repl s : string) :
  sub (Cls p) repl s = replace_chars p repl s.
Proof.
  unfold sub. induction s as [|c s IH]; cbn [sub_go replace_chars]; [reflexivity | ].
  rewrite match_len_class. destruct (p c); rewrite IH; reflexivity.
Qed.

Lemma sub_class_chars (p q : ascii -> bool) (repl s : string) :
  forall_chars q repl = true ->
  (forall c, p c = false -> q c = true) ->
  forall_chars q (sub (Cls p) repl s) = true.
Proof.
  intros Hr Hq. rewrite sub_class_with.
  induction s as [|c s IH]; [reflexivity | ].
  cbn [replace_chars]. destruct (p c) eqn:E.
  - rewrite RegexFacts.forall_chars_app, Hr, IH. reflexivity.
  - cbn [forall_chars]. rewrite (Hq c E), IH. reflexivity.
Qed.

Lemma sub_class_keeps (p q : ascii -> bool) (s : string) :
  forall_chars q s = true -> forall_chars q (sub (Cls p) "" s) = true.
Proof.
  intros H. rewrite sub_class_with.
  induction s as [|c s IH]; [reflexivity | ].
  cbn [forall_chars] in H. apply andb_true_iff in H. destruct H as [Hc Hs].
  cbn [replace_chars]. destruct (p c); cbn [append forall_chars]; [apply IH, Hs | ].
  rewrite Hc, (IH Hs). reflexivity.
Qed.

Lemma sub_class_none (p : ascii -> bool) (repl s : string) :
  forall_chars (fun c => negb (p c)) s = true -> sub (Cls p) repl s = s.
Proof.
  intros H. rewrite sub_class_with.
  induction s as [|c s IH]; [reflexivity | ].
  cbn [forall_chars] in H. apply andb_true_iff in H. destruct H as [Hc Hs].
  apply negb_true_iff in Hc. cbn [replace_chars]. rewrite Hc, (IH Hs). reflexivity.
Qed.

(** Stripping keeps a part of the string and leaves no stripped
    character at its start. *)
Lemma lstrip_chars_chars (q : ascii -> bool) (chars s : string) :
  forall_chars q s = true -> forall_chars q (lstrip_chars chars s) = true.
Proof.
  induction s as [|c s IH]; cbn [lstrip_chars]; [auto | ].
  intros H. destruct (contains c chars); [ | exact H].
  cbn [forall_chars] in H. apply andb_true_iff in H. apply IH, H.
Qed.

Lemma rstrip_chars_chars (q : ascii -> bool) (chars s : string) :
  forall_chars q s = true -> forall_chars q (rstrip_chars chars s) = true.
Proof.
  induction s as [|c s IH]; cbn [rstrip_chars]; [auto | ].
  intros H. cbn [forall_chars] in H. apply andb_true_iff in H. destruct H as [Hc Hs].
  specialize (IH Hs). destruct (rstrip_chars chars s) as [|d t].
  - destruct (contains c chars); [reflexivity | ]. cbn. rewrite Hc. reflexivity.
  - cbn [forall_chars] in *. rewrite Hc, IH. reflexivity.
Qed.

Lemma lstrip_chars_start (chars s : string) :
  starts_in (fun c => contains c chars) (lstrip_chars chars s) = false.
Proof.
  induction s as [|c s IH]; cbn [lstrip_chars]; [reflexivity | ].
  destruct (contains c chars) eqn:E; [exact IH | ]. cbn. exact E.
Qed.

Lemma rstrip_chars_start (p : ascii -> bool) (chars s : string) :
  starts_in p s = false -> starts_in p (rstrip_chars chars s) = false.
Proof.
  destruct s as [|c s]; cbn [rstrip_chars starts_in]; [auto | ].
  intros H. destruct (rstrip_chars chars s); [ | exact H].
  destruct (contains c chars); [reflexivity | exact H].
Qed.

Lemma take_chars (q : ascii -> bool) (n : nat) (s : string) :
  forall_chars q s = true -> forall_chars q (take n s) = true.
Proof.
  revert s. induction n as [|n IH]; intros [|c s]; cbn [take forall_chars]; auto.
  intros H. apply andb_true_iff in H. destruct H as [Hc Hs].
  rewrite Hc, (IH s Hs). reflexivity.
Qed.

Lemma take_length (n : nat) (s : string) : (String.length (take n s) <= n)%nat.
Proof.
  revert s. induction n as [|n IH]; intros [|c s]; cbn [take String.length]; try lia.
  specialize (IH s). lia.
Qed.

Lemma take_start (p : ascii -> bool) (n : nat) (s : string) :
  starts_in p s = false -> starts_in p (take n s) = false.
Proof. destruct n, s; cbn; auto. Qed.

Lemma plain_parts (s : string) :
  forall_chars plain (sub (Cls control) "" (sub (Cls special) "_" s)) = true.
Proof.
  assert (A : forall_chars (fun c => negb (special c))
                (sub (Cls control) "" (sub (Cls special) "_" s)) = true).
  { apply sub_class_keeps. apply sub_class_chars; [reflexivity | ].
    intros c ->. reflexivity. }
  assert (B : forall_chars (fun c => negb (control c))
                (sub (Cls control) "" (sub (Cls special) "_" s)) = true).
  { apply sub_class_chars; [reflexivity | ]. intros c ->. reflexivity. }
  revert A B. generalize (sub (Cls control) "" (sub (Cls special) "_" s)).
  intros t. induction t as [|c t IH]; cbn [forall_chars]; [reflexivity | ].
  intros A B. apply andb_true_iff in A. apply andb_true_iff in B.
  unfold plain at 1. rewrite (proj1 A), (proj1 B), (IH (proj2 A) (proj2 B)). reflexivity.
Qed.

(** X12.  [sanitize_filename] returns, for every input, a name that
    is not empty, has at most 255 characters, holds none of the nine
    special characters and no control character, and does not start
    with a dot or a space. *)
Theorem sanitize_filename_safe (filename : string) :
  sanitize_filename filename <> ""
  /\ (String.length (sanitize_filename filename) <= 255)%nat
  /\ forall_chars plain (sanitize_filename filename) = true
  /\ starts_in trimmed (sanitize_filename filename) = false.
Proof.
  unfold sanitize_filename.
  destruct (String.eqb filename ""); [repeat split; [discriminate | cbn; lia] | ].
  pose proof (plain_parts filename) as P.
  set (t := sub (Cls control) "" (sub (Cls special) "_" filename)) in *.
  assert (Q : forall_chars plain (strip_chars ". " t) = true).
  { apply rstrip_chars_chars, lstrip_chars_chars, P. }
  assert (S : starts_in trimmed (strip_chars ". " t) = false).
  { apply rstrip_chars_start. apply (lstrip_chars_start ". " t). }
  set (u := strip_chars ". " t) in *.
  assert (N : (if String.eqb u "" then "unnamed" else u) <> ""
              /\ forall_chars plain (if String.eqb u "" then "unnamed" else u) = true
              /\ starts_in trimmed (if String.eqb u "" then "unnamed" else u) = false).
  { destruct (String.eqb_spec u "") as [E | E]; [ | auto].
    repeat split. discriminate. }
  set (v := if String.eqb u "" then "unnamed" else u) in *.
  destruct N as (N1 & N2 & N3).
  destruct (Nat.ltb_spec 255 (String.length v)) as [L | L].
  - repeat split.
    + destruct v as [|c v]; [cbn in L; lia | discriminate].
    + apply take_length.
    + apply take_chars, N2.
    + apply take_start, N3.
  - auto.
Qed.

Lemma lstrip_chars_same (chars s : string) :
  starts_in (fun c => contains c chars) s = false -> lstrip_chars chars s = s.
Proof. destruct s as [|c s]; cbn; [auto | ]. intros ->. reflexivity. Qed.

Lemma rstrip_chars_same (chars s : string) :
  ends_in (fun c => contains c chars) s = false -> rstrip_chars chars s = s.
Proof.
  induction s as [|c s IH]; [reflexivity | ].
  cbn [rstrip_chars ends_in]. destruct s as [|d s].
  - cbn. intros ->. reflexivity.
  - intros H. rewrite (IH H). reflexivity.
Qed.

Lemma forall_chars_weaken (p q : ascii -> bool) (s : string) :
  (forall c, p c = true -> q c = true) -> forall_chars p s = true -> forall_chars q s = true.
Proof.
  intros Hpq. induction s as [|c s IH]; cbn [forall_chars]; [auto | ].
  intros H. apply andb_true_iff in H. destruct H as [Hc Hs].
  rewrite (Hpq c Hc), (IH Hs). reflexivity.
Qed.

(** X13.  [sanitize_filename] returns a safe name unchanged: one that
    is not empty, has at most 255 characters, none of them special or
    a control character, and neither a dot nor a space at either
    end. *)
Theorem sanitize_filename_keeps_safe_names (filename : string) :
  safe_name filename -> sanitize_filename filename = filename.
Proof.
  intros (N & L & P & S & E). unfold sanitize_filename.
  destruct (String.eqb_spec filename "") as [E0 | _]; [contradiction | ].
  rewrite (sub_class_none special "_" filename).
  2:{ apply (forall_chars_weaken plain); [ | exact P].
      unfold plain. intros c H. apply andb_true_iff in H. apply H. }
  rewrite (sub_class_none control "" filename).
  2:{ apply (forall_chars_weaken plain); [ | exact P].
      unfold plain. intros c H. apply andb_true_iff in H. apply H. }
  unfold strip_chars. rewrite (lstrip_chars_same ". " filename S).
  rewrite (rstrip_chars_same ". " filename E).
  destruct (String.eqb_spec filename "") as [E0 | _]; [contradiction | ].
  destruct (Nat.ltb_spec 255 (String.length filename)); [lia | reflexivity].
Qed.

End FilenameFacts.

(* ================================================================= *)
(** ** [detect_log_format] *)

Module DetectFacts.

Import ValidationUtils DetectSpec RegexSpec RegexFacts.

Local Open Scope string_scope.

Lemma apache_combined_in_common (s : string) :
  accepts apache_combined s -> accepts apache_common s.
Proof.
  change apache_combined with (Cat ((head_common ++ request_items) ++ quoted_items)%list).
  change apache_common with (Cat (head_common ++ request_items)%list).
  apply accepts_prefix.
Qed.

Lemma lang_one (c : ascii) : lang false (Chr c) (String c "").
Proof. exists c. split; [reflexivity | ]. unfold Re.chr_eq. apply Ascii.eqb_refl. Qed.

Lemma head_nginx_in_common (w : string) :
  lang false (Cat head_nginx) w -> lang false (Cat head_common) w.
Proof.
  unfold head_nginx, head_common. cbn [Cat Lit].
  intros (t1 & w1 & -> & H1 & d & w2 & -> & Hd & t2 & w3 & -> & H2 & s1 & w4 & -> & Hs1 & ->).
  destruct Hd as (x1 & y1 & -> & Hx1 & x2 & y2 & -> & Hx2 & x3 & y3 & -> & Hx3 & ->).
  exists t1, (x1 ++ (x2 ++ (x3 ++ (t2 ++ (s1 ++ ""))))).
  split; [rewrite !append_assoc; reflexivity | ]. split; [exact H1 | ].
  exists x1, (x2 ++ (x3 ++ (t2 ++ (s1 ++ "")))). split; [reflexivity | ].
  split; [exact Hx1 | ].
  exists x2, (x3 ++ (t2 ++ (s1 ++ ""))). split; [reflexivity | ]. split.
  { cbn [lang] in Hx2. destruct Hx2 as (c & -> & E). unfold Re.chr_eq in E.
    apply Ascii.eqb_eq in E. subst c. exists "-", "". repeat split.
    exists "-"%char. split; reflexivity. }
  exists x3, (t2 ++ (s1 ++ "")). split; [reflexivity | ]. split; [exact Hx3 | ].
  exists t2, (s1 ++ ""). split; [reflexivity | ]. split; [exact H2 | ].
  exists s1, "". repeat split. exact Hs1.
Qed.

Lemma nginx_combined_in_common (s : string) :
  accepts nginx_combined s -> accepts apache_common s.
Proof.
  rewrite !accepts_iff_lang by reflexivity.
  change nginx_combined with (Cat (head_nginx ++ (request_items ++ quoted_items))%list).
  change apache_common with (Cat (head_common ++ request_items)%list).
  intros (w & tail & -> & L).
  apply lang_Cat_app in L. destruct L as (w1 & w23 & -> & L1 & L23).
  apply lang_Cat_app in L23. destruct L23 as (w2 & w3 & -> & L2 & L3).
  exists (w1 ++ w2), (w3 ++ tail). split; [rewrite !append_assoc; reflexivity | ].
  apply lang_Cat_app. exists w1, w2. split; [reflexivity | ].
  split; [apply head_nginx_in_common, L1 | exact L2].
Qed.

(** One line of the sample changes the scores by the hits of the four
    patterns. *)
Lemma score_line_scores (a b c d : Z) (line : string) :
  score_line (scores a b c d) line
  = if String.eqb (strip line) "" || startswith (strip line) "#" then scores a b c d
    else scores (if Re.matches false apache_common (strip line) then a + 1 else a)%Z
                (if Re.matches false apache_combined (strip line) then b + 1 else b)%Z
                (if Re.matches false nginx_combined (strip line) then c + 1 else c)%Z
                (if Re.matches false custom (strip line) then d + 1 else d)%Z.
Proof.
  unfold score_line. destruct (String.eqb (strip line) "" || startswith (strip line) "#");
    [reflexivity | ].
  unfold patterns. cbn [fold_left].
  generalize (Re.matches false apache_common (strip line)),
             (Re.matches false apache_combined (strip line)),
             (Re.matches false nginx_combined (strip line)),
             (Re.matches false custom (strip line)).
  intros [|] [|] [|] [|]; reflexivity.
Qed.

Lemma fold_score_line (lines : list string) :
  forall a b c d : Z,
    (0 <= b <= a)%Z -> (0 <= c <= a)%Z ->
    exists b' c' : Z,
      fold_left score_line lines (scores a b c d)
      = scores (a + hits apache_common
                       (filter (fun line => negb (String.eqb line "" || startswith line "#"))
                               (map strip lines)))%Z
               b' c'
               (d + hits custom
                      (filter (fun line => negb (String.eqb line "" || startswith line "#"))
                              (map strip lines)))%Z
      /\ (0 <= b' <= a + hits apache_common
                         (filter (fun line => negb (String.eqb line "" || startswith line "#"))
                                 (map strip lines)))%Z
      /\ (0 <= c' <= a + hits apache_common
                         (filter (fun line => negb (String.eqb line "" || startswith line "#"))
                                 (map strip lines)))%Z.
Proof.
  induction lines as [|line lines IH]; intros a b c d Hb Hc; cbn [fold_left map filter].
  - exists b, c. unfold hits. cbn. rewrite !Z.add_0_r. auto.
  - rewrite score_line_scores.
    destruct (String.eqb (strip line) "" || startswith (strip line) "#"); cbn [negb].
    + apply IH; assumption.
    + pose proof (apache_combined_in_common (strip line)) as I1.
      pose proof (nginx_combined_in_common (strip line)) as I2.
      unfold accepts in I1, I2. unfold hits. cbn [filter].
      destruct (Re.matches false apache_common (strip line)),
               (Re.matches false apache_combined (strip line)),
               (Re.matches false nginx_combined (strip line)),
               (Re.matches false custom (strip line));
        try (specialize (I1 eq_refl); discriminate I1);
        try (specialize (I2 eq_refl); discriminate I2);
        cbn [List.length];
        match goal with
        | |- exists b' c', fold_left score_line lines (scores ?a' ?b0 ?c0 ?d') = _ /\ _ =>
            destruct (IH a' b0 c0 d' ltac:(lia) ltac:(lia)) as (b' & c' & E & Hb' & Hc');
            exists b', c'; rewrite E; unfold hits in *;
            repeat split; try lia; f_equal; try lia; repeat f_equal; lia
        end.
Qed.

(** X14.  [detect_log_format] has three answers.  It answers [custom]
    when the custom pattern matches more of the sampled lines than the
    apache_common pattern does, otherwise [apache_common] when that
    pattern matches at least one sampled line, and otherwise nothing.
    It never answers [apache_combined] or [nginx_combined]: a line
    that one of these patterns matches is matched by apache_common
    too, which comes first in the dict. *)
Theorem detect_log_format_answers (sample_lines : list string) :
  detect_log_format sample_lines
  = if (hits apache_common (sampled sample_lines) <? hits custom (sampled sample_lines))%Z
    then Some "custom"
    else if (0 <? hits apache_common (sampled sample_lines))%Z then Some "apache_common"
    else None.
Proof.
  unfold detect_log_format, sampled.
  destruct sample_lines as [|l0 ls]; [reflexivity | ].
  change (map (fun '(fmt, _) => (fmt, 0%Z)) patterns) with (scores 0 0 0 0).
  destruct (fold_score_line (firstn 10 (l0 :: ls)) 0 0 0 0 ltac:(lia) ltac:(lia))
    as (b & c & -> & Hb & Hc).
  cbn [Z.add].
  set (a := hits apache_common _) in *. set (d := hits custom _) in *.
  assert (Hd : (0 <= d)%Z) by (unfold d, hits; lia).
  assert (Eb : (a <? b)%Z = false) by (apply Z.ltb_ge; lia).
  assert (Ec : (a <? c)%Z = false) by (apply Z.ltb_ge; lia).
  unfold scores, values, max_of, max_key. cbn [map snd fst fold_left].
  rewrite Eb. cbn [snd]. rewrite Ec. cbn [fst snd]. rewrite Z.gtb_ltb.
  clearbody a d.
  destruct (a <? d)%Z eqn:E; cbn [fst snd]; [ | reflexivity].
  apply Z.ltb_lt in E. destruct (Z.ltb_spec 0 d); [reflexivity | lia].
Qed.

End DetectFacts.

(* ================================================================= *)
(** ** [validate_log_format] *)

Module FormatValidationFacts.

Import Parsers FormatValidation FormatValidationSpec.

Local Open Scope string_scope.
Local Open Scope Z_scope.

Section WithLibrary.

Variable file_lines : string -> pyresult (list string * option exn).
Variable fmt_int : Z -> string.

Lemma count_failed_consistent (results : Results) (n : Z) (line : string) (a b c : Z) :
  consistent results a b c -> consistent (count_failed fmt_int results n line) a b c.
Proof.
  unfold consistent, count_failed. cbn [parsed_lines failed_lines sample_failures].
  intros (H1 & H2 & H3 & H4). repeat split; try lia.
  destruct (Z.ltb_spec (Z.of_nat (List.length (sample_failures results))) 5).
  - rewrite length_app. cbn [List.length]. lia.
  - lia.
Qed.

(** What a run of the loop from line number [n] does to the counters,
    and how it is left: by an exception only when the file raised after
    its last line, all of its lines counted. *)
Lemma scan_counts (self : LogParser) (sample_size : Z) (lines : list string)
      (failure : option exn) :
  forall (n : Z) (results : Results) (a b c : Z),
    consistent results a b c ->
    exists (results' : Results) (a' b' c' : Z) (raised : option exn),
      scan fmt_int self sample_size lines failure n results (format_counts a b c)
      = (results', format_counts a' b' c', raised)
      /\ consistent results' a' b' c'
      /\ (results'.(error) = results.(error)
          /\ results'.(detected_format) = results.(detected_format)
          /\ results'.(format_confidence) = results.(format_confidence))
      /\ results.(total_lines) <= results'.(total_lines)
         <= results.(total_lines) + Z.of_nat (List.length lines)
      /\ results'.(total_lines) - results.(total_lines) <= Z.max 1 (sample_size + 2 - n)
      /\ 0 <= (results'.(parsed_lines) + results'.(failed_lines))
              - (results.(parsed_lines) + results.(failed_lines))
           <= results'.(total_lines) - results.(total_lines)
      /\ (results'.(parsed_lines) + results'.(failed_lines))
         - (results.(parsed_lines) + results.(failed_lines))
         <= Z.max 0 (sample_size + 1 - n)
      /\ (raised = None
          \/ (raised = failure
              /\ results'.(total_lines)
                 = results.(total_lines) + Z.of_nat (List.length lines)))
      /\ (n + Z.of_nat (List.length lines) <= sample_size -> raised = failure).
Proof.
  induction lines as [|line lines IH]; intros n results a b c C.
  - exists results, a, b, c, failure. cbn [scan List.length].
    split; [reflexivity | ]. split; [exact C | ].
    split; [auto | ]. repeat split; try lia. right. split; [reflexivity | lia].
  - cbn [scan].
    assert (C1 : consistent (count_line results) a b c) by exact C.
    assert (Cp : forall a' b' c', a' + b' + c' = a + b + c + 1 ->
                   0 <= a' -> 0 <= b' -> 0 <= c' ->
                   consistent (count_parsed (count_line results)) a' b' c').
    { intros a' b' c' E Ha Hb Hc. destruct C as (H1 & H2 & H3 & H4).
      unfold consistent. cbn [count_parsed count_line parsed_lines failed_lines sample_failures].
      repeat split; try lia. }
    pose proof (count_failed_consistent (count_line results) n (strip line) a b c C1) as Cf.
    destruct C as ((Ha & Hb & Hc) & C).
    change (ValidationUtils.increment (format_counts a b c) "custom")
      with (format_counts (a + 1) b c).
    change (ValidationUtils.increment (format_counts a b c) "combined")
      with (format_counts a (b + 1) c).
    change (ValidationUtils.increment (format_counts a b c) "common")
      with (format_counts a b (c + 1)).
    destruct (Z.leb_spec n sample_size) as [Hle | Hle];
      [ destruct (String.eqb (strip line) "" || startswith (strip line) "#");
        [ | destruct (Re.matches false (custom (patterns self)) (strip line));
            [ | destruct (Re.matches false (combined (patterns self)) (strip line));
                [ | destruct (Re.matches false (common (patterns self)) (strip line)) ] ] ]
      | ];
      rewrite ?Z.geb_leb;
      try destruct (Z.leb_spec sample_size n) as [Hge | Hge];
      match goal with
      | |- exists _ _ _ _ _, scan _ _ _ _ _ _ ?r (format_counts ?a' ?b' ?c') = _ /\ _ =>
          let K := fresh "K" in
          assert (K : consistent r a' b' c') by (first [exact C1 | exact Cf | apply Cp; lia]);
          destruct (IH (n + 1) r a' b' c' K)
            as (r' & a2 & b2 & c2 & raised & E & K' & (Ee & Ed & Ec) & T1 & T2 & P1 & P2
                & R1 & R2);
          exists r', a2, b2, c2, raised;
          cbn [count_failed count_parsed count_line total_lines parsed_lines failed_lines
               error detected_format format_confidence]
            in Ee, Ed, Ec, T1, T2, P1, P2, R1;
          cbn [List.length];
          split; [exact E | ]; split; [exact K' | ];
          split; [auto | ];
          split; [lia | ]; split; [lia | ]; split; [lia | ]; split; [lia | ];
          split; [destruct R1 as [R1 | [R1 R1']]; [left; exact R1 | right; split; [exact R1 | lia]]
                 | intros L; apply R2; lia]
      | |- exists _ _ _ _ _, (?r, format_counts ?a' ?b' ?c', None) = _ /\ _ =>
          let K := fresh "K" in
          assert (K : consistent r a' b' c') by (first [exact C1 | exact Cf | apply Cp; lia]);
          exists r, a', b', c', None;
          cbn [count_failed count_parsed count_line total_lines parsed_lines failed_lines
               error detected_format format_confidence];
          cbn [List.length];
          split; [reflexivity | ]; split; [exact K | ];
          split; [auto | ];
          split; [lia | ]; split; [lia | ]; split; [lia | ]; split; [lia | ];
          split; [left; reflexivity | intros L; lia]
      end.
Qed.

(** When the sample covers all the lines, the parsed lines are the
    recognised ones. *)
Lemma scan_parsed (self : LogParser) (sample_size : Z) (lines : list string)
      (failure : option exn) :
  forall (n : Z) (results : Results) (format_matches : dict Z),
    n + Z.of_nat (List.length lines) - 1 <= sample_size ->
    (fst (fst (scan fmt_int self sample_size lines failure n results format_matches)))
      .(parsed_lines)
    = results.(parsed_lines) + Z.of_nat (List.length (filter (recognised self) lines)).
Proof.
  induction lines as [|line lines IH]; intros n results fm Hn.
  - cbn. lia.
  - cbn [scan filter]. cbn [List.length] in Hn. unfold recognised at 1. cbv zeta.
    destruct (Z.leb_spec n sample_size) as [Hle | Hle]; [ | lia].
    destruct (String.eqb (strip line) "" || startswith (strip line) "#"); cbn [negb andb].
    + rewrite IH by lia. reflexivity.
    + rewrite Z.geb_leb.
      destruct (Re.matches false (custom (patterns self)) (strip line));
        [ | destruct (Re.matches false (combined (patterns self)) (strip line));
            [ | destruct (Re.matches false (common (patterns self)) (strip line)) ] ];
        cbn [orb];
        (destruct (Z.leb_spec sample_size n) as [Hge | Hge];
         [ assert (lines = []) as -> by (destruct lines; [reflexivity | cbn [List.length] in Hn; lia]);
           cbn; lia
         | rewrite IH by lia; cbn [List.length count_parsed count_failed count_line parsed_lines];
           lia ]).
Qed.

Section Entries.

Variable strptime : string -> string -> pyresult Datetime.t.
Variable read_lines : string -> pyresult (list string).

Lemma parse_format_recognised (r : regex) (line : string) (e : LogEntry.t)
      (body : Match -> pyresult (option LogEntry.t)) :
  match Re.match_ false r line with
  | None => Ok None
  | Some m => body m
  end = Ok (Some e) ->
  Re.matches false r line = true.
Proof.
  unfold Re.matches. destruct (Re.match_ false r line); [reflexivity | discriminate].
Qed.

Lemma parse_log_line_recognised (self : LogParser) (line : string) (e : LogEntry.t) :
  parse_log_line strptime self line = Ok (Some e) -> recognised self line = true.
Proof.
  unfold parse_log_line, recognised. cbv zeta.
  destruct (String.eqb (strip line) "" || startswith (strip line) "#"); [discriminate | ].
  cbn [negb andb].
  destruct (_parse_custom_format strptime self (strip line)) as [[e1 | ] | x] eqn:E1;
    cbn [Py.bind]; [ | | discriminate].
  { intros _. apply parse_format_recognised in E1. rewrite E1. reflexivity. }
  destruct (_parse_combined_format strptime self (strip line)) as [[e2 | ] | x] eqn:E2;
    cbn [Py.bind]; [ | | discriminate].
  { intros _. apply parse_format_recognised in E2. rewrite E2, orb_true_r. reflexivity. }
  destruct (_parse_common_format strptime self (strip line)) as [[e3 | ] | x] eqn:E3;
    cbn [Py.bind]; [ | discriminate | discriminate].
  intros _. apply parse_format_recognised in E3. rewrite E3. rewrite !orb_true_r. reflexivity.
Qed.

Lemma parse_lines_recognised (self : LogParser) (lines : list string) :
  forall acc entries : list LogEntry.t,
    parse_lines strptime self lines acc = Ok entries ->
    Z.of_nat (List.length entries)
    <= Z.of_nat (List.length acc) + Z.of_nat (List.length (filter (recognised self) lines)).
Proof.
  induction lines as [|line lines IH]; intros acc entries; cbn [parse_lines filter].
  - intros H. injection H as <-. cbn. lia.
  - destruct (parse_log_line strptime self line) as [[e | ] | x] eqn:E; cbn [Py.bind];
      [ | | discriminate].
    + intros H. apply IH in H. rewrite (parse_log_line_recognised self line e E).
      rewrite length_app in H. cbn [List.length] in *. lia.
    + intros H. apply IH in H. destruct (recognised self line); cbn [List.length]; lia.
Qed.

(** X18.  When the sample covers the whole file, [parsed_lines] of
    [validate_log_format] bounds the number of entries that
    [parse_log_file] returns for the same file, read without a failure
    by both: a line that gives an entry is not blank, is no comment and
    matches one of the three patterns. *)
Theorem entries_bounded_by_parsed_lines (self : LogParser) (file_path : string)
        (sample_size : Z) (lines : list string) (entries : list LogEntry.t) :
  read_lines file_path = Ok lines ->
  file_lines file_path = Ok (lines, None) ->
  Z.of_nat (List.length lines) <= sample_size ->
  parse_log_file strptime read_lines self file_path = Ok entries ->
  Z.of_nat (List.length entries)
  <= (validate_log_format file_lines fmt_int self file_path sample_size).(parsed_lines).
Proof.
  intros Hr Hf Hs Hp. unfold parse_log_file in Hp. rewrite Hr in Hp. cbn [Py.bind] in Hp.
  destruct (parse_lines strptime self lines []) as [es | x] eqn:E; [ | discriminate].
  injection Hp as <-. apply parse_lines_recognised in E. cbn [List.length] in E.
  unfold validate_log_format. rewrite Hf.
  pose proof (scan_parsed self sample_size lines None 1
                {| total_lines := 0; parsed_lines := 0; failed_lines := 0;
                   detected_format := None; sample_failures := []; error := None;
                   format_confidence := None |}
                [("custom"%string, 0); ("combined"%string, 0); ("common"%string, 0)]
                ltac:(lia)) as P.
  destruct (scan fmt_int self sample_size lines None 1 _ _) as [[r fm] [x | ]];
    cbn [fst parsed_lines] in P.
  - cbn [with_error parsed_lines]. lia.
  - destruct (ValidationUtils.max_key fm); cbn [parsed_lines]; lia.
Qed.

End Entries.

Lemma max_key_counts (a b c : Z) :
  exists k, ValidationUtils.max_key (format_counts a b c) = Some k
            /\ In k ["custom"; "combined"; "common"]%string
            /\ (a = 0 -> b = 0 -> c = 0 ->
                k = "custom"%string
                /\ Detectors.dict_get (format_counts a b c) k 0 = 0).
Proof.
  unfold ValidationUtils.max_key, format_counts. cbn [fold_left snd].
  destruct (Z.ltb_spec a b) as [Hab | Hab]; cbn [snd].
  - destruct (Z.ltb_spec b c) as [Hbc | Hbc]; cbn [fst]; eexists;
      (split; [reflexivity | split; [cbn; tauto | intros; lia]]).
  - destruct (Z.ltb_spec a c) as [Hac | Hac]; cbn [fst]; eexists;
      (split; [reflexivity | split; [cbn; tauto | ]]).
    + intros; lia.
    + intros -> _ _. split; reflexivity.
Qed.

(** X15.  [validate_log_format] does not raise.  When the file cannot
    be opened the result carries the message under [error], counters at
    0 and no detected format.  Otherwise the file yields lines and then
    ends or raises.  In both cases the parsed and the failed lines are
    counted among the first [sample_size] lines, so their sum is at
    most [sample_size] and at most [total_lines]; [total_lines] is at
    most the number of lines the file yields and at most
    [sample_size + 1] (1 for a sample size below 1), the loop being
    left one line late when line [sample_size] is blank or a comment;
    and [sample_failures] holds the first min(5, [failed_lines])
    failures.  The result has no [error] when the file ends, and also
    when the file would raise but the loop is left before; then the
    detected format is one of the three names, and it is [custom] with
    confidence 0.0 when no line was parsed.  When the file raises and
    the loop asks for the line, which it does whenever the file yields
    fewer than [sample_size] lines, the result carries the message
    under [error] with the counters as they stood, every yielded line
    counted in [total_lines], and no detected format. *)
Theorem validate_log_format_counts (self : LogParser) (file_path : string)
        (sample_size : Z) :
  let results := validate_log_format file_lines fmt_int self file_path sample_size in
  (forall e, file_lines file_path = Raise e ->
     results.(error) = Some (exn_str e)
     /\ results.(total_lines) = 0 /\ results.(parsed_lines) = 0
     /\ results.(failed_lines) = 0 /\ results.(detected_format) = None)
  /\ (forall lines failure, file_lines file_path = Ok (lines, failure) ->
        (0 <= results.(parsed_lines) /\ 0 <= results.(failed_lines)
         /\ results.(parsed_lines) + results.(failed_lines) <= results.(total_lines)
            <= Z.of_nat (List.length lines)
         /\ results.(parsed_lines) + results.(failed_lines) <= Z.max 0 sample_size
         /\ results.(total_lines) <= Z.max 1 (sample_size + 1)
         /\ Z.of_nat (List.length results.(sample_failures)) = Z.min 5 results.(failed_lines))
        /\ (failure = None -> results.(error) = None)
        /\ (results.(error) = None ->
            In results.(detected_format) [Some "custom"; Some "combined"; Some "common"]%string
            /\ (results.(parsed_lines) = 0 ->
                results.(detected_format) = Some "custom"%string
                /\ results.(format_confidence) = Some 0%float))
        /\ (forall e, failure = Some e ->
              results.(error) = None
              \/ (results.(error) = Some (exn_str e)
                  /\ results.(detected_format) = None
                  /\ results.(format_confidence) = None
                  /\ results.(total_lines) = Z.of_nat (List.length lines)))
        /\ (forall e, failure = Some e ->
              Z.of_nat (List.length lines) < sample_size ->
              results.(error) = Some (exn_str e))).
Proof.
  cbn zeta. unfold validate_log_format. split.
  - intros e ->. cbn. auto.
  - intros lines failure ->.
    change [("custom"%string, 0); ("combined"%string, 0); ("common"%string, 0)]
      with (format_counts 0 0 0).
    destruct (scan_counts self sample_size lines failure 1
                {| total_lines := 0; parsed_lines := 0; failed_lines := 0;
                   detected_format := None; sample_failures := []; error := None;
                   format_confidence := None |} 0 0 0)
      as (r & a & b & c & raised & -> & ((Ha & Hb & Hc) & Hp & Hf & Hs) & (Ee & Ed & Ec)
          & T1 & T2 & P1 & P2 & R1 & R2).
    { unfold consistent. cbn. lia. }
    cbn [total_lines parsed_lines failed_lines error detected_format format_confidence]
      in Ee, Ed, Ec, T1, T2, P1, P2, R1.
    destruct raised as [x | ].
    + (* the file raised *)
      destruct R1 as [R1 | [R1 R1']]; [discriminate R1 | ].
      cbn [with_error total_lines parsed_lines failed_lines error detected_format
           sample_failures format_confidence].
      split; [repeat split; lia | ].
      split; [intros F; rewrite F in R1; discriminate R1 | ].
      split; [discriminate | ].
      split.
      * intros e F. right. rewrite F in R1. injection R1 as ->.
        repeat split; [exact Ed | exact Ec | lia].
      * intros e F _. rewrite F in R1. injection R1 as ->. reflexivity.
    + (* the loop ended or was left *)
      destruct (max_key_counts a b c) as (k & -> & Hk & Hz).
      cbn [total_lines parsed_lines failed_lines error detected_format sample_failures
           format_confidence].
      split; [repeat split; lia | ].
      split; [intros _; exact Ee | ].
      split.
      * intros _. split.
        -- cbn [In] in Hk |- *. destruct Hk as [<- | [<- | [<- | []]]]; auto.
        -- intros Z0. assert (a = 0 /\ b = 0 /\ c = 0) as (-> & -> & ->) by lia.
           destruct (Hz eq_refl eq_refl eq_refl) as (-> & ->). split; reflexivity.
      * split.
        -- intros e _. left. exact Ee.
        -- intros e F L. assert (G : None = failure) by (apply R2; lia).
           rewrite F in G. discriminate G.
Qed.

End WithLibrary.

End FormatValidationFacts.

(* ================================================================= *)
(** ** [AnalysisResult]: blocking recommendations and blocklist *)

Module ThreatFacts.

Import Models ThreatSpec.

Local Open Scope string_scope.

Section AnalysisResult.

Variable Any : Type.

Lemma at_levels_cons (levels : list string) (t : ThreatInfo.t) (threats : list ThreatInfo.t) :
  at_levels levels (t :: threats)
  = if existsb (String.eqb t.(ThreatInfo.risk_level)) levels
    then t.(ThreatInfo.ip) :: at_levels levels threats
    else at_levels levels threats.
Proof.
  unfold at_levels. cbn [filter].
  destruct (existsb (String.eqb (ThreatInfo.risk_level t)) levels); reflexivity.
Qed.

Lemma at_other_levels_cons (levels : list string) (t : ThreatInfo.t)
      (threats : list ThreatInfo.t) :
  at_other_levels levels (t :: threats)
  = if existsb (String.eqb t.(ThreatInfo.risk_level)) levels
    then at_other_levels levels threats
    else t.(ThreatInfo.ip) :: at_other_levels levels threats.
Proof.
  unfold at_other_levels. cbn [filter].
  destruct (existsb (String.eqb (ThreatInfo.risk_level t)) levels); reflexivity.
Qed.

(** A level is CRITICAL, HIGH, MEDIUM or none of them. *)
Lemma level_cases (level : string) :
  level = "CRITICAL" \/ level = "HIGH" \/ level = "MEDIUM"
  \/ (String.eqb level "CRITICAL" = false /\ String.eqb level "HIGH" = false
      /\ String.eqb level "MEDIUM" = false).
Proof.
  destruct (String.eqb_spec level "CRITICAL"); [tauto | ].
  destruct (String.eqb_spec level "HIGH"); [tauto | ].
  destruct (String.eqb_spec level "MEDIUM"); tauto.
Qed.

Lemma recommendations_from (threats : list ThreatInfo.t) :
  forall a b c d : list string,
    fold_left (fun recommendations threat =>
                 if String.eqb threat.(ThreatInfo.risk_level) "CRITICAL" then
                   append_to recommendations "immediate_block" threat.(ThreatInfo.ip)
                 else if String.eqb threat.(ThreatInfo.risk_level) "HIGH" then
                   append_to recommendations "rate_limit_strict" threat.(ThreatInfo.ip)
                 else if String.eqb threat.(ThreatInfo.risk_level) "MEDIUM" then
                   append_to recommendations "rate_limit_moderate" threat.(ThreatInfo.ip)
                 else
                   append_to recommendations "monitor_only" threat.(ThreatInfo.ip))
              threats (four_lists a b c d)
    = four_lists (a ++ at_levels ["CRITICAL"] threats) (b ++ at_levels ["HIGH"] threats)
                 (c ++ at_levels ["MEDIUM"] threats)
                 (d ++ at_other_levels ["CRITICAL"; "HIGH"; "MEDIUM"] threats).
Proof.
  induction threats as [|t threats IH]; intros a b c d; cbn [fold_left].
  - unfold at_levels, at_other_levels. cbn. rewrite !app_nil_r. reflexivity.
  - rewrite !at_levels_cons, at_other_levels_cons. cbn [existsb].
    destruct (level_cases (ThreatInfo.risk_level t)) as [E | [E | [E | (E1 & E2 & E3)]]];
      [rewrite E | rewrite E | rewrite E | rewrite E1, E2, E3]; cbn [String.eqb Ascii.eqb Bool.eqb orb].
    + change (append_to (four_lists a b c d) "immediate_block" (ThreatInfo.ip t))
        with (four_lists (a ++ [ThreatInfo.ip t]) b c d).
      rewrite IH, <- app_assoc. reflexivity.
    + change (append_to (four_lists a b c d) "rate_limit_strict" (ThreatInfo.ip t))
        with (four_lists a (b ++ [ThreatInfo.ip t]) c d).
      rewrite IH, <- app_assoc. reflexivity.
    + change (append_to (four_lists a b c d) "rate_limit_moderate" (ThreatInfo.ip t))
        with (four_lists a b (c ++ [ThreatInfo.ip t]) d).
      rewrite IH, <- app_assoc. reflexivity.
    + change (append_to (four_lists a b c d) "monitor_only" (ThreatInfo.ip t))
        with (four_lists a b c (d ++ [ThreatInfo.ip t])).
      rewrite IH, <- app_assoc. reflexivity.
Qed.

Lemma recommendations_lists (self : AnalysisResult Any) :
  get_blocking_recommendations Any self
  = four_lists (at_levels ["CRITICAL"] self.(top_threats Any))
               (at_levels ["HIGH"] self.(top_threats Any))
               (at_levels ["MEDIUM"] self.(top_threats Any))
               (at_other_levels ["CRITICAL"; "HIGH"; "MEDIUM"] self.(top_threats Any)).
Proof.
  unfold get_blocking_recommendations.
  apply (recommendations_from (top_threats Any self) [] [] [] []).
Qed.

Lemma four_lists_get (a b c d : list string) :
  Detectors.dict_get (four_lists a b c d) "immediate_block" [] = a
  /\ Detectors.dict_get (four_lists a b c d) "rate_limit_strict" [] = b.
Proof. split; reflexivity. Qed.

Lemma at_levels_one (level : string) (threats : list ThreatInfo.t) :
  List.length (at_levels [level] threats)
  = List.length (filter (fun t => String.eqb t.(ThreatInfo.risk_level) level) threats).
Proof.
  unfold at_levels. rewrite length_map. f_equal. apply filter_ext. intros t.
  cbn [existsb]. apply orb_false_r.
Qed.

Lemma levels_partition (threats : list ThreatInfo.t) :
  Permutation (at_levels ["CRITICAL"] threats ++ at_levels ["HIGH"] threats
               ++ at_levels ["MEDIUM"] threats
               ++ at_other_levels ["CRITICAL"; "HIGH"; "MEDIUM"] threats)
              (map ThreatInfo.ip threats).
Proof.
  induction threats as [|t threats IH]; [apply perm_nil | ].
  rewrite !at_levels_cons, at_other_levels_cons. cbn [existsb map].
  destruct (level_cases (ThreatInfo.risk_level t)) as [E | [E | [E | (E1 & E2 & E3)]]];
    [rewrite E | rewrite E | rewrite E | rewrite E1, E2, E3];
    cbn [String.eqb Ascii.eqb Bool.eqb orb].
  - cbn [app]. apply perm_skip, IH.
  - apply Permutation_sym, Permutation_cons_app, Permutation_sym, IH.
  - apply Permutation_sym. rewrite app_assoc. apply Permutation_cons_app.
    rewrite <- app_assoc. apply Permutation_sym, IH.
  - apply Permutation_sym. rewrite !app_assoc. apply Permutation_cons_app.
    rewrite <- !app_assoc. apply Permutation_sym, IH.
Qed.

(** X16.  [get_blocking_recommendations] sorts the threats into four
    lists by level: CRITICAL, HIGH, MEDIUM, and any other level under
    [monitor_only], each in the order of [top_threats].  Together the
    four lists hold the [ip] of every threat, once per threat, and the
    first two are as long as [critical_threats] and [high_threats] of
    [get_summary_stats] say. *)
Theorem blocking_recommendations_partition (self : AnalysisResult Any) :
  get_blocking_recommendations Any self
  = four_lists (at_levels ["CRITICAL"] self.(top_threats Any))
               (at_levels ["HIGH"] self.(top_threats Any))
               (at_levels ["MEDIUM"] self.(top_threats Any))
               (at_other_levels ["CRITICAL"; "HIGH"; "MEDIUM"] self.(top_threats Any))
  /\ Permutation (List.concat (values (get_blocking_recommendations Any self)))
                 (map ThreatInfo.ip self.(top_threats Any))
  /\ (get_summary_stats Any self).(SummaryStats.critical_threats)
     = Z.of_nat (List.length (Detectors.dict_get (get_blocking_recommendations Any self)
                                                 "immediate_block" []))
  /\ (get_summary_stats Any self).(SummaryStats.high_threats)
     = Z.of_nat (List.length (Detectors.dict_get (get_blocking_recommendations Any self)
                                                 "rate_limit_strict" [])).
Proof.
  rewrite recommendations_lists. split; [reflexivity | ]. split.
  - unfold four_lists, values. cbn [map snd List.concat]. rewrite app_nil_r.
    apply levels_partition.
  - rewrite (proj1 (four_lists_get _ _ _ _)), (proj2 (four_lists_get _ _ _ _)).
    rewrite !at_levels_one. split; reflexivity.
Qed.

Variable list_of_set : list string -> list string.

(** X17.  [export_blocklist] of an analysis result returns no
    duplicate, and exactly the [ip]s of the threats whose level is
    among the given levels; without levels, exactly the [ip]s that
    [get_blocking_recommendations] lists under [immediate_block] or
    [rate_limit_strict]. *)
Theorem export_blocklist_members (self : AnalysisResult Any)
        (risk_levels : option (list string)) :
  lists_each_once list_of_set ->
  NoDup (export_blocklist Any list_of_set self risk_levels)
  /\ (forall ip,
        In ip (export_blocklist Any list_of_set self risk_levels)
        <-> In ip (at_levels (match risk_levels with
                              | None => ["CRITICAL"; "HIGH"]
                              | Some levels => levels
                              end) self.(top_threats Any)))
  /\ (forall ip,
        In ip (export_blocklist Any list_of_set self None)
        <-> In ip (Detectors.dict_get (get_blocking_recommendations Any self)
                                      "immediate_block" [])
            \/ In ip (Detectors.dict_get (get_blocking_recommendations Any self)
                                         "rate_limit_strict" [])).
Proof.
  intros H. unfold export_blocklist. split; [apply H | ]. split.
  - intros ip. apply H.
  - intros ip. rewrite (proj2 (H _)). rewrite recommendations_lists.
    rewrite (proj1 (four_lists_get _ _ _ _)), (proj2 (four_lists_get _ _ _ _)).
    unfold at_levels. rewrite !in_map_iff. split.
    + intros (t & <- & Ht). apply filter_In in Ht. destruct Ht as [Ht L].
      cbn [existsb] in L. rewrite orb_false_r in L. apply orb_true_iff in L.
      destruct L as [L | L]; [left | right]; exists t; (split; [reflexivity | ]);
        apply filter_In; cbn [existsb]; rewrite L; auto.
    + intros [(t & <- & Ht) | (t & <- & Ht)]; exists t; (split; [reflexivity | ]);
        apply filter_In in Ht; destruct Ht as [Ht L]; apply filter_In;
          cbn [existsb] in *; rewrite orb_false_r in L; rewrite L;
            rewrite ?orb_true_r; auto.
Qed.

End AnalysisResult.

End ThreatFacts.

(* ================================================================= *)
(** ** Further worked examples *)

Module FurtherExamples.

Import TrafficPattern BotDetectionResult LogEntry Detectors Signals Parsers ParserSpec
       Scenarios.
Import VerdictSpec RegexSpec EntrySpec Reports ReportSpec ValidationUtils FilenameSpec
       FormatValidation Models ThreatSpec ThreatScenario FileScenario.

Local Open Scope string_scope.

(** X1 on the scraper and the visitor. *)
Lemma detect_bots_in_order_witness :
  keys verdicts = ["203.0.113.7"; "198.51.100.4"]
  /\ map BotDetectionResult.ip (values verdicts) = ["203.0.113.7"; "198.51.100.4"].
Proof.
  assert (N : NoDup (keys [("203.0.113.7", scraper); ("198.51.100.4", visitor)])).
  { cbn. repeat constructor; cbn; intuition discriminate. }
  destruct (VerdictFacts.detect_bots_in_order shown_float shown_float shown_int _ N)
    as (_ & K & I).
  split; [exact K | exact I].
Defined.

(** X5 at the scraper. *)
Lemma bot_needs_two_signals_witness :
  (2 <= List.length (analyze scraper).(reasons))%nat.
Proof.
  apply (VerdictFacts.bot_needs_two_signals shown_float shown_float shown_int scraper).
  vm_compute. reflexivity.
Defined.

Lemma verdicts_have_levels : valid_levels verdicts.
Proof.
  unfold valid_levels. vm_compute.
  repeat first [ apply Forall_nil | apply Forall_cons ]; auto 10.
Qed.

(** X9 on the two verdicts. *)
Lemma report_lists_are_blocklists_witness :
  Detectors.export_blocklist detector verdicts "CRITICAL"
  = Ok (generate_bot_report detector verdicts).(immediate_blocks).
Proof.
  apply (ReportFacts.report_lists_are_blocklists detector verdicts verdicts_have_levels).
Defined.

(** X7 on the first line of the log. *)
Lemma parsed_entries_well_formed_witness :
  Forall well_formed (parsed_entries Strptime.strptime Parsers.__init__ access_log).
Proof.
  apply (proj2 (EntryFacts.parsed_entries_well_formed Strptime.strptime disk) "access.log").
  vm_compute. reflexivity.
Defined.

(** X13 on a plain name. *)
Lemma sanitize_filename_keeps_safe_names_witness :
  sanitize_filename "report-2023.txt" = "report-2023.txt".
Proof.
  apply FilenameFacts.sanitize_filename_keeps_safe_names.
  unfold safe_name. repeat split; try reflexivity; [discriminate | cbn; lia].
Defined.

Lemma each_once_lists_each_once : lists_each_once each_once.
Proof.
  intros l. split; [apply NoDup_nodup | ]. intros x. apply nodup_In.
Qed.

(** X17 on the two threats. *)
Lemma export_blocklist_members_witness :
  NoDup (Models.export_blocklist unit each_once analysis None)
  /\ (In "192.0.2.33" (Models.export_blocklist unit each_once analysis None)
      <-> In "192.0.2.33" (at_levels ["CRITICAL"; "HIGH"] analysis.(top_threats unit))).
Proof.
  destruct (ThreatFacts.export_blocklist_members unit each_once analysis None
              each_once_lists_each_once) as (N & M & _).
  split; [exact N | apply M].
Defined.

(** X18 on the four-line log. *)
Lemma entries_bounded_by_parsed_lines_witness :
  (Z.of_nat (List.length (parsed_entries Strptime.strptime Parsers.__init__ access_log))
   <= (validate_log_format files shown_int Parsers.__init__ "access.log" 100).(parsed_lines))%Z.
Proof.
  apply (FormatValidationFacts.entries_bounded_by_parsed_lines files shown_int
           Strptime.strptime disk Parsers.__init__ "access.log" 100 access_log).
  - reflexivity.
  - reflexivity.
  - vm_compute. discriminate.
  - vm_compute. reflexivity.
Defined.

(** X15 on the file that fails after two lines, sampled with 100 lines
    and with 2. *)
Lemma validate_log_format_counts_witness :
  (validate_log_format files shown_int Parsers.__init__ "broken.log" 100).(error)
  = Some (exn_str OSError)
  /\ (validate_log_format files shown_int Parsers.__init__ "broken.log" 2).(error) = None.
Proof.
  split.
  - apply (proj2 (proj2 (proj2 (proj2
             (proj2 (FormatValidationFacts.validate_log_format_counts files shown_int
                       Parsers.__init__ "broken.log" 100)
                    (firstn 2 access_log) (Some OSError) eq_refl)))) OSError eq_refl).
    vm_compute. reflexivity.
  - vm_compute. reflexivity.
Defined.

(** X20 at the visitor and the scraper. *)
Lemma risk_level_monotone_witness :
  exists k k' : nat,
    rank (analyze visitor).(risk_level) = Some k
    /\ rank (analyze scraper).(risk_level) = Some k'
    /\ (k <= k')%nat.
Proof.
  apply (OrderFacts.risk_level_monotone shown_float shown_float shown_int visitor scraper).
  - unfold triggers_more.
    repeat split; intros;
      first [ vm_compute; reflexivity
            | match goal with H : _ = true |- _ => vm_compute in H; discriminate H end ].
  - vm_compute. discriminate.
  - intros H. vm_compute in H. discriminate H.
Defined.

End FurtherExamples.
